(** * Production report reconciliation: a shallow embedding of
      [production_functions.py] and the properties of its core stages.

    The embedding follows the Python source stage by stage:
    - [get_style_numbers_from_plan], from column A of every sheet;
    - the row loops of plan and daily-production ingestion
      ([get_row_wise_data_from_plan], [get_row_wise_data_from_daily_prod]),
      from the cells pandas has read;
    - [convert_cumulative_to_daywise_quantities_for_daily_prod];
    - [match_plan_with_actual];
    - [delete_empty_rows];
    - [add_cumulative_columns_to_matched_dict];
    - [write_production_report_to_excel], up to the frames it hands to
      the workbook;
    - [do_everything], which chains them.

    Python [int] is [Z]; [str] is [string] (ASCII, one byte per character);
    a [dict] is an insertion-ordered association list; a [list] is a [list];
    [print] appends to an explicit log. *)

From Stdlib Require Import List String Ascii ZArith QArith Qround Lia Bool.
From Stdlib Require Import Permutation Sorted.
Import ListNotations.

Local Open Scope string_scope.
Local Open Scope list_scope.
Local Open Scope Z_scope.

(* ================================================================== *)
(** * Part I. Definitions                                               *)
(* ================================================================== *)

(** ** Python strings (ASCII fragment) *)

Module Str.

(** [str.isspace] on one ASCII character: TAB..CR, FS..US and SPACE. *)
Definition is_space (c : ascii) : bool :=
  let n := N_of_ascii c in
  (((9 <=? n) && (n <=? 13)) || ((28 <=? n) && (n <=? 32)))%N.

Definition is_upper (c : ascii) : bool :=
  let n := N_of_ascii c in ((65 <=? n) && (n <=? 90))%N.

Definition is_lower (c : ascii) : bool :=
  let n := N_of_ascii c in ((97 <=? n) && (n <=? 122))%N.

Definition is_digit (c : ascii) : bool :=
  let n := N_of_ascii c in ((48 <=? n) && (n <=? 57))%N.

Definition upper_char (c : ascii) : ascii :=
  if is_lower c then ascii_of_N (N_of_ascii c - 32) else c.

Definition lower_char (c : ascii) : ascii :=
  if is_upper c then ascii_of_N (N_of_ascii c + 32) else c.

Fixpoint lstrip_chars (l : list ascii) : list ascii :=
  match l with
  | c :: l' => if is_space c then lstrip_chars l' else l
  | [] => []
  end.

Definition strip_chars (l : list ascii) : list ascii :=
  rev (lstrip_chars (rev (lstrip_chars l))).

(** [s.strip()] *)
Definition strip (s : string) : string :=
  string_of_list_ascii (strip_chars (list_ascii_of_string s)).

(** [s.upper()] and [s.lower()] *)
Definition upper (s : string) : string :=
  string_of_list_ascii (map upper_char (list_ascii_of_string s)).

Definition lower (s : string) : string :=
  string_of_list_ascii (map lower_char (list_ascii_of_string s)).

(** [re.sub(r'\s+', ' ', s)]: every maximal run of white space becomes
    one space. *)
Fixpoint collapse_from (in_run : bool) (l : list ascii) : list ascii :=
  match l with
  | [] => []
  | c :: l' =>
      if is_space c
      then (if in_run then collapse_from true l'
            else " "%char :: collapse_from true l')
      else c :: collapse_from false l'
  end.

Definition collapse (s : string) : string :=
  string_of_list_ascii (collapse_from false (list_ascii_of_string s)).

(** The colour normalisation shared by both ingestion paths:
    [re.sub(r'\s+', ' ', str(v).strip()).lower()]. *)
Definition normalize_colour (s : string) : string :=
  lower (collapse (strip s)).

End Str.

(** ** Calendar dates

    [datetime] values as the code uses them: year, month and day.  The
    time of day is always midnight for values built by [strptime], and it
    is never read from the other ones. *)

Module DT.

Record datetime := mk { year : Z; month : Z; day : Z }.

Definition is_leap (y : Z) : bool :=
  ((y mod 4 =? 0) && negb (y mod 100 =? 0)) || (y mod 400 =? 0).

Definition days_in_month (y m : Z) : Z :=
  if m =? 2 then (if is_leap y then 29 else 28)
  else if (m =? 4) || (m =? 6) || (m =? 9) || (m =? 11) then 30
  else 31.

(** The check made by the [datetime] constructor (MINYEAR = 1,
    MAXYEAR = 9999). *)
Definition valid (d : datetime) : bool :=
  (1 <=? year d) && (year d <=? 9999) &&
  (1 <=? month d) && (month d <=? 12) &&
  (1 <=? day d) && (day d <=? days_in_month (year d) (month d)).

(** Comparison of two [datetime] objects is lexicographic on
    (year, month, day); on valid dates that is the order of this key. *)
Definition key (d : datetime) : Z :=
  year d * 10000 + month d * 100 + day d.

Definition eqb (a b : datetime) : bool := key a =? key b.
Definition leb (a b : datetime) : bool := key a <=? key b.

(** [d.replace(year=y)]: raises [ValueError] (here [None]) when the
    result is not a date, i.e. for 29 February in a common year. *)
Definition replace_year (d : datetime) (y : Z) : option datetime :=
  let d' := mk y (month d) (day d) in
  if valid d' then Some d' else None.

(** [d.toordinal()] and [d.weekday()] (Monday is 0). *)
Definition days_before_year (y : Z) : Z :=
  let p := y - 1 in p * 365 + p / 4 - p / 100 + p / 400.

Fixpoint days_before_month_from (y : Z) (m : nat) : Z :=
  match m with
  | O => 0
  | S m' => days_before_month_from y m' + days_in_month y (Z.of_nat m)
  end.

Definition toordinal (d : datetime) : Z :=
  days_before_year (year d)
  + days_before_month_from (year d) (Z.to_nat (month d - 1))
  + day d.

Definition weekday (d : datetime) : Z := (toordinal d + 6) mod 7.

Definition day_name (d : datetime) : string :=
  nth (Z.to_nat (weekday d))
      ["Monday"; "Tuesday"; "Wednesday"; "Thursday"; "Friday";
       "Saturday"; "Sunday"] "".

(** *** [strftime('%d/%b/%y')] *)

Definition month_abbr : list string :=
  ["Jan"; "Feb"; "Mar"; "Apr"; "May"; "Jun";
   "Jul"; "Aug"; "Sep"; "Oct"; "Nov"; "Dec"].

Definition digit_char (n : Z) : ascii :=
  ascii_of_N (48 + Z.to_N (n mod 10)).

Definition two_digits (n : Z) : string :=
  String (digit_char (n / 10)) (String (digit_char n) EmptyString).

Definition strftime (d : datetime) : string :=
  (two_digits (day d) ++ "/"
   ++ nth (Z.to_nat (month d - 1)) month_abbr "" ++ "/"
   ++ two_digits (year d mod 100))%string.

(** *** [datetime.strptime(s, '%d/%b/%y')]

    The format compiles to the regular expression
    [(3[0-1]|[1-2]\d|0[1-9]|[1-9]| [1-9])/(jan|...|dec)/(\d\d)], matched
    case-insensitively against the whole string; then the two-digit
    year is mapped to 1969..2068 and the date is validated. *)

Definition digit_val (c : ascii) : Z := Z.of_N (N_of_ascii c) - 48.

(** The day alternatives, in the order the regular expression tries
    them; each returns the day and the rest of the input. *)
Definition day_alternatives (l : list ascii) : list (Z * list ascii) :=
  match l with
  | c1 :: c2 :: r =>
      (if (c1 =? "3")%char && ((c2 =? "0")%char || (c2 =? "1")%char)
       then [(30 + digit_val c2, r)] else [])
      ++ (if ((c1 =? "1")%char || (c1 =? "2")%char) && Str.is_digit c2
          then [(10 * digit_val c1 + digit_val c2, r)] else [])
      ++ (if (c1 =? "0")%char && Str.is_digit c2 && negb (c2 =? "0")%char
          then [(digit_val c2, r)] else [])
      ++ (if Str.is_digit c1 && negb (c1 =? "0")%char
          then [(digit_val c1, c2 :: r)] else [])
      ++ (if (c1 =? " ")%char && Str.is_digit c2 && negb (c2 =? "0")%char
          then [(digit_val c2, r)] else [])
  | [c1] =>
      if Str.is_digit c1 && negb (c1 =? "0")%char
      then [(digit_val c1, [])] else []
  | [] => []
  end.

Fixpoint month_index (name : string) (names : list string) (i : Z)
  : option Z :=
  match names with
  | [] => None
  | n :: names' =>
      if (Str.lower n =? name)%string then Some i
      else month_index name names' (i + 1)
  end.

(** What must follow the day: [/mon/yy] and the end of the string. *)
Definition parse_after_day (dd : Z) (l : list ascii) : option datetime :=
  match l with
  | [s1; m1; m2; m3; s2; y1; y2] =>
      if (s1 =? "/")%char && (s2 =? "/")%char
         && Str.is_digit y1 && Str.is_digit y2
      then
        match month_index
                (Str.lower (string_of_list_ascii [m1; m2; m3]))
                month_abbr 1 with
        | Some mm =>
            let yy := 10 * digit_val y1 + digit_val y2 in
            let y := if yy <=? 68 then yy + 2000 else yy + 1900 in
            let d := mk y mm dd in
            if valid d then Some d else None
        | None => None
        end
      else None
  | _ => None
  end.

Fixpoint first_parse (alts : list (Z * list ascii)) : option datetime :=
  match alts with
  | [] => None
  | (dd, r) :: alts' =>
      match parse_after_day dd r with
      | Some d => Some d
      | None => first_parse alts'
      end
  end.

Definition strptime (s : string) : option datetime :=
  first_parse (day_alternatives (list_ascii_of_string s)).

End DT.

(** ** Python containers *)

(** Key equality, as [==] on the keys the code uses (strings, tuples of
    strings). *)
Class Eqb (K : Type) := eqb : K -> K -> bool.

#[export] Instance string_Eqb : Eqb string := String.eqb.
#[export] Instance Z_Eqb : Eqb Z := Z.eqb.
#[export] Instance pair_Eqb {A B : Type} `{Eqb A} `{Eqb B} : Eqb (A * B) :=
  fun x y => eqb (fst x) (fst y) && eqb (snd x) (snd y).

Class EqbLaws (K : Type) `{Eqb K} :=
  eqb_iff : forall x y : K, eqb x y = true <-> x = y.

(** A [dict]: association list in insertion order; assigning to a key
    that is present replaces its value where it stands. *)
Module Dict.
Section Dict.
Context {K V : Type} `{Eqb K}.

Definition t := list (K * V).

Fixpoint get (k : K) (d : list (K * V)) : option V :=
  match d with
  | [] => None
  | (k', v) :: d' => if eqb k' k then Some v else get k d'
  end.

Definition mem (k : K) (d : list (K * V)) : bool :=
  match get k d with Some _ => true | None => false end.

Fixpoint set (k : K) (v : V) (d : list (K * V)) : list (K * V) :=
  match d with
  | [] => [(k, v)]
  | (k', v') :: d' =>
      if eqb k' k then (k', v) :: d' else (k', v') :: set k v d'
  end.

Definition keys (d : list (K * V)) : list K := map fst d.
End Dict.
End Dict.

(** A [set], kept as a duplicate-free list; the order of iteration of a
    Python set is unspecified, the order of first insertion is used. *)
Module PySet.
Section PySet.
Context {K : Type} `{Eqb K}.

Definition mem (k : K) (s : list K) : bool := existsb (eqb k) s.

Definition add (k : K) (s : list K) : list K :=
  if mem k s then s else s ++ [k].

Definition union (s1 s2 : list K) : list K :=
  fold_left (fun s k => add k s) s2 s1.

Definition of_list (l : list K) : list K := union [] l.
End PySet.
End PySet.

(** [list.sort] and [sorted] are stable; so is this insertion sort, and
    two stable sorts by the same total preorder give the same list. *)
Section StableSort.
Context {A : Type} (le : A -> A -> bool).

Fixpoint insert_sorted (x : A) (l : list A) : list A :=
  match l with
  | [] => [x]
  | y :: l' => if le x y then x :: l else y :: insert_sorted x l'
  end.

Fixpoint stable_sort (l : list A) : list A :=
  match l with
  | [] => []
  | x :: l' => insert_sorted x (stable_sort l')
  end.
End StableSort.

(** Sorting on a [datetime] key. *)
Definition sort_by_date {A : Type} (date_of : A -> DT.datetime)
  : list A -> list A :=
  stable_sort (fun a b => DT.leb (date_of a) (date_of b)).

(** [<=] on tuples of strings compares component by component. *)
Definition pair_leb (a b : string * string) : bool :=
  match String.compare (fst a) (fst b) with
  | Lt => true
  | Gt => false
  | Eq => String.leb (snd a) (snd b)
  end.

(** ** The five production stages and the row records *)

Inductive stage := Cutting | Sewing | Washing | Finishing | Packing.

Definition stages : list stage :=
  [Cutting; Sewing; Washing; Finishing; Packing].

(** A plan row as built by [get_row_wise_data_from_plan]. *)
Module Plan.
Record row := mk {
  Style_No : string;
  PO : string;
  Colour : string;
  Date : string;
  Planned_Cutting : Z;
  Planned_Sewing : Z;
  Planned_Washing : Z;
  Planned_Finishing : Z;
  Planned_Packing : Z;
  Source_Sheet : string;
  Source_Row : Z
}.

Definition planned (s : stage) (r : row) : Z :=
  match s with
  | Cutting => Planned_Cutting r
  | Sewing => Planned_Sewing r
  | Washing => Planned_Washing r
  | Finishing => Planned_Finishing r
  | Packing => Planned_Packing r
  end.
End Plan.

(** An actual row as built by [get_row_wise_data_from_daily_prod]; the
    day-wise converter rebuilds the row without ['Order Quantity']. *)
Module Actual.
Record row := mk {
  Style_No : string;
  PO : string;
  Colour : string;
  Date : string;
  Order_Quantity : option Z;
  Actual_Cutting : Z;
  Actual_Sewing : Z;
  Actual_Finishing : Z;
  Actual_Washing : Z;
  Actual_Packing : Z;
  Source_Sheet : string;
  Source_Row : Z
}.

Definition actual (s : stage) (r : row) : Z :=
  match s with
  | Cutting => Actual_Cutting r
  | Sewing => Actual_Sewing r
  | Washing => Actual_Washing r
  | Finishing => Actual_Finishing r
  | Packing => Actual_Packing r
  end.
End Actual.

(** A matched row as built by [match_plan_with_actual]. *)
Module Matched.
Record row := mk {
  Style_No : string;
  PO : string;
  Colour : string;
  Date : string;
  Planned_Cutting : Z;
  Planned_Sewing : Z;
  Planned_Washing : Z;
  Planned_Finishing : Z;
  Planned_Packing : Z;
  Actual_Cutting : Z;
  Actual_Sewing : Z;
  Actual_Finishing : Z;
  Actual_Washing : Z;
  Actual_Packing : Z
}.

Definition planned (s : stage) (r : row) : Z :=
  match s with
  | Cutting => Planned_Cutting r
  | Sewing => Planned_Sewing r
  | Washing => Planned_Washing r
  | Finishing => Planned_Finishing r
  | Packing => Planned_Packing r
  end.

Definition actual (s : stage) (r : row) : Z :=
  match s with
  | Cutting => Actual_Cutting r
  | Sewing => Actual_Sewing r
  | Washing => Actual_Washing r
  | Finishing => Actual_Finishing r
  | Packing => Actual_Packing r
  end.
End Matched.

(** ** [convert_cumulative_to_daywise_quantities_for_daily_prod] *)

Module Daywise.

Definition combo_key := (string * string * string)%type.

(** The inner dict ['quantities'] of a tracking entry. *)
Record quantities := mkq {
  cutting : Z;
  sewing : Z;
  finishing : Z;
  washing : Z;
  packing : Z
}.

(** One value of [previous_quantities_by_combo]. *)
Record previous_data := mkp {
  date : DT.datetime;
  quantities_of : quantities
}.

Inductive message :=
| CouldNotParseDate (date_str style po colour : string)
| NegativeDaywise (style po colour : string) (current_date : string)
                  (previous_date : DT.datetime).

Definition qty (s : stage) (q : quantities) : Z :=
  match s with
  | Cutting => cutting q
  | Sewing => sewing q
  | Washing => washing q
  | Finishing => finishing q
  | Packing => packing q
  end.

(** Step 1: rows whose date parses, paired with the date, then sorted
    by it; the others are reported and skipped. *)
Fixpoint dated_rows (daily_prod_data : list Actual.row)
  : list (DT.datetime * Actual.row) * list message :=
  match daily_prod_data with
  | [] => ([], [])
  | row :: rest =>
      let '(ds, log) := dated_rows rest in
      match DT.strptime (Actual.Date row) with
      | Some date_obj => ((date_obj, row) :: ds, log)
      | None =>
          (ds, CouldNotParseDate (Actual.Date row) (Actual.Style_No row)
                 (Actual.PO row) (Actual.Colour row) :: log)
      end
  end.

Definition key_of (row : Actual.row) : combo_key :=
  (Str.upper (Str.strip (Actual.Style_No row)),
   Str.strip (Actual.PO row),
   Str.lower (Str.strip (Actual.Colour row))).

(** The cumulative quantities read from a row. *)
Definition cumulative (row : Actual.row) : quantities :=
  mkq (Actual.Actual_Cutting row) (Actual.Actual_Sewing row)
      (Actual.Actual_Finishing row) (Actual.Actual_Washing row)
      (Actual.Actual_Packing row).

(** Current cumulative minus previous cumulative, stage by stage. *)
Definition subtract (cur prev : quantities) : quantities :=
  mkq (cutting cur - cutting prev) (sewing cur - sewing prev)
      (finishing cur - finishing prev) (washing cur - washing prev)
      (packing cur - packing prev).

Definition any_negative (d : quantities) : bool :=
  (cutting d <? 0) || (sewing d <? 0) || (finishing d <? 0)
  || (washing d <? 0) || (packing d <? 0).

Definition clamp (d : quantities) : quantities :=
  mkq (Z.max 0 (cutting d)) (Z.max 0 (sewing d)) (Z.max 0 (finishing d))
      (Z.max 0 (washing d)) (Z.max 0 (packing d)).

(** Step 3.1: the day-wise quantities of a row and the warning, if
    any. *)
Definition daywise (prev : @Dict.t combo_key previous_data)
           (row : Actual.row) : quantities * list message :=
  match Dict.get (key_of row) prev with
  | Some previous =>
      let d := subtract (cumulative row) (quantities_of previous) in
      if any_negative d
      then (clamp d,
            [NegativeDaywise (fst (fst (key_of row))) (snd (fst (key_of row)))
               (snd (key_of row)) (Actual.Date row) (date previous)])
      else (d, [])
  | None => (cumulative row, [])
  end.

(** Step 3.2 *)
Definition updated_row (row : Actual.row) (d : quantities) : Actual.row :=
  Actual.mk (Actual.Style_No row) (Actual.PO row) (Actual.Colour row)
    (Actual.Date row) None
    (cutting d) (sewing d) (finishing d) (washing d) (packing d)
    (Actual.Source_Sheet row) (Actual.Source_Row row).

Record state := mks {
  previous_quantities_by_combo : @Dict.t combo_key previous_data;
  result_list : list Actual.row;
  log : list message
}.

(** One iteration of the loop of step 3. *)
Definition step (st : state) (dr : DT.datetime * Actual.row) : state :=
  let '(date_obj, row) := dr in
  let '(d, warning) := daywise (previous_quantities_by_combo st) row in
  mks (Dict.set (key_of row) (mkp date_obj (cumulative row))
         (previous_quantities_by_combo st))
      (result_list st ++ [updated_row row d])
      (log st ++ warning).

Definition run (daily_prod_data : list Actual.row) : state :=
  let '(ds, log0) := dated_rows daily_prod_data in
  fold_left step (sort_by_date fst ds) (mks [] [] log0).

Definition convert_cumulative_to_daywise_quantities_for_daily_prod
           (daily_prod_data : list Actual.row) : list Actual.row :=
  result_list (run daily_prod_data).

End Daywise.

(** ** [match_plan_with_actual] *)

Module Match.

Definition combo_key := (string * string)%type.

Inductive error_detail :=
| PoNotInPlan (po style_number : string)
| ColourNotInPo (colour po : string) (available_colours : list string)
| ComboNotInPlan (po colour : string).

Inductive message :=
| UnplannedProductionFound (style_number : string)
| UnplannedRow (source_sheet : string) (source_row : Z)
               (detail : error_detail) (date po colour : string)
| CouldNotParseDateForSorting (date_str : string).

Definition same_style (style_no style_number : string) : bool :=
  (Str.upper (Str.strip style_no) =? Str.upper (Str.strip style_number))%string.

(** Step 1 *)
Definition plan_for_style (plan_data : list Plan.row) (style_number : string)
  : list Plan.row :=
  filter (fun row => same_style (Plan.Style_No row) style_number) plan_data.

Definition actual_for_style (daily_prod_data : list Actual.row)
           (style_number : string) : list Actual.row :=
  filter (fun row => same_style (Actual.Style_No row) style_number)
         daily_prod_data.

Definition plan_key (row : Plan.row) : combo_key :=
  (Str.strip (Plan.PO row), Str.lower (Str.strip (Plan.Colour row))).

Definition actual_key (row : Actual.row) : combo_key :=
  (Str.strip (Actual.PO row), Str.lower (Str.strip (Actual.Colour row))).

(** [by_combo[combo_key][date] = row], creating the inner dict when the
    combination is new. *)
Definition store {R : Type} (by_combo : @Dict.t combo_key (@Dict.t string R))
           (k : combo_key) (date : string) (row : R)
  : @Dict.t combo_key (@Dict.t string R) :=
  match Dict.get k by_combo with
  | Some dates => Dict.set k (Dict.set date row dates) by_combo
  | None => Dict.set k (Dict.set date row []) by_combo
  end.

(** Step 2.1 *)
Definition plan_by_combo (rows : list Plan.row)
  : @Dict.t combo_key (@Dict.t string Plan.row) :=
  fold_left (fun d row => store d (plan_key row) (Plan.Date row) row) rows [].

Definition plan_pos (rows : list Plan.row) : list string :=
  PySet.of_list (map (fun row => fst (plan_key row)) rows).

Definition plan_colours_by_po (rows : list Plan.row)
  : @Dict.t string (list string) :=
  fold_left
    (fun d row =>
       let po := fst (plan_key row) in
       let colour := snd (plan_key row) in
       match Dict.get po d with
       | Some colours => Dict.set po (PySet.add colour colours) d
       | None => Dict.set po (PySet.add colour []) d
       end)
    rows [].

(** Step 2.2 *)
Definition actual_by_combo (rows : list Actual.row)
  : @Dict.t combo_key (@Dict.t string Actual.row) :=
  fold_left (fun d row => store d (actual_key row) (Actual.Date row) row)
            rows [].

(** Step 3: the classification of one unplanned combination. *)
Definition classify (pos : list string)
           (colours_by_po : @Dict.t string (list string))
           (style_number po colour : string) : error_detail :=
  if negb (PySet.mem po pos) then PoNotInPlan po style_number
  else
    match Dict.get po colours_by_po with
    | Some colours =>
        if negb (PySet.mem colour colours)
        then ColourNotInPo colour po (stable_sort String.leb colours)
        else ComboNotInPlan po colour
    | None => ComboNotInPlan po colour
    end.

Definition unplanned_rows
           (plan : @Dict.t combo_key (@Dict.t string Plan.row))
           (actual : @Dict.t combo_key (@Dict.t string Actual.row))
           (pos : list string) (colours_by_po : @Dict.t string (list string))
           (style_number : string) : list message :=
  flat_map
    (fun entry : combo_key * @Dict.t string Actual.row =>
       let '((po, colour), dates) := entry in
       if Dict.mem (po, colour) plan then []
       else
         map (fun item : string * Actual.row =>
                UnplannedRow (Actual.Source_Sheet (snd item))
                  (Actual.Source_Row (snd item))
                  (classify pos colours_by_po style_number po colour)
                  (fst item) po colour)
             dates)
    actual.

(** Step 4: the dates of one combination, those that parse, in
    chronological order. *)
Definition all_dates {P A : Type} (plan_dates : @Dict.t string P)
           (actual_dates : @Dict.t string A) : list string :=
  PySet.union (PySet.of_list (Dict.keys plan_dates)) (Dict.keys actual_dates).

Fixpoint date_objects (dates : list string)
  : list (string * DT.datetime) * list message :=
  match dates with
  | [] => ([], [])
  | date_str :: rest =>
      let '(ds, log) := date_objects rest in
      match DT.strptime date_str with
      | Some date_obj => ((date_str, date_obj) :: ds, log)
      | None => (ds, CouldNotParseDateForSorting date_str :: log)
      end
  end.

Definition sorted_dates (dates : list string) : list string :=
  map fst (sort_by_date snd (fst (date_objects dates))).

(** Step 4.1 *)
Definition matched_row (style_number po colour date : string)
           (plan_row : option Plan.row) (actual_row : option Actual.row)
  : Matched.row :=
  let p := match plan_row with
           | Some r => (Plan.Planned_Cutting r, Plan.Planned_Sewing r,
                        Plan.Planned_Washing r, Plan.Planned_Finishing r,
                        Plan.Planned_Packing r)
           | None => (0, 0, 0, 0, 0)
           end in
  let a := match actual_row with
           | Some r => (Actual.Actual_Cutting r, Actual.Actual_Sewing r,
                        Actual.Actual_Finishing r, Actual.Actual_Washing r,
                        Actual.Actual_Packing r)
           | None => (0, 0, 0, 0, 0)
           end in
  let '(pc, ps, pw, pf, pp) := p in
  let '(ac, asw, af, aw, ap) := a in
  Matched.mk style_number po colour date pc ps pw pf pp ac asw af aw ap.

Definition rows_for_combo (style_number : string)
           (actual : @Dict.t combo_key (@Dict.t string Actual.row))
           (entry : combo_key * @Dict.t string Plan.row)
  : list Matched.row * list message :=
  let '(k, plan_dates) := entry in
  let actual_dates :=
    match Dict.get k actual with Some d => d | None => [] end in
  let dates := all_dates plan_dates actual_dates in
  (map (fun date =>
          matched_row style_number (fst k) (snd k) date
            (Dict.get date plan_dates) (Dict.get date actual_dates))
       (sorted_dates dates),
   snd (date_objects dates)).

Definition sorted_combos (plan : @Dict.t combo_key (@Dict.t string Plan.row))
  : list (combo_key * @Dict.t string Plan.row) :=
  stable_sort (fun a b => pair_leb (fst a) (fst b)) plan.

Definition run (plan_data : list Plan.row) (daily_prod_data : list Actual.row)
           (style_number : string) : list Matched.row * list message :=
  let plan_rows := plan_for_style plan_data style_number in
  let actual_rows := actual_for_style daily_prod_data style_number in
  let plan := plan_by_combo plan_rows in
  let actual := actual_by_combo actual_rows in
  let unplanned :=
    unplanned_rows plan actual (plan_pos plan_rows)
                   (plan_colours_by_po plan_rows) style_number in
  let per_combo := map (rows_for_combo style_number actual) (sorted_combos plan) in
  (flat_map fst per_combo,
   (match unplanned with
    | [] => []
    | _ => UnplannedProductionFound style_number :: unplanned
    end) ++ flat_map snd per_combo).

Definition match_plan_with_actual (plan_data : list Plan.row)
           (daily_prod_data : list Actual.row) (style_number : string)
  : list Matched.row :=
  fst (run plan_data daily_prod_data style_number).

End Match.

(** ** [delete_empty_rows] *)

Module Prune.

Definition total_quantity (row : Matched.row) : Z :=
  Matched.Planned_Cutting row + Matched.Planned_Sewing row
  + Matched.Planned_Washing row + Matched.Planned_Finishing row
  + Matched.Planned_Packing row
  + Matched.Actual_Cutting row + Matched.Actual_Sewing row
  + Matched.Actual_Finishing row + Matched.Actual_Washing row
  + Matched.Actual_Packing row.

(** The loop keeps a row unless its total is zero and counts the
    others. *)
Definition step (acc : list Matched.row * Z) (row : Matched.row)
  : list Matched.row * Z :=
  let '(filtered_rows, deleted_count) := acc in
  if total_quantity row =? 0
  then (filtered_rows, deleted_count + 1)
  else (filtered_rows ++ [row], deleted_count).

Definition delete_empty_rows (matched_data : list Matched.row)
  : list Matched.row :=
  fst (fold_left step matched_data ([], 0)).

End Prune.

(** ** [add_cumulative_columns_to_matched_dict] *)

Module Agg.

(** An output row: the matched row, the day name and, per stage, the
    day difference and the three cumulative columns. *)
Record row := mk {
  Style_No : string;
  PO : string;
  Colour : string;
  Date : string;
  Day : string;
  Planned_Cutting : Z;
  Actual_Cutting : Z;
  Day_Diff_Cutting : Z;
  Cumulative_Planned_Cutting : Z;
  Cumulative_Actual_Cutting : Z;
  Cumulative_Diff_Cutting : Z;
  Planned_Sewing : Z;
  Actual_Sewing : Z;
  Day_Diff_Sewing : Z;
  Cumulative_Planned_Sewing : Z;
  Cumulative_Actual_Sewing : Z;
  Cumulative_Diff_Sewing : Z;
  Planned_Washing : Z;
  Actual_Washing : Z;
  Day_Diff_Washing : Z;
  Cumulative_Planned_Washing : Z;
  Cumulative_Actual_Washing : Z;
  Cumulative_Diff_Washing : Z;
  Planned_Finishing : Z;
  Actual_Finishing : Z;
  Day_Diff_Finishing : Z;
  Cumulative_Planned_Finishing : Z;
  Cumulative_Actual_Finishing : Z;
  Cumulative_Diff_Finishing : Z;
  Planned_Packing : Z;
  Actual_Packing : Z;
  Day_Diff_Packing : Z;
  Cumulative_Planned_Packing : Z;
  Cumulative_Actual_Packing : Z;
  Cumulative_Diff_Packing : Z
}.

Definition cumulative_planned (s : stage) (r : row) : Z :=
  match s with
  | Cutting => Cumulative_Planned_Cutting r
  | Sewing => Cumulative_Planned_Sewing r
  | Washing => Cumulative_Planned_Washing r
  | Finishing => Cumulative_Planned_Finishing r
  | Packing => Cumulative_Planned_Packing r
  end.

Definition cumulative_actual (s : stage) (r : row) : Z :=
  match s with
  | Cutting => Cumulative_Actual_Cutting r
  | Sewing => Cumulative_Actual_Sewing r
  | Washing => Cumulative_Actual_Washing r
  | Finishing => Cumulative_Actual_Finishing r
  | Packing => Cumulative_Actual_Packing r
  end.

Definition cumulative_diff (s : stage) (r : row) : Z :=
  match s with
  | Cutting => Cumulative_Diff_Cutting r
  | Sewing => Cumulative_Diff_Sewing r
  | Washing => Cumulative_Diff_Washing r
  | Finishing => Cumulative_Diff_Finishing r
  | Packing => Cumulative_Diff_Packing r
  end.

Definition day_diff (s : stage) (r : row) : Z :=
  match s with
  | Cutting => Day_Diff_Cutting r
  | Sewing => Day_Diff_Sewing r
  | Washing => Day_Diff_Washing r
  | Finishing => Day_Diff_Finishing r
  | Packing => Day_Diff_Packing r
  end.

Inductive message := CouldNotParseDate (date_str : string).

Definition group_key := (string * string * string)%type.

(** Ten running values, one per planned and actual stage: the groups
    of ten variables [cumulative_*], [current_date_cumulative_*] and
    [current_date_total_*] of the source. *)
Record totals := mkt {
  planned_cutting : Z;
  planned_sewing : Z;
  planned_washing : Z;
  planned_finishing : Z;
  planned_packing : Z;
  actual_cutting : Z;
  actual_sewing : Z;
  actual_washing : Z;
  actual_finishing : Z;
  actual_packing : Z
}.

Definition zero : totals := mkt 0 0 0 0 0 0 0 0 0 0.

Definition add (a b : totals) : totals :=
  mkt (planned_cutting a + planned_cutting b)
      (planned_sewing a + planned_sewing b)
      (planned_washing a + planned_washing b)
      (planned_finishing a + planned_finishing b)
      (planned_packing a + planned_packing b)
      (actual_cutting a + actual_cutting b)
      (actual_sewing a + actual_sewing b)
      (actual_washing a + actual_washing b)
      (actual_finishing a + actual_finishing b)
      (actual_packing a + actual_packing b).

Definition of_row (r : Matched.row) : totals :=
  mkt (Matched.Planned_Cutting r) (Matched.Planned_Sewing r)
      (Matched.Planned_Washing r) (Matched.Planned_Finishing r)
      (Matched.Planned_Packing r)
      (Matched.Actual_Cutting r) (Matched.Actual_Sewing r)
      (Matched.Actual_Washing r) (Matched.Actual_Finishing r)
      (Matched.Actual_Packing r).

Definition planned (s : stage) (t : totals) : Z :=
  match s with
  | Cutting => planned_cutting t
  | Sewing => planned_sewing t
  | Washing => planned_washing t
  | Finishing => planned_finishing t
  | Packing => planned_packing t
  end.

Definition actual (s : stage) (t : totals) : Z :=
  match s with
  | Cutting => actual_cutting t
  | Sewing => actual_sewing t
  | Washing => actual_washing t
  | Finishing => actual_finishing t
  | Packing => actual_packing t
  end.

(** Step 1: group the rows whose date parses, in order of first
    appearance of the group key. *)
Definition key_of (r : Matched.row) : group_key :=
  (Matched.Style_No r, Matched.PO r, Matched.Colour r).

Definition group_step
           (acc : @Dict.t group_key (list (Matched.row * DT.datetime))
                  * list message)
           (r : Matched.row)
  : @Dict.t group_key (list (Matched.row * DT.datetime)) * list message :=
  let '(grouped_rows, log) := acc in
  match DT.strptime (Matched.Date r) with
  | Some date_obj =>
      let rows := match Dict.get (key_of r) grouped_rows with
                  | Some rows => rows
                  | None => []
                  end in
      (Dict.set (key_of r) (rows ++ [(r, date_obj)]) grouped_rows, log)
  | None => (grouped_rows, log ++ [CouldNotParseDate (Matched.Date r)])
  end.

Definition group (matched_data : list Matched.row)
  : @Dict.t group_key (list (Matched.row * DT.datetime)) * list message :=
  fold_left group_step matched_data ([], []).

(** Step 2: the running state of one group. *)
Record state := mks {
  cumulative : totals;
  current_date : option DT.datetime;
  current_date_cumulative : totals;
  current_date_total : totals
}.

Definition init : state := mks zero None zero zero.

(** The look-ahead pass: the totals of all rows of the group that have
    the given date. *)
Definition date_total (rows_with_dates : list (Matched.row * DT.datetime))
           (d : DT.datetime) : totals :=
  fold_left
    (fun t rd => if DT.eqb (snd rd) d then add t (of_row (fst rd)) else t)
    rows_with_dates zero.

(** Step 2.2.1 *)
Definition advance (rows_with_dates : list (Matched.row * DT.datetime))
           (st : state) (date_obj : DT.datetime) : state :=
  let moved :=
    match current_date st with
    | None => true
    | Some d => negb (DT.eqb date_obj d)
    end in
  if moved then
    let cumulative' :=
      match current_date st with
      | Some _ => add (cumulative st) (current_date_total st)
      | None => cumulative st
      end in
    let total := date_total rows_with_dates date_obj in
    mks cumulative' (Some date_obj) (add cumulative' total) total
  else st.

(** Steps 2.2.2 to 2.2.6 *)
Definition new_row (r : Matched.row) (date_obj : DT.datetime)
           (c : totals) : row :=
  mk (Matched.Style_No r) (Matched.PO r) (Matched.Colour r) (Matched.Date r)
     (DT.day_name date_obj)
     (Matched.Planned_Cutting r) (Matched.Actual_Cutting r)
     (Matched.Actual_Cutting r - Matched.Planned_Cutting r)
     (planned_cutting c) (actual_cutting c)
     (actual_cutting c - planned_cutting c)
     (Matched.Planned_Sewing r) (Matched.Actual_Sewing r)
     (Matched.Actual_Sewing r - Matched.Planned_Sewing r)
     (planned_sewing c) (actual_sewing c)
     (actual_sewing c - planned_sewing c)
     (Matched.Planned_Washing r) (Matched.Actual_Washing r)
     (Matched.Actual_Washing r - Matched.Planned_Washing r)
     (planned_washing c) (actual_washing c)
     (actual_washing c - planned_washing c)
     (Matched.Planned_Finishing r) (Matched.Actual_Finishing r)
     (Matched.Actual_Finishing r - Matched.Planned_Finishing r)
     (planned_finishing c) (actual_finishing c)
     (actual_finishing c - planned_finishing c)
     (Matched.Planned_Packing r) (Matched.Actual_Packing r)
     (Matched.Actual_Packing r - Matched.Planned_Packing r)
     (planned_packing c) (actual_packing c)
     (actual_packing c - planned_packing c).

(** The loop of step 2.2 over the rows still to process; the whole
    sorted group stays at hand for the look-ahead. *)
Fixpoint loop (rows_with_dates : list (Matched.row * DT.datetime))
         (st : state) (todo : list (Matched.row * DT.datetime)) : list row :=
  match todo with
  | [] => []
  | (r, date_obj) :: todo' =>
      let st' := advance rows_with_dates st date_obj in
      new_row r date_obj (current_date_cumulative st')
      :: loop rows_with_dates st' todo'
  end.

Definition process_group (rows_with_dates : list (Matched.row * DT.datetime))
  : list row :=
  let sorted := sort_by_date snd rows_with_dates in
  loop sorted init sorted.

(** Step 3: the key of the final sort,
    [(Style No, PO, Colour, strptime(Date))]. *)
Definition final_leb (a b : row) : bool :=
  match String.compare (Style_No a) (Style_No b) with
  | Lt => true
  | Gt => false
  | Eq =>
      match String.compare (PO a) (PO b) with
      | Lt => true
      | Gt => false
      | Eq =>
          match String.compare (Colour a) (Colour b) with
          | Lt => true
          | Gt => false
          | Eq =>
              match DT.strptime (Date a), DT.strptime (Date b) with
              | Some da, Some db => DT.leb da db
              | _, _ => true
              end
          end
      end
  end.

Definition result_rows (matched_data : list Matched.row) : list row :=
  flat_map (fun g => process_group (snd g)) (fst (group matched_data)).

Definition add_cumulative_columns_to_matched_dict
           (matched_data : list Matched.row) : list row :=
  match matched_data with
  | [] => []
  | _ => stable_sort final_leb (result_rows matched_data)
  end.

End Agg.

(** ** Spreadsheet cells, as pandas hands them to the row loops *)

Module Cell.

(** A cell of a text column: [NaN] (blank), a float, or any other
    value; [repr] and [str] are what [str(value)] returns.  A finite
    float is a rational number, and it is kept as one. *)
Inductive value :=
| NaN
| Float (q : Q) (repr : string)
| Other (str : string).

Definition isna (v : value) : bool :=
  match v with NaN => true | _ => false end.

Definition str (v : value) : string :=
  match v with
  | NaN => "nan"
  | Float _ repr => repr
  | Other s => s
  end.

(** A cell of the plan's date column: blank, a [datetime] value, or a
    value given with what [parser.parse(str(value), dayfirst=False)]
    returns for it ([None] when it raises). *)
Inductive date_value :=
| DateNaN
| DateTime (d : DT.datetime)
| DateText (text : string) (parsed : option DT.datetime).

Definition date_isna (v : date_value) : bool :=
  match v with DateNaN => true | _ => false end.

Definition parse_date (v : date_value) : option DT.datetime :=
  match v with
  | DateNaN => None
  | DateTime d => Some d
  | DateText _ parsed => parsed
  end.

(** A cell of a quantity column: blank, a value on which
    [float(value)] returns the finite number [q], or a value on which
    the conversion block raises. *)
Inductive quantity_value :=
| QtyNaN
| QtyNumber (q : Q)
| QtyNotNumber.

(** [int(x)] on a float truncates toward zero. *)
Definition int_of (q : Q) : Z := Z.quot (Qnum q) (Zpos (Qden q)).

Definition is_whole (q : Q) : bool := Qeq_bool q (inject_Z (int_of q)).

(** [round(x)]: to the nearest integer, ties to the even one. *)
Definition round (q : Q) : Z :=
  let f := Qfloor q in
  match Qcompare (q - inject_Z f) (1 # 2) with
  | Lt => f
  | Gt => f + 1
  | Eq => if Z.even f then f else f + 1
  end.

(** Decimal rendering of an integer, [str(int(x))]. *)
Fixpoint digits_of (fuel : nat) (n : Z) (acc : list ascii) : list ascii :=
  match fuel with
  | O => acc
  | S fuel' =>
      let acc' := DT.digit_char n :: acc in
      if n <? 10 then acc' else digits_of fuel' (n / 10) acc'
  end.

Definition str_of_int (z : Z) : string :=
  let body :=
    string_of_list_ascii
      (digits_of (S (Z.to_nat (Z.log2 (Z.abs z)))) (Z.abs z) []) in
  if z <? 0 then String "-" body else body.

End Cell.

(** ** [get_row_wise_data_from_plan]: the row loop of one style sheet *)

Module PlanIngest.

(** One row of the sheet, columns A to M as the loop reads them. *)
Record raw_row := mkraw {
  style_value : Cell.value;
  po_value : Cell.value;
  colour_value : Cell.value;
  date_value : Cell.date_value;
  cutting_value : Cell.quantity_value;
  sewing_value : Cell.quantity_value;
  washing_value : Cell.quantity_value;
  finishing_value : Cell.quantity_value;
  packing_value : Cell.quantity_value
}.

Definition quantity_value (s : stage) (row : raw_row) : Cell.quantity_value :=
  match s with
  | Cutting => cutting_value row
  | Sewing => sewing_value row
  | Washing => washing_value row
  | Finishing => finishing_value row
  | Packing => packing_value row
  end.

Definition column_letter (s : stage) : string :=
  match s with
  | Cutting => "E"
  | Sewing => "G"
  | Washing => "I"
  | Finishing => "K"
  | Packing => "M"
  end.

(** Entries of the list [blank_cells]. *)
Inductive blank_cell :=
| EntireRowBlank (excel_row_number : Z)
| BlankCell (column : string) (excel_row_number : Z).

(** An entry of [decimal_quantities]. *)
Record decimal_quantity := mkdec {
  dec_column : string;
  dec_row : Z;
  dec_stage : stage;
  dec_value : Q;
  dec_rounded : Z
}.

Inductive year_source := AdjacentRows | RowAbove | RowBelow.

(** The messages the loop prints as it goes. *)
Inductive message :=
| ErrorDateBlank (excel_row_number : Z)
| WarningSuspiciousYear (excel_row_number : Z) (parsed : DT.datetime)
| AutoCorrected (corrected : DT.datetime) (source : year_source)
| ErrorCannotDetermineYear
| CautionYearIncreased (previous_year previous_row year excel_row_number : Z)
| WarningYearDecreased (previous_year previous_row year excel_row_number : Z)
| ErrorUnableToParseDate (excel_row_number : Z)
| WarningCouldNotParseQuantity (column : string) (excel_row_number : Z)
                               (s : stage).

Record state := mks {
  result_list : list Plan.row;
  blank_cells : list blank_cell;
  skipped_rows : list Z;
  decimal_quantities : list decimal_quantity;
  parsed_dates_with_indices : list (Z * DT.datetime);
  printed : list message
}.

Definition init : state := mks [] [] [] [] [] [].

Definition main_columns_blank (row : raw_row) : bool :=
  Cell.isna (style_value row) && Cell.isna (po_value row)
  && Cell.isna (colour_value row) && Cell.date_isna (date_value row).

(** Step 3: the index of the last row with a main column filled, -1
    when there is none. *)
Fixpoint last_non_blank_from (rows : list raw_row) (index : Z) : Z :=
  match rows with
  | [] => -1
  | row :: rows' =>
      let later := last_non_blank_from rows' (index + 1) in
      if 0 <=? later then later
      else if main_columns_blank row then -1 else index
  end.

Definition last_non_blank_index (df : list raw_row) : Z :=
  last_non_blank_from df 0.

(** Steps 5.2 to 5.4 *)
Definition po_str (v : Cell.value) : string :=
  match v with
  | Cell.NaN => ""
  | Cell.Float q _ => Cell.str_of_int (Cell.int_of q)
  | Cell.Other s => Str.strip s
  end.

Definition style_str (v : Cell.value) : string :=
  match v with
  | Cell.NaN => ""
  | _ => Str.strip (Cell.str v)
  end.

Definition colour_normalized (v : Cell.value) : string :=
  match v with
  | Cell.NaN => ""
  | _ => Str.normalize_colour (Cell.str v)
  end.

Definition blank_text_cells (row : raw_row) (excel_row_number : Z)
  : list blank_cell :=
  (if Cell.isna (style_value row) then [BlankCell "A" excel_row_number] else [])
  ++ (if Cell.isna (po_value row) then [BlankCell "B" excel_row_number] else [])
  ++ (if Cell.isna (colour_value row)
      then [BlankCell "C" excel_row_number] else []).

(** *** Step 5.5: the date and the year correction *)

Definition suspicious (d : DT.datetime) : bool :=
  (DT.year d <? 2020) || (2050 <? DT.year d).

(** The year of the most recently accepted row. *)
Definition year_above (parsed_dates : list (Z * DT.datetime)) : option Z :=
  match rev parsed_dates with
  | [] => None
  | (_, d) :: _ => Some (DT.year d)
  end.

(** The year of the next row of the sheet, when that row exists, its
    date parses and the year lies in 2000..2100. *)
Definition year_below (df : list raw_row) (index : nat) : option Z :=
  match nth_error df (S index) with
  | Some next =>
      match Cell.parse_date (date_value next) with
      | Some next_date_parsed =>
          if (2000 <=? DT.year next_date_parsed)
             && (DT.year next_date_parsed <=? 2100)
          then Some (DT.year next_date_parsed)
          else None
      | None => None
      end
  | None => None
  end.

(** The decision on the two neighbouring years. *)
Definition chosen_year (above below : option Z) : option (Z * year_source) :=
  match above, below with
  | Some a, Some b => if a =? b then Some (a, AdjacentRows) else None
  | Some a, None => Some (a, RowAbove)
  | None, Some b => Some (b, RowBelow)
  | None, None => None
  end.

(** How the date of a row ends: accepted with a date, or the row is
    skipped. *)
Inductive date_result :=
| DateAccepted (d : DT.datetime)
| RowSkipped.

(** The chronology check against the previous accepted row. *)
Definition year_change (parsed_dates : list (Z * DT.datetime))
           (d : DT.datetime) (excel_row_number : Z) : list message :=
  match rev parsed_dates with
  | [] => []
  | (previous_index, previous_date) :: _ =>
      if DT.year previous_date <? DT.year d then
        if (DT.month d =? 1) && (DT.day d <=? 14) then []
        else [CautionYearIncreased (DT.year previous_date)
                (previous_index + 2) (DT.year d) excel_row_number]
      else if DT.year d <? DT.year previous_date then
        [WarningYearDecreased (DT.year previous_date) (previous_index + 2)
           (DT.year d) excel_row_number]
      else []
  end.

(** The body of the [try] for a date that is not blank: the result and
    what is printed.  Any exception raised inside (the parser, or
    [replace] on 29 February) lands in the [except] clause, which
    reports the date as unparseable and skips the row. *)
Definition resolve_date (df : list raw_row) (index : nat)
           (parsed_dates : list (Z * DT.datetime)) (v : Cell.date_value)
  : date_result * list message :=
  let excel_row_number := Z.of_nat index + 2 in
  match Cell.parse_date v with
  | None => (RowSkipped, [ErrorUnableToParseDate excel_row_number])
  | Some date_parsed =>
      if suspicious date_parsed then
        let warning := WarningSuspiciousYear excel_row_number date_parsed in
        match chosen_year (year_above parsed_dates) (year_below df index) with
        | Some (y, source) =>
            match DT.replace_year date_parsed y with
            | Some corrected_date =>
                (DateAccepted corrected_date,
                 [warning; AutoCorrected corrected_date source]
                 ++ year_change parsed_dates corrected_date excel_row_number)
            | None =>
                (RowSkipped,
                 [warning; ErrorUnableToParseDate excel_row_number])
            end
        | None => (RowSkipped, [warning; ErrorCannotDetermineYear])
        end
      else
        (DateAccepted date_parsed,
         year_change parsed_dates date_parsed excel_row_number)
  end.

(** *** Step 5.6: one planned quantity *)

Record quantity_result := mkqr {
  quantity : Z;
  quantity_decimals : list decimal_quantity;
  quantity_printed : list message
}.

Definition process_quantity (s : stage) (excel_row_number : Z)
           (v : Cell.quantity_value) : quantity_result :=
  match v with
  | Cell.QtyNaN => mkqr 0 [] []
  | Cell.QtyNumber quantity_float =>
      if Cell.is_whole quantity_float
      then mkqr (Cell.int_of quantity_float) [] []
      else
        let quantity_rounded := Cell.round quantity_float in
        mkqr quantity_rounded
             [mkdec (column_letter s) excel_row_number s quantity_float
                    quantity_rounded]
             []
  | Cell.QtyNotNumber =>
      mkqr 0 []
           [WarningCouldNotParseQuantity (column_letter s) excel_row_number s]
  end.

Definition quantity_of (s : stage) (excel_row_number : Z) (row : raw_row)
  : quantity_result :=
  process_quantity s excel_row_number (quantity_value s row).

(** *** Step 5: one iteration *)

Definition step (style_number : string) (df : list raw_row)
           (last_non_blank : Z) (st : state) (index : nat) (row : raw_row)
  : state :=
  let excel_row_number := Z.of_nat index + 2 in
  if main_columns_blank row then
    if last_non_blank <? Z.of_nat index then st
    else mks (result_list st)
             (blank_cells st ++ [EntireRowBlank excel_row_number])
             (skipped_rows st) (decimal_quantities st)
             (parsed_dates_with_indices st) (printed st)
  else
    let blanks := blank_cells st ++ blank_text_cells row excel_row_number in
    if Cell.date_isna (date_value row) then
      mks (result_list st)
          (blanks ++ [BlankCell "D" excel_row_number])
          (skipped_rows st ++ [excel_row_number]) (decimal_quantities st)
          (parsed_dates_with_indices st)
          (printed st ++ [ErrorDateBlank excel_row_number])
    else
      match resolve_date df index (parsed_dates_with_indices st)
              (date_value row) with
      | (RowSkipped, msgs) =>
          mks (result_list st) blanks
              (skipped_rows st ++ [excel_row_number]) (decimal_quantities st)
              (parsed_dates_with_indices st) (printed st ++ msgs)
      | (DateAccepted date_parsed, msgs) =>
          let q := fun s => quantity_of s excel_row_number row in
          let row_dict :=
            Plan.mk
              (if (style_str (style_value row) =? "")%string
               then style_number else style_str (style_value row))
              (po_str (po_value row))
              (colour_normalized (colour_value row))
              (DT.strftime date_parsed)
              (quantity (q Cutting)) (quantity (q Sewing))
              (quantity (q Washing)) (quantity (q Finishing))
              (quantity (q Packing))
              style_number excel_row_number in
          mks (result_list st ++ [row_dict]) blanks (skipped_rows st)
              (decimal_quantities st
               ++ flat_map (fun s => quantity_decimals (q s)) stages)
              (parsed_dates_with_indices st ++ [(Z.of_nat index, date_parsed)])
              (printed st
               ++ msgs ++ flat_map (fun s => quantity_printed (q s)) stages)
      end.

Fixpoint loop (style_number : string) (df : list raw_row)
         (last_non_blank : Z) (st : state) (index : nat)
         (todo : list raw_row) : state :=
  match todo with
  | [] => st
  | row :: todo' =>
      loop style_number df last_non_blank
           (step style_number df last_non_blank st index row)
           (S index) todo'
  end.

(** The loop over the whole sheet; [result_list] of the final state is
    what the function returns, the other fields are what it reports. *)
Definition run (df : list raw_row) (style_number : string) : state :=
  loop style_number df (last_non_blank_index df) init 0%nat df.

Definition get_row_wise_data_from_plan (df : list raw_row)
           (style_number : string) : list Plan.row :=
  result_list (run df style_number).

End PlanIngest.

(** ** [get_row_wise_data_from_daily_prod]: the sheet and row loops *)

Module ActualIngest.

(** One row of a sheet, columns A, E, F, G, H, I, J, K, L. *)
Record raw_row := mkraw {
  po_value : Cell.value;
  style_value : Cell.value;
  colour_value : Cell.value;
  order_quantity_value : Cell.quantity_value;
  cutting_value : Cell.quantity_value;
  sewing_value : Cell.quantity_value;
  finishing_value : Cell.quantity_value;
  washing_value : Cell.quantity_value;
  packing_value : Cell.quantity_value
}.

(** What reading a sheet gives. *)
Inductive sheet_table :=
| ReadError
| TooFewColumns
| Table (rows : list raw_row).

(** A sheet: its name, what [parser.parse(sheet_name, dayfirst=True)]
    returns for it ([None] when it raises), and its table. *)
Record sheet := mksheet {
  sheet_name : string;
  sheet_date_parsed : option DT.datetime;
  table : sheet_table
}.

Inductive blank_cell :=
| EntireRowBlank (sheet_name : string) (excel_row_number : Z)
| BlankCell (sheet_name : string) (column : string) (excel_row_number : Z).

(** Entries of [quantity_warnings]. *)
Inductive quantity_warning :=
| Negative (sheet_name column : string) (excel_row_number : Z)
           (quantity_name : string) (value : Q)
| Rounded (sheet_name column : string) (excel_row_number : Z)
          (quantity_name : string) (value : Q) (rounded : Z)
| NotNumber (sheet_name column : string) (excel_row_number : Z)
            (quantity_name : string).

Inductive message :=
| ErrorSheetNameNotDate (sheet_name : string)
| ErrorColumnsNotFound (sheet_name : string)
| ErrorCouldNotReadSheet (sheet_name : string)
| WarningStyleWithoutPID (sheet_name : string) (excel_row_number : Z)
                         (style_full : string).

Record state := mks {
  result_list : list Actual.row;
  blank_cells : list blank_cell;
  skipped_sheets : list string;
  quantity_warnings : list quantity_warning;
  printed : list message
}.

Definition init : state := mks [] [] [] [] [].

Definition main_columns_blank (row : raw_row) : bool :=
  Cell.isna (po_value row) && Cell.isna (style_value row)
  && Cell.isna (colour_value row).

Fixpoint last_non_blank_from (rows : list raw_row) (index : Z) : Z :=
  match rows with
  | [] => -1
  | row :: rows' =>
      let later := last_non_blank_from rows' (index + 1) in
      if 0 <=? later then later
      else if main_columns_blank row then -1 else index
  end.

Definition po_str (v : Cell.value) : string :=
  match v with
  | Cell.NaN => ""
  | Cell.Float q _ => Cell.str_of_int (Cell.int_of q)
  | Cell.Other s => Str.strip s
  end.

(** [s.split(sep)[1]] for a string [s] that contains [sep]: the part
    between the first occurrence of [sep] and the next one. *)
Definition split_second (sep s : string) : string :=
  match String.index 0 sep s with
  | Some i =>
      let start := (i + String.length sep)%nat in
      let rest := String.substring start (String.length s - start) s in
      match String.index 0 sep rest with
      | Some j => String.substring 0 j rest
      | None => rest
      end
  | None => ""
  end.

Definition contains (sep s : string) : bool :=
  match String.index 0 sep s with Some _ => true | None => false end.

(** Step 3.4.3: the style and the warning, if any. *)
Definition style_str (sheet_name : string) (excel_row_number : Z)
           (v : Cell.value) : string * list message :=
  match v with
  | Cell.NaN => ("", [])
  | _ =>
      let style_full := Str.strip (Cell.str v) in
      if contains "PID-" style_full
      then (Str.strip (split_second "PID-" style_full), [])
      else if contains "PID" style_full
      then (Str.strip (split_second "PID" style_full), [])
      else (style_full,
            [WarningStyleWithoutPID sheet_name excel_row_number style_full])
  end.

Definition colour_normalized (v : Cell.value) : string :=
  match v with
  | Cell.NaN => ""
  | _ => Str.normalize_colour (Cell.str v)
  end.

(** Step 3.4.5: the helper [process_quantity]; it returns the
    quantity and what it appends to [quantity_warnings]. *)
Definition process_quantity (sheet_name : string) (excel_row_number : Z)
           (value : Cell.quantity_value) (col_letter quantity_name : string)
  : Z * list quantity_warning :=
  match value with
  | Cell.QtyNaN => (0, [])
  | Cell.QtyNumber quantity_float =>
      if Qle_bool 0 quantity_float then
        if Cell.is_whole quantity_float
        then (Cell.int_of quantity_float, [])
        else (Cell.round quantity_float,
              [Rounded sheet_name col_letter excel_row_number quantity_name
                       quantity_float (Cell.round quantity_float)])
      else (0, [Negative sheet_name col_letter excel_row_number
                         quantity_name quantity_float])
  | Cell.QtyNotNumber =>
      (0, [NotNumber sheet_name col_letter excel_row_number quantity_name])
  end.

(** Step 3.4: one row of a sheet. *)
Definition step (sheet_name : string) (sheet_date_parsed : DT.datetime)
           (last_non_blank : Z) (st : state) (index : nat) (row : raw_row)
  : state :=
  let excel_row_number := Z.of_nat index + 2 in
  if main_columns_blank row then
    if last_non_blank <? Z.of_nat index then st
    else mks (result_list st)
             (blank_cells st ++ [EntireRowBlank sheet_name excel_row_number])
             (skipped_sheets st) (quantity_warnings st) (printed st)
  else
    let blanks :=
      (if Cell.isna (po_value row)
       then [BlankCell sheet_name "A" excel_row_number] else [])
      ++ (if Cell.isna (style_value row)
          then [BlankCell sheet_name "E" excel_row_number] else [])
      ++ (if Cell.isna (colour_value row)
          then [BlankCell sheet_name "F" excel_row_number] else []) in
    let style := style_str sheet_name excel_row_number (style_value row) in
    let pq := process_quantity sheet_name excel_row_number in
    let order_quantity := pq (order_quantity_value row) "G" "Order Quantity" in
    let actual_cutting := pq (cutting_value row) "H" "Actual Cutting" in
    let actual_sewing := pq (sewing_value row) "I" "Actual Sewing" in
    let actual_finishing := pq (finishing_value row) "J" "Actual Finishing" in
    let actual_washing := pq (washing_value row) "K" "Actual Washing" in
    let actual_packing := pq (packing_value row) "L" "Actual Packing" in
    let row_dict :=
      Actual.mk (fst style) (po_str (po_value row))
        (colour_normalized (colour_value row))
        (DT.strftime sheet_date_parsed)
        (Some (fst order_quantity))
        (fst actual_cutting) (fst actual_sewing) (fst actual_finishing)
        (fst actual_washing) (fst actual_packing)
        sheet_name excel_row_number in
    mks (result_list st ++ [row_dict])
        (blank_cells st ++ blanks)
        (skipped_sheets st)
        (quantity_warnings st
         ++ snd order_quantity ++ snd actual_cutting ++ snd actual_sewing
         ++ snd actual_finishing ++ snd actual_washing ++ snd actual_packing)
        (printed st ++ snd style).

Fixpoint row_loop (sheet_name : string) (sheet_date_parsed : DT.datetime)
         (last_non_blank : Z) (st : state) (index : nat)
         (todo : list raw_row) : state :=
  match todo with
  | [] => st
  | row :: todo' =>
      row_loop sheet_name sheet_date_parsed last_non_blank
               (step sheet_name sheet_date_parsed last_non_blank st index row)
               (S index) todo'
  end.

Definition skip_sheet (st : state) (name : string) (m : message) : state :=
  mks (result_list st) (blank_cells st) (skipped_sheets st ++ [name])
      (quantity_warnings st) (printed st ++ [m]).

(** Step 3: one sheet. *)
Definition sheet_step (st : state) (sh : sheet) : state :=
  match sheet_date_parsed sh with
  | None => skip_sheet st (sheet_name sh) (ErrorSheetNameNotDate (sheet_name sh))
  | Some d =>
      match table sh with
      | ReadError =>
          skip_sheet st (sheet_name sh) (ErrorCouldNotReadSheet (sheet_name sh))
      | TooFewColumns =>
          skip_sheet st (sheet_name sh) (ErrorColumnsNotFound (sheet_name sh))
      | Table rows =>
          row_loop (sheet_name sh) d (last_non_blank_from rows 0) st 0%nat rows
      end
  end.

Definition run (sheets : list sheet) : state := fold_left sheet_step sheets init.

Definition get_row_wise_data_from_daily_prod (sheets : list sheet)
  : list Actual.row :=
  result_list (run sheets).

End ActualIngest.


(** ** Sample inputs used by the examples below *)

Module Sample.

(** Rows without negative quantities, and rows with a quantity that is
    not zero. *)
Definition non_negative_row (r : Matched.row) : Prop :=
  forall s, 0 <= Matched.planned s r /\ 0 <= Matched.actual s r.

Definition some_quantity_non_zero (r : Matched.row) : Prop :=
  exists s, Matched.planned s r <> 0 \/ Matched.actual s r <> 0.

Definition non_negative_actual (r : Actual.row) : Prop :=
  forall s, 0 <= Actual.actual s r.

(** A matched row whose planned and actual cutting cancel out. *)
Definition cancelling_row : Matched.row :=
  Matched.mk "A1" "100" "red" "01/Jan/25" (-5) 0 0 0 0 5 0 0 0 0.

(** The plan sheet and the daily sheet it comes from: the plan cell for
    cutting holds -5, the daily sheet of 1 January reports 5. *)
Definition cancelling_plan_sheet : list PlanIngest.raw_row :=
  [PlanIngest.mkraw (Cell.Other "A1") (Cell.Other "100") (Cell.Other "Red")
     (Cell.DateTime (DT.mk 2025 1 1))
     (Cell.QtyNumber (-5 # 1)) Cell.QtyNaN Cell.QtyNaN Cell.QtyNaN Cell.QtyNaN].

Definition cancelling_daily_sheets : list ActualIngest.sheet :=
  [ActualIngest.mksheet "01-JAN-25" (Some (DT.mk 2025 1 1))
     (ActualIngest.Table
        [ActualIngest.mkraw (Cell.Other "100") (Cell.Other "PID-A1")
           (Cell.Other "Red") Cell.QtyNaN
           (Cell.QtyNumber (5 # 1)) Cell.QtyNaN Cell.QtyNaN Cell.QtyNaN
           Cell.QtyNaN])].

End Sample.

Module SampleAgg.

(** Two matched rows of one lot on two dates. *)
Definition two_days : list Matched.row :=
  [Matched.mk "A1" "100" "red" "01/Jan/25" 50 0 0 0 0 30 0 0 0 0;
   Matched.mk "A1" "100" "red" "02/Jan/25" 0 0 0 0 0 25 0 0 0 0].

End SampleAgg.

(** ** Views of the day-wise loop used in the proofs *)

Module DaywiseView.

(** The tracking dict after one row. *)
Definition record (prev : @Dict.t Daywise.combo_key Daywise.previous_data)
           (dr : DT.datetime * Actual.row)
  : @Dict.t Daywise.combo_key Daywise.previous_data :=
  Dict.set (Daywise.key_of (snd dr))
           (Daywise.mkp (fst dr) (Daywise.cumulative (snd dr))) prev.

(** The rows the loop appends, from a given tracking dict. *)
Fixpoint outputs (prev : @Dict.t Daywise.combo_key Daywise.previous_data)
         (l : list (DT.datetime * Actual.row)) : list Actual.row :=
  match l with
  | [] => []
  | dr :: l' =>
      Daywise.updated_row (snd dr) (fst (Daywise.daywise prev (snd dr)))
      :: outputs (record prev dr) l'
  end.

(** The warnings the loop prints, from a given tracking dict. *)
Fixpoint warnings (prev : @Dict.t Daywise.combo_key Daywise.previous_data)
         (l : list (DT.datetime * Actual.row)) : list Daywise.message :=
  match l with
  | [] => []
  | dr :: l' =>
      snd (Daywise.daywise prev (snd dr)) ++ warnings (record prev dr) l'
  end.

(** The rows of a key, the value its snapshot holds for a stage (0 when
    there is none), and the cumulative value of the last row of the key
    in a list. *)
Definition is_key (k : Daywise.combo_key) (r : Actual.row) : bool :=
  eqb (Daywise.key_of r) k.

Definition base (k : Daywise.combo_key) (s : stage)
           (prev : @Dict.t Daywise.combo_key Daywise.previous_data) : Z :=
  match Dict.get k prev with
  | Some p => Daywise.qty s (Daywise.quantities_of p)
  | None => 0
  end.

Fixpoint last_cumulative (k : Daywise.combo_key) (s : stage) (b : Z)
         (l : list (DT.datetime * Actual.row)) : Z :=
  match l with
  | [] => b
  | dr :: l' =>
      last_cumulative k s
        (if is_key k (snd dr) then Actual.actual s (snd dr) else b) l'
  end.

Definition clamp_for (k : Daywise.combo_key) (m : Daywise.message) : bool :=
  match m with
  | Daywise.NegativeDaywise style po colour _ _ => eqb (style, po, colour) k
  | Daywise.CouldNotParseDate _ _ _ _ => false
  end.

(** The date of a row is the given one, or an earlier one. *)
Definition date_is (D : DT.datetime) (date_str : string) : bool :=
  match DT.strptime date_str with
  | Some d => DT.eqb d D
  | None => false
  end.

Definition date_le (D : DT.datetime) (date_str : string) : bool :=
  match DT.strptime date_str with
  | Some d => DT.leb d D
  | None => false
  end.

(** Sum of one stage over a list of rows. *)
Definition total (s : stage) (rows : list Actual.row) : Z :=
  fold_right (fun r acc => Actual.actual s r + acc) 0 rows.

(** The emitted rows of one key up to a date. *)
Definition emitted_up_to (k : Daywise.combo_key) (D : DT.datetime)
           (out : list Actual.row) : list Actual.row :=
  filter (fun o => is_key k o && date_le D (Actual.Date o)) out.

(** The key's cumulative row at a date: the last input row of the key
    with that date. *)
Definition original_at (k : Daywise.combo_key) (D : DT.datetime)
           (data : list Actual.row) : option Actual.row :=
  last (map Some
          (filter (fun r => is_key k r && date_is D (Actual.Date r)) data))
       None.

(** A clamp was reported for the key on a date up to the given one. *)
Definition clamp_reported (k : Daywise.combo_key) (D : DT.datetime)
           (log : list Daywise.message) : bool :=
  existsb
    (fun m =>
       match m with
       | Daywise.NegativeDaywise style po colour current_date _ =>
           eqb (style, po, colour) k && date_le D current_date
       | Daywise.CouldNotParseDate _ _ _ _ => false
       end)
    log.

(** Every pair the loop walks holds a row and the parse of its date. *)
Definition well_dated (l : list (DT.datetime * Actual.row)) : Prop :=
  forall dr, In dr l -> DT.strptime (Actual.Date (snd dr)) = Some (fst dr).

(** Rows of one lot reporting the given cumulative cutting totals, one
    per day from 1 January 2025 on. *)
Definition cutting_row (day : Z) (cumulative_cutting : Z) : Actual.row :=
  Actual.mk "A1" "100" "red" (DT.strftime (DT.mk 2025 1 day)) (Some 500)
            cumulative_cutting 0 0 0 0 (DT.strftime (DT.mk 2025 1 day)) 2.

Definition lot_key : Daywise.combo_key := ("A1", "100", "red").

(** Cumulative cutting 30 then 55 (no decrease), and 10 then 5 (a
    decrease, clamped on the second day). *)
Definition increasing_data : list Actual.row :=
  [cutting_row 1 30; cutting_row 2 55].

Definition decreasing_data : list Actual.row :=
  [cutting_row 1 10; cutting_row 2 5].

End DaywiseView.

(** ** Views of the matcher used in the proofs *)

Module MatchView.

(** The entry of a two-level dict. *)
Definition lookup {R : Type}
           (d : @Dict.t Match.combo_key (@Dict.t string R))
           (k : Match.combo_key) (date : string) : option R :=
  match Dict.get k d with
  | Some dates => Dict.get date dates
  | None => None
  end.

(** The dates stored for a combination, none when it is absent. *)
Definition dates_of {R : Type}
           (d : @Dict.t Match.combo_key (@Dict.t string R))
           (k : Match.combo_key) : @Dict.t string R :=
  match Dict.get k d with Some dates => dates | None => [] end.

(** The key a matched row carries. *)
Definition key_of (m : Matched.row) : Match.combo_key :=
  (Matched.PO m, Matched.Colour m).

(** The last plan row, and the last actual row, of a style, key and
    date, in input order. *)
Definition last_plan_row (plan_data : list Plan.row) (style_number : string)
           (k : Match.combo_key) (date : string) : option Plan.row :=
  last (map Some
          (filter (fun r => eqb (Match.plan_key r) k && eqb (Plan.Date r) date)
                  (Match.plan_for_style plan_data style_number)))
       None.

Definition last_actual_row (daily_prod_data : list Actual.row)
           (style_number : string) (k : Match.combo_key) (date : string)
  : option Actual.row :=
  last (map Some
          (filter (fun r => eqb (Match.actual_key r) k
                            && eqb (Actual.Date r) date)
                  (Match.actual_for_style daily_prod_data style_number)))
       None.

End MatchView.

Module SampleMatch.

(** Two plan rows of one lot on the same date (planned cutting 10, then
    7), and two actual rows of that lot and date (cutting 4, then 6). *)
Definition duplicate_plan : list Plan.row :=
  [Plan.mk "A1" "100" "red" "01/Jan/25" 10 0 0 0 0 "A1" 2;
   Plan.mk "A1" "100" "red" "01/Jan/25" 7 0 0 0 0 "A1" 3].

Definition duplicate_actual : list Actual.row :=
  [Actual.mk "A1" "100" "red" "01/Jan/25" None 4 0 0 0 0 "01-JAN-25" 2;
   Actual.mk "A1" "100" "red" "01/Jan/25" None 6 0 0 0 0 "01-JAN-25" 3].

(** A plan whose only row carries a date that is not in the format
    ['%d/%b/%y']. *)
Definition undated_plan : list Plan.row :=
  [Plan.mk "A1" "100" "red" "2025-01-01" 50 0 0 0 0 "A1" 2].

(** An actual row of a purchase order that the plan does not have. *)
Definition unplanned_actual : list Actual.row :=
  [Actual.mk "A1" "999" "red" "01/Jan/25" None 4 0 0 0 0 "01-JAN-25" 2].

End SampleMatch.

(** ** Views of the ingestion loops used in the proofs *)

Module IngestView.

(** A blank quantity cell replaced by the number 0. *)
Definition fill (v : Cell.quantity_value) : Cell.quantity_value :=
  match v with
  | Cell.QtyNaN => Cell.QtyNumber 0
  | _ => v
  end.

Definition fill_plan_row (row : PlanIngest.raw_row) : PlanIngest.raw_row :=
  PlanIngest.mkraw
    (PlanIngest.style_value row) (PlanIngest.po_value row)
    (PlanIngest.colour_value row) (PlanIngest.date_value row)
    (fill (PlanIngest.cutting_value row)) (fill (PlanIngest.sewing_value row))
    (fill (PlanIngest.washing_value row))
    (fill (PlanIngest.finishing_value row))
    (fill (PlanIngest.packing_value row)).

Definition fill_actual_row (row : ActualIngest.raw_row)
  : ActualIngest.raw_row :=
  ActualIngest.mkraw
    (ActualIngest.po_value row) (ActualIngest.style_value row)
    (ActualIngest.colour_value row)
    (fill (ActualIngest.order_quantity_value row))
    (fill (ActualIngest.cutting_value row))
    (fill (ActualIngest.sewing_value row))
    (fill (ActualIngest.finishing_value row))
    (fill (ActualIngest.washing_value row))
    (fill (ActualIngest.packing_value row)).

Definition fill_sheet (sh : ActualIngest.sheet) : ActualIngest.sheet :=
  ActualIngest.mksheet (ActualIngest.sheet_name sh)
    (ActualIngest.sheet_date_parsed sh)
    (match ActualIngest.table sh with
     | ActualIngest.Table rows => ActualIngest.Table (map fill_actual_row rows)
     | t => t
     end).

(** Every row the plan loop has built carries a date that parses. *)
Definition plan_dates_parse (st : PlanIngest.state) : Prop :=
  forall r, In r (PlanIngest.result_list st) ->
            DT.strptime (Plan.Date r) <> None.

(** A plan sheet of one row whose cutting cell is blank. *)
Definition blank_cutting_sheet : list PlanIngest.raw_row :=
  [PlanIngest.mkraw (Cell.Other "A1") (Cell.Other "100") (Cell.Other "Red")
     (Cell.DateTime (DT.mk 2025 1 1))
     Cell.QtyNaN (Cell.QtyNumber 20) (Cell.QtyNumber 0) (Cell.QtyNumber 0)
     (Cell.QtyNumber 0)].

(** A daily sheet of one row whose cutting cell is blank. *)
Definition blank_cutting_daily : list ActualIngest.sheet :=
  [ActualIngest.mksheet "01-JAN-25" (Some (DT.mk 2025 1 1))
     (ActualIngest.Table
        [ActualIngest.mkraw (Cell.Other "100") (Cell.Other "PID-A1")
           (Cell.Other "Red") (Cell.QtyNumber 500)
           Cell.QtyNaN (Cell.QtyNumber 20) (Cell.QtyNumber 0)
           (Cell.QtyNumber 0) (Cell.QtyNumber 0)])].

(** A plan row with the given date cell and no quantities. *)
Definition dated_row (v : Cell.date_value) : PlanIngest.raw_row :=
  PlanIngest.mkraw (Cell.Other "A1") (Cell.Other "100") (Cell.Other "Red") v
    (Cell.QtyNumber 10) (Cell.QtyNumber 0) (Cell.QtyNumber 0)
    (Cell.QtyNumber 0) (Cell.QtyNumber 0).

(** The sheet of the specification's example: 16/Sep/0202, 17/Sep/2025,
    18/Sep/2025; the parser reads the first year as 202. *)
Definition year_0202_sheet : list PlanIngest.raw_row :=
  [dated_row (Cell.DateText "16/Sep/0202" (Some (DT.mk 202 9 16)));
   dated_row (Cell.DateText "17/Sep/2025" (Some (DT.mk 2025 9 17)));
   dated_row (Cell.DateText "18/Sep/2025" (Some (DT.mk 2025 9 18)))].

(** Two corrupted years in a row after a good one: 15/Sep/2025,
    16/Sep/0202, 17/Sep/0203. *)
Definition two_bad_years_sheet : list PlanIngest.raw_row :=
  [dated_row (Cell.DateText "15/Sep/2025" (Some (DT.mk 2025 9 15)));
   dated_row (Cell.DateText "16/Sep/0202" (Some (DT.mk 202 9 16)));
   dated_row (Cell.DateText "17/Sep/0203" (Some (DT.mk 203 9 17)))].

End IngestView.

(** ** Views of the aggregator used in the proofs *)

Module AggView.

(** Sum of a quantity over dated rows. *)
Definition qsum (f : Matched.row -> Z) (l : list (Matched.row * DT.datetime))
  : Z :=
  fold_right (fun rd acc => f (fst rd) + acc) 0 l.

(** Rows dated before, on, or up to a date. *)
Definition before (d : DT.datetime) (rd : Matched.row * DT.datetime) : bool :=
  DT.key (snd rd) <? DT.key d.

Definition on (d : DT.datetime) (rd : Matched.row * DT.datetime) : bool :=
  DT.key (snd rd) =? DT.key d.

Definition up_to (d : DT.datetime) (rd : Matched.row * DT.datetime) : bool :=
  DT.key (snd rd) <=? DT.key d.

(** The group of an output row. *)
Definition group_of (o : Agg.row) : Agg.group_key :=
  (Agg.Style_No o, Agg.PO o, Agg.Colour o).

(** Every group holds rows of its key, each with the parse of its date,
    and no key has two groups. *)
Definition grouped_ok (matched_data : list Matched.row)
           (g : @Dict.t Agg.group_key (list (Matched.row * DT.datetime)))
  : Prop :=
  NoDup (Dict.keys g)
  /\ forall k rows, In (k, rows) g ->
       forall rd, In rd rows ->
         Agg.key_of (fst rd) = k
         /\ DT.strptime (Matched.Date (fst rd)) = Some (snd rd)
         /\ In (fst rd) matched_data.

(** The state of the loop after the rows [pre] of the sorted group
    [all], for the running value read by [F]. *)
Definition running (F : Agg.totals -> Z) (f : Matched.row -> Z)
           (all pre : list (Matched.row * DT.datetime)) (st : Agg.state)
  : Prop :=
  match Agg.current_date st with
  | None => pre = [] /\ F (Agg.cumulative st) = 0
  | Some d =>
      F (Agg.cumulative st) = qsum f (filter (before d) all)
      /\ F (Agg.current_date_total st)
         = qsum f (filter (on d) all)
      /\ F (Agg.current_date_cumulative st)
         = qsum f (filter (up_to d) all)
      /\ (forall x, In x pre -> DT.key (snd x) <= DT.key d)
      /\ (exists x, In x pre /\ DT.key (snd x) = DT.key d)
  end.

(** Two rows of the output that belong to one group, the first dated no
    later than the second. *)
Definition in_date_order (out : list Agg.row) (o1 o2 : Agg.row) : Prop :=
  In o1 out /\ In o2 out
  /\ group_of o1 = group_of o2
  /\ exists d1 d2,
       DT.strptime (Agg.Date o1) = Some d1
       /\ DT.strptime (Agg.Date o2) = Some d2
       /\ DT.leb d1 d2 = true.

(** A default row for [nth]. *)
Definition no_row : Agg.row :=
  Agg.new_row (Matched.mk "" "" "" "" 0 0 0 0 0 0 0 0 0 0) (DT.mk 1 1 1)
              Agg.zero.

(** Two days of one lot, the plan of the second day being -3. *)
Definition negative_plan : list Matched.row :=
  [Matched.mk "A1" "100" "red" "01/Jan/25" 5 0 0 0 0 4 0 0 0 0;
   Matched.mk "A1" "100" "red" "02/Jan/25" (-3) 0 0 0 0 1 0 0 0 0].

End AggView.

(** ** Views of the calendar used in the proofs *)

Module DateView.

(** The year [strptime] reads from two digits. *)
Definition pivot (yy : Z) : Z := if yy <=? 68 then yy + 2000 else yy + 1900.

(** What [strptime] must return on the text [strftime] writes for day
    [dd], month [mm] and a year ending in [yy]. *)
Definition round_trip_ok (yy mm dd : Z) : bool :=
  match DT.strptime (DT.strftime (DT.mk yy mm dd)) with
  | Some d =>
      (DT.year d =? pivot yy) && (DT.month d =? mm) && (DT.day d =? dd)
      && (dd <=? DT.days_in_month (pivot yy) mm)
  | None => DT.days_in_month (pivot yy) mm <? dd
  end.

Definition range (n : nat) : list Z := map Z.of_nat (seq 0 n).

End DateView.

(** ** Views of the daily-production loop used in the proofs *)

Module ActualView.

(** Two states one after the other: every list of the first followed by
    that of the second. *)
Definition append (a b : ActualIngest.state) : ActualIngest.state :=
  ActualIngest.mks
    (ActualIngest.result_list a ++ ActualIngest.result_list b)
    (ActualIngest.blank_cells a ++ ActualIngest.blank_cells b)
    (ActualIngest.skipped_sheets a ++ ActualIngest.skipped_sheets b)
    (ActualIngest.quantity_warnings a ++ ActualIngest.quantity_warnings b)
    (ActualIngest.printed a ++ ActualIngest.printed b).

(** A sheet is read when its name parses as a date and its table has
    the nine columns. *)
Definition is_read (sh : ActualIngest.sheet) : bool :=
  match ActualIngest.sheet_date_parsed sh, ActualIngest.table sh with
  | Some _, ActualIngest.Table _ => true
  | _, _ => false
  end.

(** Two daily sheets, the first with a name that is not a date. *)
Definition two_sheets : list ActualIngest.sheet :=
  [ActualIngest.mksheet "Summary" None ActualIngest.ReadError;
   ActualIngest.mksheet "01-JAN-25" (Some (DT.mk 2025 1 1))
     (ActualIngest.Table
        [ActualIngest.mkraw (Cell.Other "100") (Cell.Other "PID-A1")
           (Cell.Other "Red") (Cell.QtyNumber 500)
           (Cell.QtyNumber (-4 # 1)) (Cell.QtyNumber (5 # 2)) Cell.QtyNaN
           Cell.QtyNotNumber (Cell.QtyNumber 7)])].

End ActualView.

(** ** Further views of the day-wise converter *)

Module DaywiseView2.

(** What identifies a row apart from its quantities. *)
Definition identity (r : Actual.row)
  : string * string * string * string * string * Z :=
  (Actual.Style_No r, Actual.PO r, Actual.Colour r, Actual.Date r,
   Actual.Source_Sheet r, Actual.Source_Row r).

Definition parses (r : Actual.row) : bool :=
  match DT.strptime (Actual.Date r) with Some _ => true | None => false end.

(** The rows of one key among those whose date parses. *)
Definition rows_of (k : Daywise.combo_key) (data : list Actual.row)
  : list Actual.row :=
  filter (fun r => DaywiseView.is_key k r && parses r) data.

(** A date is not after another one, both given as text. *)
Definition not_after (a b : Actual.row) : Prop :=
  exists da db,
    DT.strptime (Actual.Date a) = Some da
    /\ DT.strptime (Actual.Date b) = Some db
    /\ DT.key da <= DT.key db.

(** Three rows out of order, one of them with a date that is no date. *)
Definition shuffled : list Actual.row :=
  [DaywiseView.cutting_row 3 8;
   Actual.mk "A1" "100" "red" "someday" (Some 500) 9 0 0 0 0 "someday" 2;
   DaywiseView.cutting_row 1 10;
   DaywiseView.cutting_row 2 5].

End DaywiseView2.

(** ** Further views of the matcher *)

Module MatchView2.

(** No plan row, and no actual row, of the style has the key and the
    date. *)
Definition no_plan_row (plan_data : list Plan.row) (style_number : string)
           (k : Match.combo_key) (date : string) : Prop :=
  forall p, In p (Match.plan_for_style plan_data style_number) ->
            Match.plan_key p = k -> Plan.Date p <> date.

Definition no_actual_row (daily_prod_data : list Actual.row)
           (style_number : string) (k : Match.combo_key) (date : string)
  : Prop :=
  forall a, In a (Match.actual_for_style daily_prod_data style_number) ->
            Match.actual_key a = k -> Actual.Date a <> date.

(** The plan of one lot for 1 January and what was produced on 1 and
    2 January (day-wise), for the lot and for a purchase order and a
    colour the plan does not have. *)
Definition plan : list Plan.row :=
  [Plan.mk "A1" "100" "red" "01/Jan/25" 50 0 0 0 0 "A1" 2].

Definition actual : list Actual.row :=
  [Actual.mk "A1" "100" "red" "01/Jan/25" None 30 0 0 0 0 "01-JAN-25" 2;
   Actual.mk "a1 " "100" "Red " "02/Jan/25" None 25 0 0 0 0 "02-JAN-25" 2;
   Actual.mk "A1" "999" "red" "02/Jan/25" None 4 0 0 0 0 "02-JAN-25" 3;
   Actual.mk "A1" "100" "blue" "02/Jan/25" None 6 0 0 0 0 "02-JAN-25" 4].

Definition no_matched_row : Matched.row :=
  Matched.mk "" "" "" "" 0 0 0 0 0 0 0 0 0 0.


End MatchView2.

(** ** Further views of the aggregator *)

Module AggView2.

(** The date of a matched row parses. *)
Definition parses (r : Matched.row) : bool :=
  match DT.strptime (Matched.Date r) with Some _ => true | None => false end.

(** The matched row an output row was made from: its first four
    columns and its ten day quantities. *)
Definition base (o : Agg.row) : Matched.row :=
  Matched.mk (Agg.Style_No o) (Agg.PO o) (Agg.Colour o) (Agg.Date o)
             (Agg.Planned_Cutting o) (Agg.Planned_Sewing o)
             (Agg.Planned_Washing o) (Agg.Planned_Finishing o)
             (Agg.Planned_Packing o)
             (Agg.Actual_Cutting o) (Agg.Actual_Sewing o)
             (Agg.Actual_Finishing o) (Agg.Actual_Washing o)
             (Agg.Actual_Packing o).

(** The input row belongs to the group and is dated no later than [d]. *)
Definition up_to (k : Agg.group_key) (d : DT.datetime) (r : Matched.row)
  : bool :=
  eqb (Agg.key_of r) k
  && match DT.strptime (Matched.Date r) with
     | Some d' => DT.key d' <=? DT.key d
     | None => false
     end.

(** The sum of a quantity over the input rows of a group dated up to
    [d]. *)
Definition total_up_to (f : Matched.row -> Z) (matched_data : list Matched.row)
           (k : Agg.group_key) (d : DT.datetime) : Z :=
  fold_right Z.add 0 (map f (filter (up_to k d) matched_data)).

(** The input rows whose date parses, each with the parse, and those of
    one group. *)
Definition dated (l : list Matched.row) : list (Matched.row * DT.datetime) :=
  flat_map (fun r => match DT.strptime (Matched.Date r) with
                     | Some d => [(r, d)]
                     | None => []
                     end) l.

Definition rows_of (k : Agg.group_key) (l : list Matched.row)
  : list (Matched.row * DT.datetime) :=
  filter (fun rd => eqb (Agg.key_of (fst rd)) k) (dated l).

(** The rows a dict of groups holds for a key. *)
Definition get (k : Agg.group_key)
           (g : @Dict.t Agg.group_key (list (Matched.row * DT.datetime)))
  : list (Matched.row * DT.datetime) :=
  match Dict.get k g with Some rows => rows | None => [] end.

(** Two lots over three days, the rows out of date order, and one row
    whose date does not parse. *)
Definition two_lots : list Matched.row :=
  [Matched.mk "A1" "100" "red" "03/Jan/25" 10 0 0 0 0 7 0 0 0 0;
   Matched.mk "A1" "200" "red" "01/Jan/25" 20 0 0 0 0 5 0 0 0 0;
   Matched.mk "A1" "100" "red" "01/Jan/25" 50 0 0 0 0 30 0 0 0 0;
   Matched.mk "A1" "100" "red" "someday" 9 0 0 0 0 9 0 0 0 0;
   Matched.mk "A1" "100" "red" "02/Jan/25" 0 0 0 0 0 25 0 0 0 0].

End AggView2.

(** * The style numbers of the plan: [get_style_numbers_from_plan] *)

Module StyleNumbers.

(** What reading column A of a sheet and taking its column ['Style #']
    gives: an exception, or the values of the column. *)
Inductive column :=
| ColumnError
| Column (values : list Cell.value).

(** The plan file: missing, unreadable, or its sheets in order, each
    with its name and column A. *)
Inductive workbook :=
| FileNotFound
| OpenError
| Sheets (sheets : list (string * column)).

Inductive message :=
| ErrorFileNotFound
| ErrorReadingFile
| WrongStyle (sheet_name : string) (excel_row_number : Z)
             (cell_value : string)
| EmptyCells (sheet_name : string) (blank_cells : list Z)
| ErrorCouldNotProcessSheet (sheet_name : string).

(** Step 3: the blank cells and the messages about cells that differ
    from the sheet name. *)
Fixpoint scan (sheet_name : string) (values : list Cell.value) (index : Z)
  : list Z * list message :=
  match values with
  | [] => ([], [])
  | cell_value :: rest =>
      let '(blank_cells, printed) := scan sheet_name rest (index + 1) in
      let excel_row_number := index + 2 in
      if Cell.isna cell_value then (excel_row_number :: blank_cells, printed)
      else if (Cell.str cell_value =? sheet_name)%string
           then (blank_cells, printed)
           else (blank_cells,
                 WrongStyle sheet_name excel_row_number (Cell.str cell_value)
                 :: printed)
  end.

(** The index of the last cell that is not blank, -1 when there is
    none. *)
Fixpoint last_non_blank_from (values : list Cell.value) (index : Z) : Z :=
  match values with
  | [] => -1
  | v :: rest =>
      let later := last_non_blank_from rest (index + 1) in
      if 0 <=? later then later
      else if Cell.isna v then -1 else index
  end.

(** Steps 3 and the blank cell handling for one column. *)
Definition check_column (sheet_name : string) (values : list Cell.value)
  : list message :=
  let '(blank_cells, printed) := scan sheet_name values 0 in
  match blank_cells with
  | [] => printed
  | _ :: _ =>
      let last_non_blank_row := last_non_blank_from values 0 + 2 in
      match filter (fun row => row <=? last_non_blank_row) blank_cells with
      | [] => printed
      | kept => printed ++ [EmptyCells sheet_name kept]
      end
  end.

(** Step 2: one sheet. *)
Definition sheet_step (acc : list string * list message)
           (sh : string * column) : list string * list message :=
  let '(valid_sheets, printed) := acc in
  match snd sh with
  | Column values =>
      (valid_sheets ++ [fst sh], printed ++ check_column (fst sh) values)
  | ColumnError => (valid_sheets, printed ++ [ErrorCouldNotProcessSheet (fst sh)])
  end.

Definition run (wb : workbook) : list string * list message :=
  match wb with
  | FileNotFound => ([], [ErrorFileNotFound])
  | OpenError => ([], [ErrorReadingFile])
  | Sheets sheets => fold_left sheet_step sheets ([], [])
  end.

Definition get_style_numbers_from_plan (wb : workbook) : list string :=
  fst (run wb).

End StyleNumbers.

Module StyleView.

Definition readable (sh : string * StyleNumbers.column) : bool :=
  match snd sh with StyleNumbers.Column _ => true | _ => false end.

(** Row [n] of the sheet holds a blank cell of the column and a later
    row holds a cell that is not blank. *)
Definition middle_blank (values : list Cell.value) (n : Z) : Prop :=
  exists i j c v,
    n = Z.of_nat i + 2
    /\ nth_error values i = Some c /\ Cell.isna c = true
    /\ (i < j)%nat
    /\ nth_error values j = Some v /\ Cell.isna v = false.

(** Row [n] holds a cell that is not blank and reads [c], which is not
    the sheet name. *)
Definition wrong_style (sheet_name : string) (values : list Cell.value)
           (n : Z) (c : string) : Prop :=
  exists i v,
    n = Z.of_nat i + 2
    /\ nth_error values i = Some v /\ Cell.isna v = false
    /\ c = Cell.str v /\ c <> sheet_name.

(** A column with a wrong style, a blank in the middle and two blanks at
    the end. *)
Definition column_a : list Cell.value :=
  [Cell.Other "A1"; Cell.NaN; Cell.Other "B7"; Cell.Other "A1";
   Cell.NaN; Cell.NaN].

End StyleView.

(** * The report: [write_production_report_to_excel] *)

Module Report.

(** A row of the report: the 35 columns of the aggregator and the order
    quantity stamped on it. *)
Record row := mk {
  columns : Agg.row;
  Order_Quantity : Z
}.

End Report.

Module Writer.

Inductive message :=
| NoDataForStyle (style_number : string)
| CouldNotParseDate (date_str style_number : string).

(** [datetime.max], the sort key of a row whose date does not parse.
    Its time of day plays no part: it is compared with dates at
    midnight, none of which falls on its day. *)
Definition datetime_max : DT.datetime := DT.mk 9999 12 31.

(** Step 2.2: the rows with their sort keys. *)
Fixpoint rows_with_dates (style_number : string) (rows : list Report.row)
  : list (Report.row * DT.datetime) * list message :=
  match rows with
  | [] => ([], [])
  | row :: rest =>
      let '(l, log) := rows_with_dates style_number rest in
      let date_str := Agg.Date (Report.columns row) in
      match DT.strptime date_str with
      | Some date_obj => ((row, date_obj) :: l, log)
      | None => ((row, datetime_max) :: l,
                 CouldNotParseDate date_str style_number :: log)
      end
  end.

Definition sorted_rows (style_number : string) (rows : list Report.row)
  : list Report.row :=
  map fst (sort_by_date snd (fst (rows_with_dates style_number rows))).

(** Step 2.5: [str(style_number)[:31]] *)
Definition sheet_name (style_number : string) : string :=
  String.substring 0 31 style_number.

(** Step 2 for one style: the sheet name and the rows of the frame
    handed to [to_excel], when the style has rows. *)
Definition style_step
           (acc : list (string * list Report.row) * list message)
           (entry : string * list Report.row)
  : list (string * list Report.row) * list message :=
  let '(frames, printed) := acc in
  let '(style_number, rows) := entry in
  match rows with
  | [] => (frames, printed ++ [NoDataForStyle style_number])
  | _ :: _ =>
      (frames ++ [(sheet_name style_number, sorted_rows style_number rows)],
       printed ++ snd (rows_with_dates style_number rows))
  end.

(** The frames in the order they are handed to [to_excel], and what is
    printed on the way.  A row of the model has all 36 columns, so the
    branch for missing columns is never taken; creating, writing and
    saving the file itself are not part of the model. *)
Definition run (matched_data_by_style : @Dict.t string (list Report.row))
  : list (string * list Report.row) * list message :=
  fold_left style_step matched_data_by_style ([], []).

Definition frames (matched_data_by_style : @Dict.t string (list Report.row))
  : list (string * list Report.row) :=
  fst (run matched_data_by_style).

End Writer.

Module WriterView.

Definition date_of (r : Report.row) : option DT.datetime :=
  DT.strptime (Agg.Date (Report.columns r)).

(** The sort key of a row. *)
Definition sort_date (r : Report.row) : DT.datetime :=
  match date_of r with Some d => d | None => Writer.datetime_max end.

(** The first row is dated no later than the second; a row without a
    date is later than every dated row and level with the other rows
    without one. *)
Definition not_after (a b : Report.row) : Prop :=
  match date_of a, date_of b with
  | Some da, Some db => DT.key da <= DT.key db
  | Some _, None => True
  | None, Some _ => False
  | None, None => True
  end.

(** The rows of one date; [None] selects the rows without a date. *)
Definition on (d : option DT.datetime) (r : Report.row) : bool :=
  match d, date_of r with
  | Some d1, Some d2 => DT.key d1 =? DT.key d2
  | None, None => true
  | _, _ => false
  end.

Definition has_rows (entry : string * list Report.row) : bool :=
  match snd entry with [] => false | _ :: _ => true end.

Definition report_row (po date : string) (cutting : Z) : Report.row :=
  Report.mk
    (Agg.new_row (Matched.mk "A1" po "red" date 0 0 0 0 0 cutting 0 0 0 0)
                 (DT.mk 2025 1 1) Agg.zero)
    0.

(** Three rows out of date order, one of them without a date, for a
    style whose number has 36 characters, and a style without rows. *)
Definition two_styles : @Dict.t string (list Report.row) :=
  [("STYLE-WITH-A-VERY-LONG-NUMBER-0123456",
    [report_row "100" "02/Jan/25" 1; report_row "100" "someday" 2;
     report_row "200" "01/Jan/25" 3; report_row "200" "02/Jan/25" 4]);
   ("B2", [])].

End WriterView.

(** * The whole run: [do_everything] *)

Module Pipeline.

(** A sheet of the plan file: its name, its column A as
    [get_style_numbers_from_plan] reads it, and its columns A to M as
    [get_row_wise_data_from_plan] reads them ([None] when the sheet
    cannot be read or lacks a required column).  The file is read once
    for the style numbers and once more for every style; it is taken
    not to change in between. *)
Record plan_sheet := mkplan {
  plan_sheet_name : string;
  style_column : StyleNumbers.column;
  plan_table : option (list PlanIngest.raw_row)
}.

Inductive plan_file :=
| PlanNotFound
| PlanOpenError
| PlanSheets (sheets : list plan_sheet).

(** The daily production file: [None] when it cannot be opened. *)
Definition daily_file := option (list ActualIngest.sheet).

Definition style_workbook (plan : plan_file) : StyleNumbers.workbook :=
  match plan with
  | PlanNotFound => StyleNumbers.FileNotFound
  | PlanOpenError => StyleNumbers.OpenError
  | PlanSheets sheets =>
      StyleNumbers.Sheets
        (map (fun sh => (plan_sheet_name sh, style_column sh)) sheets)
  end.

(** [get_row_wise_data_from_plan(file_path, style_number)] *)
Definition plan_rows (plan : plan_file) (style_number : string)
  : list Plan.row :=
  match plan with
  | PlanSheets sheets =>
      match find (fun sh => (plan_sheet_name sh =? style_number)%string)
                 sheets with
      | Some sh =>
          match plan_table sh with
          | Some df => PlanIngest.get_row_wise_data_from_plan df style_number
          | None => []
          end
      | None => []
      end
  | _ => []
  end.

(** [get_row_wise_data_from_daily_prod(file_path)] *)
Definition daily_rows (daily : daily_file) : list Actual.row :=
  match daily with
  | Some sheets => ActualIngest.get_row_wise_data_from_daily_prod sheets
  | None => []
  end.

(** The key of the order quantity lookup. *)
Definition lookup_key (style_no po colour : string)
  : string * string * string :=
  (Str.upper (Str.strip style_no), Str.strip po, Str.lower (Str.strip colour)).

(** The lookup keeps the first order quantity met for a key. *)
Definition order_quantity_lookup (daily_prod_data : list Actual.row)
  : @Dict.t (string * string * string) Z :=
  fold_left
    (fun lookup row =>
       let combo_key :=
         lookup_key (Actual.Style_No row) (Actual.PO row) (Actual.Colour row) in
       if Dict.mem combo_key lookup then lookup
       else Dict.set combo_key
                     (match Actual.Order_Quantity row with
                      | Some q => q
                      | None => 0
                      end)
                     lookup)
    daily_prod_data [].

Definition stamp (lookup : @Dict.t (string * string * string) Z)
           (row : Agg.row) : Report.row :=
  Report.mk row
    (match Dict.get (lookup_key (Agg.Style_No row) (Agg.PO row) (Agg.Colour row))
                    lookup with
     | Some q => q
     | None => 0
     end).

(** Step 4 for one style: [None] where the loop continues without
    storing anything. *)
Definition style_rows (plan : plan_file) (daily_prod_daywise : list Actual.row)
           (lookup : @Dict.t (string * string * string) Z)
           (style_number : string) : option (list Report.row) :=
  match plan_rows plan style_number with
  | [] => None
  | plan_data_for_style =>
      match Match.match_plan_with_actual plan_data_for_style
                                         daily_prod_daywise style_number with
      | [] => None
      | matched_rows =>
          match Prune.delete_empty_rows matched_rows with
          | [] => None
          | matched_rows =>
              match Agg.add_cumulative_columns_to_matched_dict matched_rows with
              | [] => None
              | matched_rows => Some (map (stamp lookup) matched_rows)
              end
          end
      end
  end.

Definition style_step (plan : plan_file) (daily_prod_daywise : list Actual.row)
           (lookup : @Dict.t (string * string * string) Z)
           (matched_data_by_style : @Dict.t string (list Report.row))
           (style_number : string) : @Dict.t string (list Report.row) :=
  match style_rows plan daily_prod_daywise lookup style_number with
  | Some matched_rows => Dict.set style_number matched_rows matched_data_by_style
  | None => matched_data_by_style
  end.

(** How a run ends: with one of the four errors, or with the dict that
    is handed to the writer. *)
Inductive outcome :=
| ErrorNoStyleNumbers
| ErrorNoDailyData
| ErrorConversionFailed
| ErrorNoMatchedData
| Report (matched_data_by_style : @Dict.t string (list Report.row)).

Definition do_everything (plan : plan_file) (daily : daily_file) : outcome :=
  match StyleNumbers.get_style_numbers_from_plan (style_workbook plan) with
  | [] => ErrorNoStyleNumbers
  | style_numbers =>
      match daily_rows daily with
      | [] => ErrorNoDailyData
      | daily_prod_data =>
          let lookup := order_quantity_lookup daily_prod_data in
          match Daywise.convert_cumulative_to_daywise_quantities_for_daily_prod
                  daily_prod_data with
          | [] => ErrorConversionFailed
          | daily_prod_daywise =>
              match fold_left (style_step plan daily_prod_daywise lookup)
                              style_numbers [] with
              | [] => ErrorNoMatchedData
              | matched_data_by_style => Report matched_data_by_style
              end
          end
      end
  end.

(** The frames of the report a run writes, none when it ends in an
    error. *)
Definition frames (plan : plan_file) (daily : daily_file)
  : list (string * list Report.row) :=
  match do_everything plan daily with
  | Report matched_data_by_style => Writer.frames matched_data_by_style
  | _ => []
  end.

End Pipeline.

Module PipelineView.

(** The daily row belongs to the lot of the report row, under the key
    of the order quantity lookup. *)
Definition same_lot (row : Agg.row) (r : Actual.row) : bool :=
  eqb (Pipeline.lookup_key (Actual.Style_No r) (Actual.PO r) (Actual.Colour r))
      (Pipeline.lookup_key (Agg.Style_No row) (Agg.PO row) (Agg.Colour row)).

Definition order_quantity (r : Actual.row) : Z :=
  match Actual.Order_Quantity r with Some q => q | None => 0 end.

(** The dates of the daily sheets are dates. *)
Definition dated (daily : Pipeline.daily_file) : Prop :=
  forall sheets sh d,
    daily = Some sheets -> In sh sheets ->
    ActualIngest.sheet_date_parsed sh = Some d -> DT.valid d = true.

(** A plan with the sheet of style A1, 50 pieces to cut on 1 January,
    and a sheet that cannot be read; and the daily file of two days with
    30 and then 55 pieces cut in all, the order quantity being 500 on
    the first day and 600 on the second. *)
Definition plan : Pipeline.plan_file :=
  Pipeline.PlanSheets
    [Pipeline.mkplan "A1" (StyleNumbers.Column [Cell.Other "A1"])
       (Some [PlanIngest.mkraw (Cell.Other "A1") (Cell.Other "100")
                (Cell.Other "Red") (Cell.DateTime (DT.mk 2025 1 1))
                (Cell.QtyNumber 50) Cell.QtyNaN Cell.QtyNaN Cell.QtyNaN
                Cell.QtyNaN]);
     Pipeline.mkplan "Notes" StyleNumbers.ColumnError None].

Definition daily_sheet (name : string) (day : Z) (order cutting : Q)
  : ActualIngest.sheet :=
  ActualIngest.mksheet name (Some (DT.mk 2025 1 day))
    (ActualIngest.Table
       [ActualIngest.mkraw (Cell.Other "100") (Cell.Other "PID-A1")
          (Cell.Other "Red") (Cell.QtyNumber order)
          (Cell.QtyNumber cutting) Cell.QtyNaN Cell.QtyNaN Cell.QtyNaN
          Cell.QtyNaN]).

Definition daily : Pipeline.daily_file :=
  Some [daily_sheet "01-JAN-25" 1 500 30; daily_sheet "02-JAN-25" 2 600 55].

Definition no_report_row : Report.row := Report.mk AggView.no_row 0.

End PipelineView.

(** ** Further views of the two ingestion loops *)

Module IngestView2.





(** A plan sheet of five rows: a good row, a blank row, a row without a
    date, a row whose date is no date, and a blank row at the end. *)
Definition plan_row (date : Cell.date_value) : PlanIngest.raw_row :=
  PlanIngest.mkraw (Cell.Other "A1") (Cell.Other "100") (Cell.Other "Red")
                   date (Cell.QtyNumber 5) Cell.QtyNaN Cell.QtyNaN Cell.QtyNaN
                   Cell.QtyNaN.



End IngestView2.

(** ** Text without white space at its ends *)

Module StrView.



End StrView.

(* ================================================================== *)
(** * Part II. Properties                                               *)
(* ================================================================== *)

(** ** Key equality *)

#[export] Instance string_EqbLaws : EqbLaws string.
Proof. intros x y. apply String.eqb_eq. Qed.

#[export] Instance Z_EqbLaws : EqbLaws Z.
Proof. intros x y. apply Z.eqb_eq. Qed.

#[export] Instance pair_EqbLaws {A B : Type} `{EqbLaws A} `{EqbLaws B}
  : EqbLaws (A * B).
Proof.
  intros [a b] [a' b']. unfold eqb, pair_Eqb. cbn [fst snd].
  rewrite andb_true_iff, !eqb_iff. split.
  - intros [-> ->]. reflexivity.
  - intros E. injection E as -> ->. auto.
Qed.

Lemma eqb_refl {K : Type} `{EqbLaws K} (k : K) : eqb k k = true.
Proof. apply eqb_iff. reflexivity. Qed.

Lemma eqb_false_iff {K : Type} `{EqbLaws K} (x y : K) :
  eqb x y = false <-> x <> y.
Proof.
  rewrite <- eqb_iff. destruct (eqb x y); split; congruence.
Qed.

Lemma eqb_dec {K : Type} `{EqbLaws K} (x y : K) : {x = y} + {x <> y}.
Proof.
  destruct (eqb x y) eqn:E.
  - left. apply eqb_iff. exact E.
  - right. apply eqb_false_iff. exact E.
Qed.

(** ** Stable sort *)

Section StableSortFacts.
Context {A : Type} (le : A -> A -> bool).

Lemma insert_sorted_perm (x : A) (l : list A) :
  Permutation (insert_sorted le x l) (x :: l).
Proof.
  induction l as [|y l IH]; simpl.
  - apply Permutation_refl.
  - destruct (le x y).
    + apply Permutation_refl.
    + rewrite IH. apply perm_swap.
Qed.

Lemma stable_sort_perm (l : list A) : Permutation (stable_sort le l) l.
Proof.
  induction l as [|x l IH]; simpl.
  - apply perm_nil.
  - rewrite insert_sorted_perm. apply perm_skip, IH.
Qed.

Lemma stable_sort_In (x : A) (l : list A) :
  In x (stable_sort le l) <-> In x l.
Proof.
  split; apply Permutation_in;
    [apply stable_sort_perm | apply Permutation_sym, stable_sort_perm].
Qed.
End StableSortFacts.

(** Sorting by a key with values in [Z] gives a list sorted on it. *)
Section SortByKey.
Context {A : Type} (k : A -> Z).

Let le (a b : A) : bool := k a <=? k b.
Let R (a b : A) : Prop := k a <= k b.

Lemma insert_by_key_sorted (x : A) (l : list A) :
  StronglySorted R l -> StronglySorted R (insert_sorted le x l).
Proof.
  induction 1 as [|y l Hs IH Hall]; simpl.
  - constructor; [constructor | constructor].
  - destruct (le x y) eqn:E; unfold le in E.
    + apply Z.leb_le in E. constructor.
      * constructor; assumption.
      * constructor; [exact E|].
        rewrite Forall_forall in Hall |- *. intros z Hz.
        specialize (Hall z Hz). unfold R in *. lia.
    + apply Z.leb_gt in E. constructor; [exact IH|].
      rewrite Forall_forall in Hall |- *. intros z Hz.
      apply (Permutation_in _ (insert_sorted_perm le x l)) in Hz.
      destruct Hz as [<- | Hz]; [unfold R; lia | apply Hall, Hz].
Qed.

Lemma sort_by_key_sorted (l : list A) : StronglySorted R (stable_sort le l).
Proof.
  induction l as [|x l IH]; simpl.
  - constructor.
  - apply insert_by_key_sorted, IH.
Qed.
End SortByKey.

Lemma sort_by_date_sorted {A : Type} (date_of : A -> DT.datetime) (l : list A) :
  StronglySorted (fun a b => DT.key (date_of a) <= DT.key (date_of b))
                 (sort_by_date date_of l).
Proof. apply (sort_by_key_sorted (fun a => DT.key (date_of a))). Qed.

Lemma sort_by_date_In {A : Type} (date_of : A -> DT.datetime) (x : A) l :
  In x (sort_by_date date_of l) <-> In x l.
Proof. apply stable_sort_In. Qed.

(** ** Dictionaries *)

Section DictFacts.
Context {K V : Type} `{EqbLaws K}.

Lemma dict_get_set_same (k : K) (v : V) (d : list (K * V)) :
  Dict.get k (Dict.set k v d) = Some v.
Proof.
  induction d as [|[k' v'] d IH]; simpl.
  - rewrite eqb_refl. reflexivity.
  - destruct (eqb k' k) eqn:E; simpl; rewrite E; [reflexivity | exact IH].
Qed.

Lemma dict_get_set_other (k k' : K) (v : V) (d : list (K * V)) :
  k <> k' -> Dict.get k' (Dict.set k v d) = Dict.get k' d.
Proof.
  intros Hne. induction d as [|[k0 v0] d IH]; simpl.
  - apply eqb_false_iff in Hne. rewrite Hne. reflexivity.
  - destruct (eqb k0 k) eqn:E; simpl.
    + apply eqb_iff in E. subst k0.
      apply eqb_false_iff in Hne. rewrite Hne. reflexivity.
    + rewrite IH. reflexivity.
Qed.

Lemma dict_get_In (k : K) (v : V) (d : list (K * V)) :
  Dict.get k d = Some v -> In (k, v) d.
Proof.
  induction d as [|[k0 v0] d IH]; simpl; [discriminate|].
  destruct (eqb k0 k) eqn:E.
  - apply eqb_iff in E. intros [= ->]. left. congruence.
  - intros Hg. right. apply IH, Hg.
Qed.

Lemma dict_get_None (k : K) (d : list (K * V)) :
  Dict.get k d = None <-> ~ In k (Dict.keys d).
Proof.
  induction d as [|[k0 v0] d IH]; simpl.
  - tauto.
  - destruct (eqb k0 k) eqn:E.
    + apply eqb_iff in E. split; [discriminate | intros Hn; tauto].
    + apply eqb_false_iff in E. rewrite IH. tauto.
Qed.

Lemma dict_keys_set (k : K) (v : V) (d : list (K * V)) :
  Dict.keys (Dict.set k v d)
  = if Dict.mem k d then Dict.keys d else Dict.keys d ++ [k].
Proof.
  unfold Dict.mem. induction d as [|[k0 v0] d IH]; simpl.
  - reflexivity.
  - destruct (eqb k0 k) eqn:E; simpl.
    + reflexivity.
    + rewrite IH. destruct (Dict.get k d); reflexivity.
Qed.

Lemma dict_set_NoDup (k : K) (v : V) (d : list (K * V)) :
  NoDup (Dict.keys d) -> NoDup (Dict.keys (Dict.set k v d)).
Proof.
  intros Hn. rewrite dict_keys_set. unfold Dict.mem.
  destruct (Dict.get k d) eqn:E; [exact Hn|].
  apply dict_get_None in E.
  apply (Permutation_NoDup (l := k :: Dict.keys d)).
  - apply Permutation_cons_append.
  - constructor; assumption.
Qed.

Lemma dict_In_get (k : K) (v : V) (d : list (K * V)) :
  NoDup (Dict.keys d) -> In (k, v) d -> Dict.get k d = Some v.
Proof.
  induction d as [|[k0 v0] d IH]; simpl; [tauto|].
  intros Hn Hin. inversion Hn as [|? ? Hnotin Hn']. subst.
  destruct Hin as [E | Hin].
  - injection E as -> ->. rewrite eqb_refl. reflexivity.
  - destruct (eqb k0 k) eqn:E.
    + apply eqb_iff in E. subst k0. exfalso. apply Hnotin.
      apply (in_map fst) in Hin. exact Hin.
    + apply IH; assumption.
Qed.
End DictFacts.

(** ** The pruner *)

Lemma prune_fold (l : list Matched.row) (acc : list Matched.row) (n : Z) :
  fst (fold_left Prune.step l (acc, n))
  = acc ++ filter (fun r => negb (Prune.total_quantity r =? 0)) l.
Proof.
  revert acc n. induction l as [|r l IH]; intros acc n; simpl.
  - rewrite app_nil_r. reflexivity.
  - destruct (Prune.total_quantity r =? 0); simpl; rewrite IH.
    + reflexivity.
    + rewrite <- app_assoc. reflexivity.
Qed.

Lemma delete_empty_rows_filter (l : list Matched.row) :
  Prune.delete_empty_rows l
  = filter (fun r => negb (Prune.total_quantity r =? 0)) l.
Proof. unfold Prune.delete_empty_rows. rewrite prune_fold. reflexivity. Qed.

(** A row survives exactly when the sum of its ten quantities is not
    zero. *)
Lemma delete_empty_rows_In (l : list Matched.row) (r : Matched.row) :
  In r (Prune.delete_empty_rows l) <-> In r l /\ Prune.total_quantity r <> 0.
Proof.
  rewrite delete_empty_rows_filter, filter_In, negb_true_iff, Z.eqb_neq.
  reflexivity.
Qed.



(** On rows without negative quantities the sum test and the docstring
    agree. *)
Lemma delete_empty_rows_non_negative (l : list Matched.row) (r : Matched.row) :
  Sample.non_negative_row r ->
  (In r (Prune.delete_empty_rows l) <-> In r l /\ Sample.some_quantity_non_zero r).
Proof.
  intros Hnn. rewrite delete_empty_rows_In.
  assert (Prune.total_quantity r <> 0 <-> Sample.some_quantity_non_zero r) as ->;
    [|reflexivity].
  pose proof (Hnn Cutting) as [? ?]. pose proof (Hnn Sewing) as [? ?].
  pose proof (Hnn Washing) as [? ?]. pose proof (Hnn Finishing) as [? ?].
  pose proof (Hnn Packing) as [? ?].
  unfold Prune.total_quantity, Sample.some_quantity_non_zero. cbn in *. split.
  - intros Hne.
    destruct (Z.eq_dec (Matched.Planned_Cutting r) 0);
      [|exists Cutting; cbn; tauto].
    destruct (Z.eq_dec (Matched.Planned_Sewing r) 0);
      [|exists Sewing; cbn; tauto].
    destruct (Z.eq_dec (Matched.Planned_Washing r) 0);
      [|exists Washing; cbn; tauto].
    destruct (Z.eq_dec (Matched.Planned_Finishing r) 0);
      [|exists Finishing; cbn; tauto].
    destruct (Z.eq_dec (Matched.Planned_Packing r) 0);
      [|exists Packing; cbn; tauto].
    destruct (Z.eq_dec (Matched.Actual_Cutting r) 0);
      [|exists Cutting; cbn; tauto].
    destruct (Z.eq_dec (Matched.Actual_Sewing r) 0);
      [|exists Sewing; cbn; tauto].
    destruct (Z.eq_dec (Matched.Actual_Washing r) 0);
      [|exists Washing; cbn; tauto].
    destruct (Z.eq_dec (Matched.Actual_Finishing r) 0);
      [|exists Finishing; cbn; tauto].
    exists Packing; cbn. right. lia.
  - intros [s Hs]. destruct s; cbn in Hs; lia.
Qed.

(** The sample plan and daily sheets go through ingestion, day-wise
    conversion and matching to the one row [Sample.cancelling_row]. *)
Lemma cancelling_row_from_pipeline :
  Match.match_plan_with_actual
    (PlanIngest.get_row_wise_data_from_plan Sample.cancelling_plan_sheet "A1")
    (Daywise.convert_cumulative_to_daywise_quantities_for_daily_prod
       (ActualIngest.get_row_wise_data_from_daily_prod
          Sample.cancelling_daily_sheets))
    "A1"
  = [Sample.cancelling_row].
Proof. vm_compute. reflexivity. Qed.

(** C4 (the code departs from the claim and from its own docstring): a
    row is kept when the SUM of its ten quantities is not zero.  The
    sample row has planned cutting -5 and actual cutting 5, two non-zero
    fields, and [delete_empty_rows] removes it. *)
Theorem C4_delete_empty_rows_drops_non_zero_row :
  Matched.planned Cutting Sample.cancelling_row <> 0
  /\ Matched.actual Cutting Sample.cancelling_row <> 0
  /\ In Sample.cancelling_row [Sample.cancelling_row]
  /\ ~ In Sample.cancelling_row
       (Prune.delete_empty_rows [Sample.cancelling_row]).
Proof.
  repeat split.
  - cbn. lia.
  - cbn. lia.
  - left. reflexivity.
  - rewrite delete_empty_rows_In. intros [_ Hne]. apply Hne. reflexivity.
Qed.

(** ** The aggregator: shape of the output rows *)

Lemma agg_loop_In all st todo (o : Agg.row) :
  In o (Agg.loop all st todo) ->
  exists r d c, In (r, d) todo /\ o = Agg.new_row r d c.
Proof.
  revert st. induction todo as [|[r d] todo IH]; intros st; simpl.
  - tauto.
  - intros [<- | Hin].
    + exists r, d, (Agg.current_date_cumulative (Agg.advance all st d)).
      split; [left; reflexivity | reflexivity].
    + destruct (IH _ Hin) as (r' & d' & c & Hr & ->).
      exists r', d', c. split; [right; exact Hr | reflexivity].
Qed.

Lemma agg_output_In (matched_data : list Matched.row) (o : Agg.row) :
  In o (Agg.add_cumulative_columns_to_matched_dict matched_data)
  <-> In o (Agg.result_rows matched_data).
Proof.
  unfold Agg.add_cumulative_columns_to_matched_dict.
  destruct matched_data as [|r l].
  - cbn. tauto.
  - apply stable_sort_In.
Qed.

Lemma agg_result_rows_In (matched_data : list Matched.row) (o : Agg.row) :
  In o (Agg.result_rows matched_data)
  <-> exists g, In g (fst (Agg.group matched_data))
                /\ In o (Agg.process_group (snd g)).
Proof. unfold Agg.result_rows. apply in_flat_map. Qed.

Lemma new_row_cumulative_diff r d c (s : stage) :
  Agg.cumulative_diff s (Agg.new_row r d c)
  = Agg.cumulative_actual s (Agg.new_row r d c)
    - Agg.cumulative_planned s (Agg.new_row r d c).
Proof. destruct s; reflexivity. Qed.

(** C3: in every row returned by
    [add_cumulative_columns_to_matched_dict], for each of the five
    stages, the cumulative-variance field equals the cumulative-actual
    field minus the cumulative-planned field. *)
Theorem C3_cumulative_variance_is_actual_minus_planned
        (matched_data : list Matched.row) (o : Agg.row) (s : stage) :
  In o (Agg.add_cumulative_columns_to_matched_dict matched_data) ->
  Agg.cumulative_diff s o
  = Agg.cumulative_actual s o - Agg.cumulative_planned s o.
Proof.
  intros Hin. apply agg_output_In, agg_result_rows_In in Hin.
  destruct Hin as (g & _ & Hin). unfold Agg.process_group in Hin.
  apply agg_loop_In in Hin. destruct Hin as (r & d & c & _ & ->).
  apply new_row_cumulative_diff.
Qed.

(** The sample of the specification: cumulative planned 50 and 50,
    cumulative actual 30 and 55, variance -20 and then 5; the theorem
    applied to the second row. *)
Lemma C3_witness :
  map (fun o => (Agg.cumulative_planned Cutting o,
                 Agg.cumulative_actual Cutting o,
                 Agg.cumulative_diff Cutting o))
      (Agg.add_cumulative_columns_to_matched_dict SampleAgg.two_days)
  = [(50, 30, -20); (50, 55, 5)]
  /\ Agg.cumulative_diff Cutting
       (nth 1 (Agg.add_cumulative_columns_to_matched_dict SampleAgg.two_days)
            (Agg.new_row Sample.cancelling_row (DT.mk 2025 1 1) Agg.zero))
     = 55 - 50.
Proof.
  split.
  - vm_compute. reflexivity.
  - rewrite (C3_cumulative_variance_is_actual_minus_planned
               SampleAgg.two_days _ Cutting).
    + vm_compute. reflexivity.
    + vm_compute. right. left. reflexivity.
Defined.

(** ** The day-wise converter *)

Lemma dated_rows_In (data : list Actual.row) d row :
  In (d, row) (fst (Daywise.dated_rows data))
  <-> In row data /\ DT.strptime (Actual.Date row) = Some d.
Proof.
  induction data as [|r data IH]; simpl.
  - tauto.
  - destruct (Daywise.dated_rows data) as [ds lg] eqn:E. simpl in IH.
    destruct (DT.strptime (Actual.Date r)) as [d0|] eqn:P; simpl.
    + rewrite IH. split.
      * intros [[= -> ->] | [Hin Hp]]; [split; [left; reflexivity | exact P]|].
        split; [right; exact Hin | exact Hp].
      * intros [[-> | Hin] Hp].
        -- left. congruence.
        -- right. split; assumption.
    + rewrite IH. split.
      * intros [Hin Hp]. split; [right; exact Hin | exact Hp].
      * intros [[-> | Hin] Hp]; [congruence | split; assumption].
Qed.

Lemma daywise_fold (l : list (DT.datetime * Actual.row)) (st : Daywise.state) :
  let st' := fold_left Daywise.step l st in
  Daywise.result_list st'
  = Daywise.result_list st
    ++ DaywiseView.outputs (Daywise.previous_quantities_by_combo st) l
  /\ Daywise.log st'
     = Daywise.log st
       ++ DaywiseView.warnings (Daywise.previous_quantities_by_combo st) l
  /\ Daywise.previous_quantities_by_combo st'
     = fold_left DaywiseView.record l (Daywise.previous_quantities_by_combo st).
Proof.
  revert st. induction l as [|[d row] l IH]; intros st; simpl.
  - rewrite !app_nil_r. auto.
  - specialize (IH (Daywise.step st (d, row))). simpl in IH.
    destruct IH as (IH1 & IH2 & IH3). unfold Daywise.step in *.
    destruct (Daywise.daywise (Daywise.previous_quantities_by_combo st) row)
      as [q w] eqn:E.
    simpl in *. rewrite IH1, IH2, IH3, <- !app_assoc. auto.
Qed.

Lemma convert_outputs (data : list Actual.row) :
  Daywise.convert_cumulative_to_daywise_quantities_for_daily_prod data
  = DaywiseView.outputs [] (sort_by_date fst (fst (Daywise.dated_rows data))).
Proof.
  unfold Daywise.convert_cumulative_to_daywise_quantities_for_daily_prod,
    Daywise.run.
  destruct (Daywise.dated_rows data) as [ds lg]. simpl.
  destruct (daywise_fold (sort_by_date fst ds) (Daywise.mks [] [] lg))
    as (H1 & _). simpl in H1. exact H1.
Qed.

Lemma run_log (data : list Actual.row) :
  Daywise.log (Daywise.run data)
  = snd (Daywise.dated_rows data)
    ++ DaywiseView.warnings [] (sort_by_date fst (fst (Daywise.dated_rows data))).
Proof.
  unfold Daywise.run. destruct (Daywise.dated_rows data) as [ds lg]. simpl.
  destruct (daywise_fold (sort_by_date fst ds) (Daywise.mks [] [] lg))
    as (_ & H2 & _). simpl in H2. exact H2.
Qed.

(** Stage by stage, a later occurrence emits the difference to the
    stored snapshot, or 0 when that difference is negative. *)
Lemma daywise_later prev row p (s : stage) :
  Dict.get (Daywise.key_of row) prev = Some p ->
  Daywise.qty s (fst (Daywise.daywise prev row))
  = Z.max 0 (Daywise.qty s (Daywise.cumulative row)
             - Daywise.qty s (Daywise.quantities_of p)).
Proof.
  intros Hg. unfold Daywise.daywise. rewrite Hg.
  destruct (Daywise.any_negative _) eqn:E; simpl.
  - destruct s; reflexivity.
  - unfold Daywise.any_negative in E. rewrite !orb_false_iff in E.
    destruct E as ((((E1 & E2) & E3) & E4) & E5).
    apply Z.ltb_ge in E1, E2, E3, E4, E5.
    destruct s; simpl in *; lia.
Qed.

(** A first occurrence passes its values through. *)
Lemma daywise_first prev row :
  Dict.get (Daywise.key_of row) prev = None ->
  Daywise.daywise prev row = (Daywise.cumulative row, []).
Proof. intros Hg. unfold Daywise.daywise. rewrite Hg. reflexivity. Qed.

Lemma updated_row_actual row q (s : stage) :
  Actual.actual s (Daywise.updated_row row q) = Daywise.qty s q.
Proof. destruct s; reflexivity. Qed.

Lemma cumulative_qty row (s : stage) :
  Daywise.qty s (Daywise.cumulative row) = Actual.actual s row.
Proof. destruct s; reflexivity. Qed.


Lemma outputs_non_negative prev (l : list (DT.datetime * Actual.row)) :
  (forall dr, In dr l -> Sample.non_negative_actual (snd dr)) ->
  forall o, In o (DaywiseView.outputs prev l) -> Sample.non_negative_actual o.
Proof.
  revert prev. induction l as [|[d row] l IH]; intros prev Hall o; simpl.
  - tauto.
  - intros [<- | Hin].
    + intros s. rewrite updated_row_actual.
      destruct (Dict.get (Daywise.key_of row) prev) as [p|] eqn:Hg.
      * rewrite (daywise_later _ _ _ _ Hg). lia.
      * rewrite (daywise_first _ _ Hg). simpl. rewrite cumulative_qty.
        apply (Hall (d, row)). left. reflexivity.
    + apply (IH (DaywiseView.record prev (d, row))); [|exact Hin].
      intros dr Hdr. apply Hall. right. exact Hdr.
Qed.

(** C10: when every input row has non-negative stage quantities, so has
    every row the converter emits; a first occurrence of a key passes
    its values through unchanged, and a later occurrence emits, stage by
    stage, the difference to the previous cumulative value with a
    negative difference replaced by 0. *)
Theorem C10_daywise_quantities_non_negative (data : list Actual.row) :
  (forall r, In r data -> forall s, 0 <= Actual.actual s r) ->
  (forall o,
      In o (Daywise.convert_cumulative_to_daywise_quantities_for_daily_prod data)
      -> forall s, 0 <= Actual.actual s o)
  /\ (forall prev row,
         Dict.get (Daywise.key_of row) prev = None ->
         fst (Daywise.daywise prev row) = Daywise.cumulative row)
  /\ (forall prev row p s,
         Dict.get (Daywise.key_of row) prev = Some p ->
         Daywise.qty s (fst (Daywise.daywise prev row))
         = Z.max 0 (Daywise.qty s (Daywise.cumulative row)
                    - Daywise.qty s (Daywise.quantities_of p))).
Proof.
  intros Hall. repeat split.
  - intros o. rewrite convert_outputs. intros Hin.
    refine (outputs_non_negative [] _ _ o Hin).
    intros [d row] Hdr. apply sort_by_date_In, dated_rows_In in Hdr.
    destruct Hdr as [Hr _]. intros s. apply Hall. exact Hr.
  - intros prev row Hg. rewrite (daywise_first _ _ Hg). reflexivity.
  - intros prev row p s Hg. apply daywise_later. exact Hg.
Qed.

(** Cumulative cutting 10, 5 and 8 on three days: the converter emits
    10, 0 and 3. *)
Lemma C10_witness :
  map (Actual.actual Cutting)
      (Daywise.convert_cumulative_to_daywise_quantities_for_daily_prod
         [DaywiseView.cutting_row 1 10; DaywiseView.cutting_row 2 5;
          DaywiseView.cutting_row 3 8])
  = [10; 0; 3]
  /\ 0 <= Actual.actual Cutting
            (nth 1 (Daywise.convert_cumulative_to_daywise_quantities_for_daily_prod
                      [DaywiseView.cutting_row 1 10; DaywiseView.cutting_row 2 5;
                       DaywiseView.cutting_row 3 8])
                 (DaywiseView.cutting_row 1 (-1))).
Proof.
  split.
  - vm_compute. reflexivity.
  - refine (proj1 (C10_daywise_quantities_non_negative
                     [DaywiseView.cutting_row 1 10; DaywiseView.cutting_row 2 5;
                      DaywiseView.cutting_row 3 8] _) _ _ Cutting).
    + intros r [<- | [<- | [<- | []]]] s; destruct s; vm_compute; discriminate.
    + vm_compute. right. left. reflexivity.
Defined.

Lemma record_get_same prev (dr : DT.datetime * Actual.row) :
  Dict.get (Daywise.key_of (snd dr)) (DaywiseView.record prev dr)
  = Some (Daywise.mkp (fst dr) (Daywise.cumulative (snd dr))).
Proof. unfold DaywiseView.record. apply dict_get_set_same. Qed.

Lemma record_get_other prev (dr : DT.datetime * Actual.row) k :
  Daywise.key_of (snd dr) <> k ->
  Dict.get k (DaywiseView.record prev dr) = Dict.get k prev.
Proof. intros Hne. unfold DaywiseView.record. apply dict_get_set_other, Hne. Qed.

Lemma records_get_other prev (l : list (DT.datetime * Actual.row)) k :
  (forall dr, In dr l -> Daywise.key_of (snd dr) <> k) ->
  Dict.get k (fold_left DaywiseView.record l prev) = Dict.get k prev.
Proof.
  revert prev. induction l as [|dr l IH]; intros prev Hall; simpl.
  - reflexivity.
  - rewrite IH.
    + apply record_get_other, Hall. left. reflexivity.
    + intros dr' Hin. apply Hall. right. exact Hin.
Qed.

Lemma step_records st (dr : DT.datetime * Actual.row) :
  Daywise.previous_quantities_by_combo (Daywise.step st dr)
  = DaywiseView.record (Daywise.previous_quantities_by_combo st) dr.
Proof.
  destruct dr as [d row]. unfold Daywise.step.
  destruct (Daywise.daywise _ row). reflexivity.
Qed.

(** C7: after a row is processed, the snapshot stored for its key holds
    the row's original cumulative values, whatever the state before (so
    whether or not the row's own deltas were clamped).  Hence when the
    next occurrence [r3] of the key follows [r2], possibly after rows of
    other keys, the delta computed for [r3] is its cumulative value
    minus the ORIGINAL cumulative value of [r2]: the emitted quantity is
    that difference (0 if it is negative). *)
Theorem C7_snapshot_keeps_original_cumulative
        (st : Daywise.state) (d2 : DT.datetime) (r2 : Actual.row)
        (mid : list (DT.datetime * Actual.row)) (r3 : Actual.row) (s : stage) :
  Daywise.key_of r3 = Daywise.key_of r2 ->
  (forall dr, In dr mid -> Daywise.key_of (snd dr) <> Daywise.key_of r2) ->
  let st2 := Daywise.step st (d2, r2) in
  let st3 := fold_left Daywise.step mid st2 in
  Dict.get (Daywise.key_of r2) (Daywise.previous_quantities_by_combo st2)
  = Some (Daywise.mkp d2 (Daywise.cumulative r2))
  /\ Dict.get (Daywise.key_of r2) (Daywise.previous_quantities_by_combo st3)
     = Some (Daywise.mkp d2 (Daywise.cumulative r2))
  /\ Daywise.qty s (fst (Daywise.daywise
                           (Daywise.previous_quantities_by_combo st3) r3))
     = Z.max 0 (Actual.actual s r3 - Actual.actual s r2)
  /\ (Actual.actual s r2 <= Actual.actual s r3 ->
      Daywise.qty s (fst (Daywise.daywise
                            (Daywise.previous_quantities_by_combo st3) r3))
      = Actual.actual s r3 - Actual.actual s r2).
Proof.
  intros Hk Hmid st2 st3.
  assert (H2 : Dict.get (Daywise.key_of r2)
                 (Daywise.previous_quantities_by_combo st2)
               = Some (Daywise.mkp d2 (Daywise.cumulative r2))).
  { unfold st2. rewrite step_records. apply (record_get_same _ (d2, r2)). }
  assert (H3 : Dict.get (Daywise.key_of r2)
                 (Daywise.previous_quantities_by_combo st3)
               = Some (Daywise.mkp d2 (Daywise.cumulative r2))).
  { unfold st3. destruct (daywise_fold mid st2) as (_ & _ & ->).
    rewrite records_get_other; assumption. }
  assert (H4 : Daywise.qty s (fst (Daywise.daywise
                 (Daywise.previous_quantities_by_combo st3) r3))
               = Z.max 0 (Actual.actual s r3 - Actual.actual s r2)).
  { rewrite <- Hk in H3. rewrite (daywise_later _ _ _ s H3). simpl.
    rewrite !cumulative_qty. reflexivity. }
  repeat split; try assumption.
  intros Hle. rewrite H4. lia.
Qed.

(** Cumulative cutting 10, 5 and 8: the second delta is clamped to 0,
    the snapshot keeps 5, and the third delta is 8 - 5. *)
Lemma C7_witness :
  Daywise.qty Cutting
    (fst (Daywise.daywise
            (Daywise.previous_quantities_by_combo
               (fold_left Daywise.step []
                  (Daywise.step
                     (Daywise.step (Daywise.mks [] [] [])
                        (DT.mk 2025 1 1, DaywiseView.cutting_row 1 10))
                     (DT.mk 2025 1 2, DaywiseView.cutting_row 2 5))))
            (DaywiseView.cutting_row 3 8)))
  = 8 - 5.
Proof.
  refine (proj2 (proj2 (proj2
            (C7_snapshot_keeps_original_cumulative
               (Daywise.step (Daywise.mks [] [] [])
                  (DT.mk 2025 1 1, DaywiseView.cutting_row 1 10))
               (DT.mk 2025 1 2) (DaywiseView.cutting_row 2 5) []
               (DaywiseView.cutting_row 3 8) Cutting _ _))) _).
  - reflexivity.
  - intros dr [].
  - vm_compute. discriminate.
Defined.

(** *** Stability of the sort and splitting a sorted list at a date *)

Section Stability.
Context {A : Type} (le : A -> A -> bool) (P : A -> bool).
Hypothesis P_class : forall a b, P a = true -> P b = true -> le a b = true.

Lemma filter_insert_sorted (x : A) (l : list A) :
  filter P (insert_sorted le x l) = filter P (x :: l).
Proof.
  induction l as [|y l IH]; simpl.
  - reflexivity.
  - destruct (le x y) eqn:E; simpl.
    + reflexivity.
    + rewrite IH. simpl.
      destruct (P x) eqn:Px, (P y) eqn:Py; try reflexivity.
      rewrite (P_class x y Px Py) in E. discriminate.
Qed.

Lemma filter_stable_sort (l : list A) :
  filter P (stable_sort le l) = filter P l.
Proof.
  induction l as [|x l IH]; simpl.
  - reflexivity.
  - rewrite filter_insert_sorted. simpl. rewrite IH. reflexivity.
Qed.
End Stability.

Section SortedSplit.
Context {A : Type} (k : A -> Z) (c : Z).

Let R (a b : A) : Prop := k a <= k b.

Lemma sorted_filter_above (Q : A -> bool) (x : A) (l : list A) :
  Forall (R x) l -> c < k x -> filter (fun y => Q y && (k y <=? c)) l = [].
Proof.
  intros Hall Hx. induction Hall as [|y l Hy Hall IH]; simpl.
  - reflexivity.
  - unfold R in Hy. replace (k y <=? c) with false by (symmetry; apply Z.leb_gt; lia).
    rewrite andb_false_r. exact IH.
Qed.

Lemma sorted_split_le (l : list A) :
  StronglySorted R l ->
  l = filter (fun y => k y <=? c) l ++ filter (fun y => negb (k y <=? c)) l.
Proof.
  induction 1 as [|x l Hs IH Hall]; simpl.
  - reflexivity.
  - destruct (k x <=? c) eqn:E; simpl.
    + rewrite <- IH. reflexivity.
    + apply Z.leb_gt in E.
      pose proof (sorted_filter_above (fun _ => true) x l Hall E) as Hnil.
      simpl in Hnil. rewrite Hnil in IH |- *. simpl in *. rewrite <- IH.
      reflexivity.
Qed.

Lemma sorted_split_eq (Q : A -> bool) (l : list A) :
  StronglySorted R l ->
  filter (fun y => Q y && (k y <=? c)) l
  = filter (fun y => Q y && (k y <? c)) l
    ++ filter (fun y => Q y && (k y =? c)) l.
Proof.
  induction 1 as [|x l Hs IH Hall]; simpl.
  - reflexivity.
  - destruct (Z.lt_trichotomy (k x) c) as [Hlt | [Heq | Hgt]].
    + replace (k x <=? c) with true by (symmetry; apply Z.leb_le; lia).
      replace (k x <? c) with true by (symmetry; apply Z.ltb_lt; lia).
      replace (k x =? c) with false by (symmetry; apply Z.eqb_neq; lia).
      rewrite andb_false_r, andb_true_r.
      destruct (Q x); simpl; rewrite IH; reflexivity.
    + assert (Hnil : filter (fun y => Q y && (k y <? c)) l = []).
      { clear IH Hs. induction Hall as [|y l Hy Hall IH]; simpl; [reflexivity|].
        unfold R in Hy.
        replace (k y <? c) with false by (symmetry; apply Z.ltb_ge; lia).
        rewrite andb_false_r. exact IH. }
      replace (k x <=? c) with true by (symmetry; apply Z.leb_le; lia).
      replace (k x <? c) with false by (symmetry; apply Z.ltb_ge; lia).
      replace (k x =? c) with true by (symmetry; apply Z.eqb_eq; lia).
      rewrite andb_false_r, andb_true_r, Hnil. rewrite Hnil in IH. simpl in *.
      rewrite IH. reflexivity.
    + replace (k x <=? c) with false by (symmetry; apply Z.leb_gt; lia).
      replace (k x <? c) with false by (symmetry; apply Z.ltb_ge; lia).
      replace (k x =? c) with false by (symmetry; apply Z.eqb_neq; lia).
      rewrite !andb_false_r. exact IH.
Qed.
End SortedSplit.

Lemma last_app_non_empty {A : Type} (l1 l2 : list A) (d : A) :
  l2 <> [] -> last (l1 ++ l2) d = last l2 d.
Proof.
  intros Hne. induction l1 as [|x l1 IH]; simpl.
  - reflexivity.
  - destruct (l1 ++ l2) eqn:E.
    + destruct l1; [simpl in E; contradiction | discriminate].
    + exact IH.
Qed.

Lemma last_some_app {A : Type} (l1 l2 : list A) (x : A) :
  last (map Some l2) None = Some x ->
  last (map Some (l1 ++ l2)) None = Some x.
Proof.
  intros H. destruct l2 as [|y l2]; [discriminate|].
  rewrite map_app, last_app_non_empty; [exact H | discriminate].
Qed.

(** *** Telescoping of the deltas of one key *)

Section Telescope.
Variable k : Daywise.combo_key.
Variable s : stage.

Lemma is_key_updated_row row q :
  DaywiseView.is_key k (Daywise.updated_row row q) = DaywiseView.is_key k row.
Proof. reflexivity. Qed.

Lemma base_record_same prev (dr : DT.datetime * Actual.row) :
  DaywiseView.is_key k (snd dr) = true ->
  DaywiseView.base k s (DaywiseView.record prev dr) = Actual.actual s (snd dr).
Proof.
  unfold DaywiseView.is_key, DaywiseView.base. intros Hk.
  apply eqb_iff in Hk. subst k. rewrite record_get_same. simpl.
  apply cumulative_qty.
Qed.

Lemma base_record_other prev (dr : DT.datetime * Actual.row) :
  DaywiseView.is_key k (snd dr) = false ->
  DaywiseView.base k s (DaywiseView.record prev dr) = DaywiseView.base k s prev.
Proof.
  unfold DaywiseView.is_key, DaywiseView.base. intros Hk.
  apply eqb_false_iff in Hk. rewrite record_get_other by exact Hk.
  reflexivity.
Qed.

(** What a row of the key emits is at least the increase over the
    snapshot, and exactly the increase when no warning is printed. *)
Lemma daywise_ge_increase prev row :
  DaywiseView.is_key k row = true ->
  Actual.actual s row - DaywiseView.base k s prev
  <= Daywise.qty s (fst (Daywise.daywise prev row)).
Proof.
  unfold DaywiseView.is_key, DaywiseView.base. intros Hk.
  apply eqb_iff in Hk. subst k.
  destruct (Dict.get (Daywise.key_of row) prev) as [p|] eqn:Hg.
  - rewrite (daywise_later _ _ _ s Hg), cumulative_qty. lia.
  - rewrite (daywise_first _ _ Hg). simpl. rewrite cumulative_qty. lia.
Qed.

Lemma daywise_eq_increase prev row :
  DaywiseView.is_key k row = true ->
  existsb (DaywiseView.clamp_for k) (snd (Daywise.daywise prev row)) = false ->
  Daywise.qty s (fst (Daywise.daywise prev row))
  = Actual.actual s row - DaywiseView.base k s prev.
Proof.
  unfold DaywiseView.is_key, DaywiseView.base. intros Hk.
  apply eqb_iff in Hk. subst k. unfold Daywise.daywise.
  destruct (Dict.get (Daywise.key_of row) prev) as [p|] eqn:Hg.
  - destruct (Daywise.any_negative _) eqn:E.
    + cbn [snd existsb DaywiseView.clamp_for].
      assert (Hk3 : forall kk : Daywise.combo_key,
                 eqb (fst (fst kk), snd (fst kk), snd kk) kk = true)
        by (intros [[a b] c]; apply eqb_refl).
      rewrite Hk3. discriminate.
    + intros _. destruct s; reflexivity.
  - intros _. simpl. rewrite cumulative_qty. lia.
Qed.

Lemma telescope_ge (l : list (DT.datetime * Actual.row)) prev :
  DaywiseView.last_cumulative k s (DaywiseView.base k s prev) l
  - DaywiseView.base k s prev
  <= DaywiseView.total s
       (filter (DaywiseView.is_key k) (DaywiseView.outputs prev l)).
Proof.
  revert prev. induction l as [|dr l IH]; intros prev; simpl.
  - lia.
  - rewrite is_key_updated_row.
    destruct (DaywiseView.is_key k (snd dr)) eqn:Hk; simpl.
    + specialize (IH (DaywiseView.record prev dr)).
      rewrite (base_record_same _ _ Hk) in IH.
      rewrite updated_row_actual.
      pose proof (daywise_ge_increase prev (snd dr) Hk). lia.
    + specialize (IH (DaywiseView.record prev dr)).
      rewrite (base_record_other _ _ Hk) in IH. exact IH.
Qed.

Lemma telescope_eq (l : list (DT.datetime * Actual.row)) prev :
  existsb (DaywiseView.clamp_for k) (DaywiseView.warnings prev l) = false ->
  DaywiseView.total s
    (filter (DaywiseView.is_key k) (DaywiseView.outputs prev l))
  = DaywiseView.last_cumulative k s (DaywiseView.base k s prev) l
    - DaywiseView.base k s prev.
Proof.
  revert prev. induction l as [|dr l IH]; intros prev; simpl.
  - lia.
  - rewrite existsb_app, orb_false_iff. intros [Hw Hrest].
    rewrite is_key_updated_row.
    destruct (DaywiseView.is_key k (snd dr)) eqn:Hk; simpl.
    + specialize (IH (DaywiseView.record prev dr) Hrest).
      rewrite (base_record_same _ _ Hk) in IH.
      rewrite updated_row_actual, (daywise_eq_increase prev (snd dr) Hk Hw).
      lia.
    + specialize (IH (DaywiseView.record prev dr) Hrest).
      rewrite (base_record_other _ _ Hk) in IH. exact IH.
Qed.

Lemma last_cumulative_no_key (l : list (DT.datetime * Actual.row)) b :
  filter (fun dr => DaywiseView.is_key k (snd dr)) l = [] ->
  DaywiseView.last_cumulative k s b l = b.
Proof.
  revert b. induction l as [|dr l IH]; intros b; simpl.
  - reflexivity.
  - destruct (DaywiseView.is_key k (snd dr)); [discriminate|]. apply IH.
Qed.

Lemma last_cumulative_last (l : list (DT.datetime * Actual.row)) b dr :
  last (map Some (filter (fun dr => DaywiseView.is_key k (snd dr)) l)) None
  = Some dr ->
  DaywiseView.last_cumulative k s b l = Actual.actual s (snd dr).
Proof.
  revert b. induction l as [|dr0 l IH]; intros b; simpl.
  - discriminate.
  - destruct (DaywiseView.is_key k (snd dr0)) eqn:Hk; simpl.
    + destruct (filter (fun dr => DaywiseView.is_key k (snd dr)) l) eqn:F.
      * simpl. intros [= <-]. apply last_cumulative_no_key. exact F.
      * intros H. apply IH. exact H.
    + apply IH.
Qed.
End Telescope.

(** *** The deltas of a key up to a date *)

Lemma filter_filter_and {A : Type} (P Q : A -> bool) (l : list A) :
  filter Q (filter P l) = filter (fun x => Q x && P x) l.
Proof.
  induction l as [|x l IH]; simpl; [reflexivity|].
  destruct (P x) eqn:Px; simpl.
  - rewrite andb_true_r. destruct (Q x); rewrite IH; reflexivity.
  - rewrite andb_false_r. exact IH.
Qed.

Lemma last_map_some {A B : Type} (f : A -> B) (l : list A) (y : B) :
  last (map Some (map f l)) None = Some y ->
  exists x, last (map Some l) None = Some x /\ f x = y.
Proof.
  induction l as [|x l IH]; simpl; [discriminate|].
  destruct l as [|x' l].
  - simpl. intros [= <-]. exists x. auto.
  - intros H. apply IH. exact H.
Qed.

Lemma outputs_app prev (l1 l2 : list (DT.datetime * Actual.row)) :
  DaywiseView.outputs prev (l1 ++ l2)
  = DaywiseView.outputs prev l1
    ++ DaywiseView.outputs (fold_left DaywiseView.record l1 prev) l2.
Proof.
  revert prev. induction l1 as [|dr l1 IH]; intros prev; simpl.
  - reflexivity.
  - rewrite IH. reflexivity.
Qed.

Lemma warnings_app prev (l1 l2 : list (DT.datetime * Actual.row)) :
  DaywiseView.warnings prev (l1 ++ l2)
  = DaywiseView.warnings prev l1
    ++ DaywiseView.warnings (fold_left DaywiseView.record l1 prev) l2.
Proof.
  revert prev. induction l1 as [|dr l1 IH]; intros prev; simpl.
  - reflexivity.
  - rewrite IH, app_assoc. reflexivity.
Qed.


Lemma sorted_dated_rows_well_dated (data : list Actual.row) :
  DaywiseView.well_dated (sort_by_date fst (fst (Daywise.dated_rows data))).
Proof.
  intros [d row] Hin. apply sort_by_date_In, dated_rows_In in Hin.
  apply Hin.
Qed.

Lemma emitted_prefix k D prev (l : list (DT.datetime * Actual.row)) :
  DaywiseView.well_dated l ->
  (forall dr, In dr l -> DT.leb (fst dr) D = true) ->
  DaywiseView.emitted_up_to k D (DaywiseView.outputs prev l)
  = filter (DaywiseView.is_key k) (DaywiseView.outputs prev l).
Proof.
  revert prev. induction l as [|dr l IH]; intros prev Hw Hle; simpl.
  - reflexivity.
  - unfold DaywiseView.emitted_up_to in *. simpl.
    unfold DaywiseView.date_le at 1. simpl.
    rewrite (Hw dr (or_introl eq_refl)), (Hle dr (or_introl eq_refl)).
    rewrite andb_true_r, IH.
    + reflexivity.
    + intros x Hx. apply Hw. right. exact Hx.
    + intros x Hx. apply Hle. right. exact Hx.
Qed.

Lemma emitted_suffix k D prev (l : list (DT.datetime * Actual.row)) :
  DaywiseView.well_dated l ->
  (forall dr, In dr l -> DT.leb (fst dr) D = false) ->
  DaywiseView.emitted_up_to k D (DaywiseView.outputs prev l) = [].
Proof.
  revert prev. induction l as [|dr l IH]; intros prev Hw Hle; simpl.
  - reflexivity.
  - unfold DaywiseView.emitted_up_to in *. simpl.
    unfold DaywiseView.date_le at 1. simpl.
    rewrite (Hw dr (or_introl eq_refl)), (Hle dr (or_introl eq_refl)).
    rewrite andb_false_r. apply IH.
    + intros x Hx. apply Hw. right. exact Hx.
    + intros x Hx. apply Hle. right. exact Hx.
Qed.

(** No clamp reported up to the date: none among the warnings of the
    rows up to that date. *)
Lemma clamp_for_prefix k D prev (l : list (DT.datetime * Actual.row)) :
  DaywiseView.well_dated l ->
  (forall dr, In dr l -> DT.leb (fst dr) D = true) ->
  DaywiseView.clamp_reported k D (DaywiseView.warnings prev l) = false ->
  existsb (DaywiseView.clamp_for k) (DaywiseView.warnings prev l) = false.
Proof.
  revert prev. induction l as [|dr l IH]; intros prev Hw Hle; simpl.
  - reflexivity.
  - unfold DaywiseView.clamp_reported in *.
    rewrite !existsb_app, !orb_false_iff. intros [H1 H2]. split.
    + clear IH H2. unfold Daywise.daywise in *.
      destruct (Dict.get _ prev); [|reflexivity].
      destruct (Daywise.any_negative _); [|reflexivity].
      cbn [snd existsb DaywiseView.clamp_for] in *.
      unfold DaywiseView.date_le in H1.
      rewrite (Hw dr (or_introl eq_refl)), (Hle dr (or_introl eq_refl)) in H1.
      rewrite andb_true_r in H1. exact H1.
    + apply IH.
      * intros x Hx. apply Hw. right. exact Hx.
      * intros x Hx. apply Hle. right. exact Hx.
      * exact H2.
Qed.

Lemma dated_rows_filter k D (data : list Actual.row) :
  filter (fun r => DaywiseView.is_key k r
                   && DaywiseView.date_is D (Actual.Date r)) data
  = map snd
      (filter (fun dr => DaywiseView.is_key k (snd dr)
                         && (DT.key (fst dr) =? DT.key D))
              (fst (Daywise.dated_rows data))).
Proof.
  induction data as [|r data IH]; simpl.
  - reflexivity.
  - destruct (Daywise.dated_rows data) as [ds lg]. simpl in *.
    unfold DaywiseView.date_is at 1.
    destruct (DT.strptime (Actual.Date r)) as [d|]; simpl.
    + unfold DT.eqb.
      destruct (DaywiseView.is_key k r && (DT.key d =? DT.key D)); simpl;
        rewrite IH; reflexivity.
    + rewrite andb_false_r. exact IH.
Qed.

(** The last row of the key up to the date, in the order of the loop,
    is the key's last input row of that date. *)
Lemma last_row_up_to k D (data : list Actual.row) (row : Actual.row) :
  DaywiseView.original_at k D data = Some row ->
  exists d,
    last (map Some
            (filter (fun dr => DaywiseView.is_key k (snd dr))
               (filter (fun dr => DT.key (fst dr) <=? DT.key D)
                  (sort_by_date fst (fst (Daywise.dated_rows data))))))
         None
    = Some (d, row).
Proof.
  unfold DaywiseView.original_at. rewrite dated_rows_filter. intros H.
  apply last_map_some in H. destruct H as ([d row'] & Hlast & Hrow).
  simpl in Hrow. subst row'. exists d.
  rewrite filter_filter_and.
  rewrite (sorted_split_eq (fun dr => DT.key (fst dr)) (DT.key D)
             (fun dr => DaywiseView.is_key k (snd dr)) _
             (sort_by_date_sorted fst _)).
  apply last_some_app.
  unfold sort_by_date. rewrite filter_stable_sort; [exact Hlast|].
  intros a b Ha Hb. apply andb_true_iff in Ha, Hb.
  destruct Ha as [_ Ha], Hb as [_ Hb]. apply Z.eqb_eq in Ha, Hb.
  unfold DT.leb. apply Z.leb_le. lia.
Qed.

(** The sum of the deltas a key emits up to a date is the total of the
    key's rows among those the loop walks up to that date. *)
Lemma emitted_up_to_sorted k D (data : list Actual.row) :
  let l := sort_by_date fst (fst (Daywise.dated_rows data)) in
  let l1 := filter (fun dr => DT.key (fst dr) <=? DT.key D) l in
  l = l1 ++ filter (fun dr => negb (DT.key (fst dr) <=? DT.key D)) l
  /\ DaywiseView.well_dated l1
  /\ (forall dr, In dr l1 -> DT.leb (fst dr) D = true)
  /\ DaywiseView.emitted_up_to k D
       (Daywise.convert_cumulative_to_daywise_quantities_for_daily_prod data)
     = filter (DaywiseView.is_key k) (DaywiseView.outputs [] l1).
Proof.
  intros l l1.
  assert (Hsplit : l = l1 ++ filter (fun dr => negb (DT.key (fst dr) <=? DT.key D)) l).
  { apply (sorted_split_le (fun dr => DT.key (fst dr)) (DT.key D)).
    apply sort_by_date_sorted. }
  assert (Hw : DaywiseView.well_dated l) by apply sorted_dated_rows_well_dated.
  assert (Hw1 : DaywiseView.well_dated l1).
  { intros dr Hin. apply Hw. apply filter_In in Hin. apply Hin. }
  assert (Hle1 : forall dr, In dr l1 -> DT.leb (fst dr) D = true).
  { intros dr Hin. apply filter_In in Hin. apply Hin. }
  repeat split; try assumption.
  rewrite convert_outputs. fold l. rewrite Hsplit at 1.
  rewrite outputs_app. unfold DaywiseView.emitted_up_to.
  rewrite filter_app.
  fold (DaywiseView.emitted_up_to k D (DaywiseView.outputs [] l1)).
  fold (DaywiseView.emitted_up_to k D
          (DaywiseView.outputs (fold_left DaywiseView.record l1 [])
             (filter (fun dr => negb (DT.key (fst dr) <=? DT.key D)) l))).
  rewrite emitted_prefix by assumption.
  rewrite emitted_suffix.
  - apply app_nil_r.
  - intros dr Hin. apply Hw. apply filter_In in Hin. apply Hin.
  - intros dr Hin. apply filter_In in Hin. destruct Hin as [_ Hin].
    apply negb_true_iff in Hin. exact Hin.
Qed.

(** C2 (amended): for a key and a date on which the key has a row, the
    day-wise deltas emitted for the key up to and including that date
    sum, stage by stage, to at least the key's original cumulative value
    of that date, and to exactly that value when no clamp was reported
    for the key up to that date.  (A clamp replaces a negative
    difference by 0, so it can only raise the sum.) *)
Theorem C2_daywise_sum_reconstructs_cumulative
        (data : list Actual.row) (k : Daywise.combo_key) (D : DT.datetime)
        (s : stage) (row : Actual.row) :
  DaywiseView.original_at k D data = Some row ->
  Actual.actual s row
  <= DaywiseView.total s
       (DaywiseView.emitted_up_to k D
          (Daywise.convert_cumulative_to_daywise_quantities_for_daily_prod data))
  /\ (DaywiseView.clamp_reported k D (Daywise.log (Daywise.run data)) = false ->
      DaywiseView.total s
        (DaywiseView.emitted_up_to k D
           (Daywise.convert_cumulative_to_daywise_quantities_for_daily_prod data))
      = Actual.actual s row).
Proof.
  intros Horig.
  destruct (emitted_up_to_sorted k D data) as (Hsplit & Hw1 & Hle1 & ->).
  destruct (last_row_up_to k D data row Horig) as [d Hlast].
  pose proof (last_cumulative_last k s _ 0 _ Hlast) as Hcum. simpl in Hcum.
  split.
  - pose proof (telescope_ge k s
                  (filter (fun dr => DT.key (fst dr) <=? DT.key D)
                     (sort_by_date fst (fst (Daywise.dated_rows data)))) [])
      as Hge.
    unfold DaywiseView.base in Hge. simpl in Hge. lia.
  - intros Hno. rewrite telescope_eq.
    + unfold DaywiseView.base. simpl. lia.
    + apply (clamp_for_prefix k D); try assumption.
      rewrite run_log, Hsplit, warnings_app in Hno.
      unfold DaywiseView.clamp_reported in Hno |- *.
      rewrite !existsb_app, !orb_false_iff in Hno. apply Hno.
Qed.

(** Cumulative cutting 30 then 55: the deltas 30 and 25 sum to 55. *)
Lemma C2_witness :
  DaywiseView.total Cutting
    (DaywiseView.emitted_up_to DaywiseView.lot_key (DT.mk 2025 1 2)
       (Daywise.convert_cumulative_to_daywise_quantities_for_daily_prod
          DaywiseView.increasing_data))
  = 55.
Proof.
  refine (proj2 (C2_daywise_sum_reconstructs_cumulative
                   DaywiseView.increasing_data DaywiseView.lot_key
                   (DT.mk 2025 1 2) Cutting (DaywiseView.cutting_row 2 55) _) _).
  - vm_compute. reflexivity.
  - vm_compute. reflexivity.
Defined.

(** C2 as stated fails: with cumulative cutting 10 then 5 a clamp is
    reported on the second day, the deltas are 10 and 0, and their sum
    10 exceeds the original cumulative value 5 of that day. *)
Lemma C2_counterexample :
  DaywiseView.original_at DaywiseView.lot_key (DT.mk 2025 1 2)
    DaywiseView.decreasing_data
  = Some (DaywiseView.cutting_row 2 5)
  /\ DaywiseView.clamp_reported DaywiseView.lot_key (DT.mk 2025 1 2)
       (Daywise.log (Daywise.run DaywiseView.decreasing_data)) = true
  /\ map (Actual.actual Cutting)
       (Daywise.convert_cumulative_to_daywise_quantities_for_daily_prod
          DaywiseView.decreasing_data) = [10; 0]
  /\ ~ (DaywiseView.total Cutting
          (DaywiseView.emitted_up_to DaywiseView.lot_key (DT.mk 2025 1 2)
             (Daywise.convert_cumulative_to_daywise_quantities_for_daily_prod
                DaywiseView.decreasing_data))
        <= Actual.actual Cutting (DaywiseView.cutting_row 2 5)).
Proof.
  repeat split; try (vm_compute; reflexivity).
  vm_compute. intros H. apply H. reflexivity.
Qed.

(** ** The matcher *)

Lemma last_some_In {A : Type} (l : list A) (x : A) :
  last (map Some l) None = Some x -> In x l.
Proof.
  induction l as [|y l IH]; simpl; [discriminate|].
  destruct l as [|z l].
  - simpl. intros [= ->]. left. reflexivity.
  - intros H. right. apply IH. exact H.
Qed.

Lemma last_some_exists {A : Type} (l : list A) :
  l <> [] -> exists x, last (map Some l) None = Some x.
Proof.
  induction l as [|y l IH]; [congruence|]. intros _.
  destruct l as [|z l].
  - exists y. reflexivity.
  - destruct IH as [x Hx]; [discriminate|]. exists x. exact Hx.
Qed.

Lemma last_cons_some {A : Type} (x : A) (l : list A) :
  last (map Some (x :: l)) None
  = match last (map Some l) None with
    | Some y => Some y
    | None => Some x
    end.
Proof.
  destruct l as [|z l]; [reflexivity|].
  change (last (map Some (x :: z :: l)) None)
    with (last (map Some (z :: l)) None).
  destruct (last_some_exists (z :: l)) as [y ->]; [discriminate|].
  reflexivity.
Qed.

(** *** The two-level dicts *)

Section ByCombo.
Context {R : Type} (kf : R -> Match.combo_key) (df : R -> string).

Let by_combo (rows : list R) (d0 : @Dict.t Match.combo_key (@Dict.t string R)) :=
  fold_left (fun d row => Match.store d (kf row) (df row) row) rows d0.

Let matches (k : Match.combo_key) (date : string) (r : R) : bool :=
  eqb (kf r) k && eqb (df r) date.

Lemma store_get d k date (row : R) k' :
  Dict.get k' (Match.store d k date row)
  = if eqb k k'
    then Some (Dict.set date row (MatchView.dates_of d k))
    else Dict.get k' d.
Proof.
  unfold Match.store, MatchView.dates_of.
  destruct (eqb k k') eqn:E.
  - apply eqb_iff in E. subst k'.
    destruct (Dict.get k d); apply dict_get_set_same.
  - apply eqb_false_iff in E.
    destruct (Dict.get k d); apply dict_get_set_other; exact E.
Qed.

Lemma store_lookup d k date (row : R) k' date' :
  MatchView.lookup (Match.store d k date row) k' date'
  = if eqb k k' && eqb date date' then Some row
    else MatchView.lookup d k' date'.
Proof.
  unfold MatchView.lookup. rewrite store_get.
  destruct (eqb k k') eqn:E; simpl; [|reflexivity].
  apply eqb_iff in E. subst k'.
  destruct (eqb date date') eqn:E'.
  - apply eqb_iff in E'. subst date'. apply dict_get_set_same.
  - apply eqb_false_iff in E'. rewrite dict_get_set_other by exact E'.
    unfold MatchView.dates_of. destruct (Dict.get k d); reflexivity.
Qed.

Lemma store_NoDup d k date (row : R) :
  NoDup (Dict.keys d) -> NoDup (Dict.keys (Match.store d k date row)).
Proof.
  intros Hn. unfold Match.store.
  destruct (Dict.get k d); apply dict_set_NoDup; exact Hn.
Qed.

Lemma by_combo_NoDup rows d0 :
  NoDup (Dict.keys d0) -> NoDup (Dict.keys (by_combo rows d0)).
Proof.
  revert d0. induction rows as [|r rows IH]; intros d0 Hn; simpl.
  - exact Hn.
  - apply IH, store_NoDup, Hn.
Qed.

(** The entry of a key and date is the last row stored for them. *)
Lemma by_combo_lookup rows d0 k date :
  MatchView.lookup (by_combo rows d0) k date
  = match last (map Some (filter (matches k date) rows)) None with
    | Some r => Some r
    | None => MatchView.lookup d0 k date
    end.
Proof.
  revert d0. induction rows as [|r rows IH]; intros d0.
  - reflexivity.
  - change (by_combo (r :: rows) d0)
      with (by_combo rows (Match.store d0 (kf r) (df r) r)).
    rewrite IH, store_lookup. cbn [filter].
    change (eqb (kf r) k && eqb (df r) date) with (matches k date r).
    destruct (matches k date r).
    + rewrite last_cons_some.
      destruct (last (map Some (filter (matches k date) rows)) None);
        reflexivity.
    + reflexivity.
Qed.

(** A key is present exactly when a row has it. *)
Lemma by_combo_get_none rows d0 k :
  Dict.get k (by_combo rows d0) = None
  <-> Dict.get k d0 = None /\ forall r, In r rows -> kf r <> k.
Proof.
  revert d0. induction rows as [|r rows IH]; intros d0; simpl.
  - split; [intros H; split; [exact H | tauto] | tauto].
  - rewrite IH, store_get. destruct (eqb (kf r) k) eqn:E.
    + apply eqb_iff in E. split.
      * intros [H _]. discriminate.
      * intros [_ H]. exfalso. apply (H r); auto.
    + apply eqb_false_iff in E. split.
      * intros [H1 H2]. split; [exact H1|].
        intros r' [<- | Hin]; [exact E | apply H2, Hin].
      * intros [H1 H2]. split; [exact H1|]. intros r' Hin. apply H2. auto.
Qed.
End ByCombo.


(** *** Sets of dates *)

Section PySetFacts.
Context {K : Type} `{EqbLaws K}.

Lemma pyset_mem_In (k : K) (s : list K) : PySet.mem k s = true <-> In k s.
Proof.
  unfold PySet.mem. rewrite existsb_exists. split.
  - intros (x & Hin & E). apply eqb_iff in E. subst x. exact Hin.
  - intros Hin. exists k. split; [exact Hin | apply eqb_refl].
Qed.

Lemma pyset_add_In (x k : K) (s : list K) :
  In x (PySet.add k s) <-> x = k \/ In x s.
Proof.
  unfold PySet.add. destruct (PySet.mem k s) eqn:E.
  - apply pyset_mem_In in E. split; [tauto|]. intros [-> | Hin]; assumption.
  - rewrite in_app_iff. simpl. split; [intros [?|[?|[]]]; auto | intros [?|?]; auto].
Qed.

Lemma pyset_union_In (x : K) (s1 s2 : list K) :
  In x (PySet.union s1 s2) <-> In x s1 \/ In x s2.
Proof.
  unfold PySet.union. revert s1. induction s2 as [|k s2 IH]; intros s1; simpl.
  - tauto.
  - rewrite IH, pyset_add_In. split.
    + intros [[-> | Hin] | Hin]; auto.
    + intros [Hin | [<- | Hin]]; auto.
Qed.

Lemma pyset_of_list_In (x : K) (l : list K) :
  In x (PySet.of_list l) <-> In x l.
Proof. unfold PySet.of_list. rewrite pyset_union_In. simpl. tauto. Qed.
End PySetFacts.

Lemma all_dates_In {P A : Type} (plan_dates : @Dict.t string P)
      (actual_dates : @Dict.t string A) (date : string) :
  In date (Match.all_dates plan_dates actual_dates)
  <-> In date (Dict.keys plan_dates) \/ In date (Dict.keys actual_dates).
Proof.
  unfold Match.all_dates. rewrite pyset_union_In, pyset_of_list_In.
  reflexivity.
Qed.

Lemma date_objects_In (dates : list string) (date : string) d :
  In (date, d) (fst (Match.date_objects dates))
  <-> In date dates /\ DT.strptime date = Some d.
Proof.
  induction dates as [|x dates IH]; simpl.
  - tauto.
  - destruct (Match.date_objects dates) as [ds lg]. simpl in IH.
    destruct (DT.strptime x) as [dx|] eqn:P; simpl.
    + rewrite IH. split.
      * intros [[= -> ->] | [Hin Hp]]; [split; [left; reflexivity | exact P]|].
        split; [right; exact Hin | exact Hp].
      * intros [[-> | Hin] Hp].
        -- left. congruence.
        -- right. split; assumption.
    + rewrite IH. split.
      * intros [Hin Hp]. split; [right; exact Hin | exact Hp].
      * intros [[-> | Hin] Hp]; [congruence | split; assumption].
Qed.

Lemma sorted_dates_In (dates : list string) (date : string) :
  In date (Match.sorted_dates dates)
  <-> In date dates /\ DT.strptime date <> None.
Proof.
  unfold Match.sorted_dates. rewrite in_map_iff. split.
  - intros ([s d] & <- & Hin). apply sort_by_date_In, date_objects_In in Hin.
    destruct Hin as [Hin Hp]. simpl. split; [exact Hin | congruence].
  - intros [Hin Hp]. destruct (DT.strptime date) as [d|] eqn:P; [|congruence].
    exists (date, d). split; [reflexivity|].
    apply sort_by_date_In, date_objects_In. split; assumption.
Qed.

Lemma dict_keys_get {V : Type} (d : @Dict.t string V) (k : string) :
  In k (Dict.keys d) <-> Dict.get k d <> None.
Proof.
  destruct (Dict.get k d) eqn:E.
  - split; [congruence|]. intros _. apply dict_get_In in E.
    apply (in_map fst) in E. exact E.
  - apply dict_get_None in E. split; [tauto | congruence].
Qed.

(** *** The rows the matcher returns *)

Lemma match_In (plan_data : list Plan.row) (daily_prod_data : list Actual.row)
      (style_number : string) (m : Matched.row) :
  let plan := Match.plan_by_combo (Match.plan_for_style plan_data style_number) in
  let actual :=
    Match.actual_by_combo (Match.actual_for_style daily_prod_data style_number) in
  In m (Match.match_plan_with_actual plan_data daily_prod_data style_number)
  <-> exists k date,
        Dict.get k plan <> None
        /\ DT.strptime date <> None
        /\ (MatchView.lookup plan k date <> None
            \/ MatchView.lookup actual k date <> None)
        /\ m = Match.matched_row style_number (fst k) (snd k) date
                 (MatchView.lookup plan k date)
                 (MatchView.lookup actual k date).
Proof.
  intros plan actual.
  assert (Hnd : NoDup (Dict.keys plan)).
  { apply (by_combo_NoDup Match.plan_key Plan.Date). constructor. }
  unfold Match.match_plan_with_actual, Match.run. cbn [fst].
  fold plan. fold actual. rewrite in_flat_map. split.
  - intros (x & Hx & Hin). apply in_map_iff in Hx.
    destruct Hx as ([k plan_dates] & <- & Hentry).
    apply stable_sort_In in Hentry.
    apply (dict_In_get _ _ _ Hnd) in Hentry.
    unfold Match.rows_for_combo in Hin. cbn [fst] in Hin.
    apply in_map_iff in Hin. destruct Hin as (date & <- & Hdate).
    apply sorted_dates_In in Hdate. destruct Hdate as [Hdate Hparse].
    apply all_dates_In in Hdate. rewrite !dict_keys_get in Hdate.
    exists k, date. unfold MatchView.lookup. rewrite Hentry.
    repeat split.
    + congruence.
    + exact Hparse.
    + destruct (Dict.get k actual); [exact Hdate|].
      destruct Hdate as [H|H]; [left; exact H | simpl in H; congruence].
    + destruct (Dict.get k actual); reflexivity.
  - intros (k & date & Hk & Hparse & Hdate & ->).
    destruct (Dict.get k plan) as [plan_dates|] eqn:Hentry; [|congruence].
    exists (Match.rows_for_combo style_number actual (k, plan_dates)). split.
    + apply in_map. apply stable_sort_In. apply dict_get_In. exact Hentry.
    + unfold Match.rows_for_combo. cbn [fst]. apply in_map_iff.
      exists date. unfold MatchView.lookup in *. rewrite Hentry in *. split.
      * destruct (Dict.get k actual); reflexivity.
      * apply sorted_dates_In. split; [|exact Hparse].
        apply all_dates_In. rewrite !dict_keys_get.
        destruct (Dict.get k actual); [exact Hdate|].
        destruct Hdate as [H|H]; [left; exact H | congruence].
Qed.

Lemma plan_lookup (plan_data : list Plan.row) (style_number : string) k date :
  MatchView.lookup
    (Match.plan_by_combo (Match.plan_for_style plan_data style_number)) k date
  = MatchView.last_plan_row plan_data style_number k date.
Proof.
  unfold Match.plan_by_combo, MatchView.last_plan_row.
  rewrite (by_combo_lookup Match.plan_key Plan.Date).
  destruct (last _ None); reflexivity.
Qed.

Lemma actual_lookup (daily_prod_data : list Actual.row) (style_number : string)
      k date :
  MatchView.lookup
    (Match.actual_by_combo (Match.actual_for_style daily_prod_data style_number))
    k date
  = MatchView.last_actual_row daily_prod_data style_number k date.
Proof.
  unfold Match.actual_by_combo, MatchView.last_actual_row.
  rewrite (by_combo_lookup Match.actual_key Actual.Date).
  destruct (last _ None); reflexivity.
Qed.

Lemma plan_get_some (plan_data : list Plan.row) (style_number : string) k :
  Dict.get k (Match.plan_by_combo (Match.plan_for_style plan_data style_number))
  <> None
  <-> exists p, In p (Match.plan_for_style plan_data style_number)
                /\ Match.plan_key p = k.
Proof.
  unfold Match.plan_by_combo.
  pose proof (by_combo_get_none Match.plan_key Plan.Date
                (Match.plan_for_style plan_data style_number) [] k) as Hn.
  split.
  - intros Hsome.
    destruct (existsb (fun p => eqb (Match.plan_key p) k)
                (Match.plan_for_style plan_data style_number)) eqn:E.
    + apply existsb_exists in E. destruct E as (p & Hin & Hk).
      apply eqb_iff in Hk. exists p. auto.
    + exfalso. apply Hsome. apply Hn. split; [reflexivity|].
      intros r Hin Hk.
      assert (existsb (fun p => eqb (Match.plan_key p) k)
                (Match.plan_for_style plan_data style_number) = true).
      { apply existsb_exists. exists r. split; [exact Hin|].
        apply eqb_iff. exact Hk. }
      congruence.
  - intros (p & Hin & Hk) Hnone. apply Hn in Hnone.
    destruct Hnone as [_ Hall]. apply (Hall p Hin Hk).
Qed.

Lemma matched_row_key style_number po colour date p a :
  MatchView.key_of (Match.matched_row style_number po colour date p a)
  = (po, colour)
  /\ Matched.Date (Match.matched_row style_number po colour date p a) = date.
Proof. destruct p, a; split; reflexivity. Qed.

Lemma matched_row_planned style_number po colour date p a (s : stage) :
  Matched.planned s
    (Match.matched_row style_number po colour date (Some p) a)
  = Plan.planned s p.
Proof. destruct a, s; reflexivity. Qed.

Lemma matched_row_actual style_number po colour date p a (s : stage) :
  Matched.actual s
    (Match.matched_row style_number po colour date p (Some a))
  = Actual.actual s a.
Proof. destruct p, s; reflexivity. Qed.

(** C9: a matched row carries, as planned quantities, those of the LAST
    plan row of its style, (PO, colour) key and date in input order, and
    as actual quantities those of the last such actual row; earlier rows
    of the same key and date leave no trace.  The matcher returns one
    row per key and date, and it returns one for every plan row of the
    style whose date parses. *)
Theorem C9_last_row_of_a_key_and_date_wins
        (plan_data : list Plan.row) (daily_prod_data : list Actual.row)
        (style_number : string) :
  let out :=
    Match.match_plan_with_actual plan_data daily_prod_data style_number in
  (forall m, In m out ->
     (forall p,
         MatchView.last_plan_row plan_data style_number
           (MatchView.key_of m) (Matched.Date m) = Some p ->
         forall s, Matched.planned s m = Plan.planned s p)
     /\ (forall a,
            MatchView.last_actual_row daily_prod_data style_number
              (MatchView.key_of m) (Matched.Date m) = Some a ->
            forall s, Matched.actual s m = Actual.actual s a))
  /\ (forall m m', In m out -> In m' out ->
        MatchView.key_of m = MatchView.key_of m' ->
        Matched.Date m = Matched.Date m' -> m = m')
  /\ (forall p, In p (Match.plan_for_style plan_data style_number) ->
        DT.strptime (Plan.Date p) <> None ->
        exists m, In m out /\ MatchView.key_of m = Match.plan_key p
                  /\ Matched.Date m = Plan.Date p).
Proof.
  intros out. unfold out. split; [|split].
  - intros m Hm. apply match_In in Hm.
    destruct Hm as ([po colour] & date & _ & _ & _ & ->). cbn [fst snd] in *.
    destruct (matched_row_key style_number po colour date
                (MatchView.lookup
                   (Match.plan_by_combo
                      (Match.plan_for_style plan_data style_number))
                   (po, colour) date)
                (MatchView.lookup
                   (Match.actual_by_combo
                      (Match.actual_for_style daily_prod_data style_number))
                   (po, colour) date)) as [Hk Hd].
    rewrite Hk, Hd. split.
    + intros p Hp s. rewrite plan_lookup, Hp. apply matched_row_planned.
    + intros a Ha s. rewrite actual_lookup, Ha. apply matched_row_actual.
  - intros m m' Hm Hm' Hk Hd. apply match_In in Hm, Hm'.
    destruct Hm as ([po colour] & date & _ & _ & _ & ->).
    destruct Hm' as ([po' colour'] & date' & _ & _ & _ & ->).
    cbn [fst snd] in *.
    destruct (matched_row_key style_number po colour date
                (MatchView.lookup
                   (Match.plan_by_combo
                      (Match.plan_for_style plan_data style_number))
                   (po, colour) date)
                (MatchView.lookup
                   (Match.actual_by_combo
                      (Match.actual_for_style daily_prod_data style_number))
                   (po, colour) date)) as [Hk1 Hd1].
    destruct (matched_row_key style_number po' colour' date'
                (MatchView.lookup
                   (Match.plan_by_combo
                      (Match.plan_for_style plan_data style_number))
                   (po', colour') date')
                (MatchView.lookup
                   (Match.actual_by_combo
                      (Match.actual_for_style daily_prod_data style_number))
                   (po', colour') date')) as [Hk2 Hd2].
    rewrite Hk1, Hk2 in Hk. rewrite Hd1, Hd2 in Hd.
    injection Hk as -> ->. subst date'. reflexivity.
  - intros p Hin Hparse.
    exists (Match.matched_row style_number (fst (Match.plan_key p))
              (snd (Match.plan_key p)) (Plan.Date p)
              (MatchView.lookup
                 (Match.plan_by_combo
                    (Match.plan_for_style plan_data style_number))
                 (Match.plan_key p) (Plan.Date p))
              (MatchView.lookup
                 (Match.actual_by_combo
                    (Match.actual_for_style daily_prod_data style_number))
                 (Match.plan_key p) (Plan.Date p))).
    split; [|apply matched_row_key].
    apply match_In. exists (Match.plan_key p), (Plan.Date p).
    repeat split.
    + apply plan_get_some. exists p. auto.
    + exact Hparse.
    + left. rewrite plan_lookup. unfold MatchView.last_plan_row.
      destruct (last_some_exists
                  (filter (fun r => eqb (Match.plan_key r) (Match.plan_key p)
                                    && eqb (Plan.Date r) (Plan.Date p))
                     (Match.plan_for_style plan_data style_number)))
        as [x Hx].
      * intros Hnil.
        assert (Hf : In p (filter
                             (fun r => eqb (Match.plan_key r) (Match.plan_key p)
                                       && eqb (Plan.Date r) (Plan.Date p))
                             (Match.plan_for_style plan_data style_number))).
        { apply filter_In. split; [exact Hin|]. rewrite !eqb_refl. reflexivity. }
        rewrite Hnil in Hf. exact Hf.
      * rewrite Hx. discriminate.
Qed.

(** Two plan rows and two actual rows of one key and date: the matched
    row carries 7 and 6, the quantities of the last rows, not the sums
    17 and 10. *)
Lemma C9_witness :
  map (fun m => (Matched.planned Cutting m, Matched.actual Cutting m))
      (Match.match_plan_with_actual SampleMatch.duplicate_plan
         SampleMatch.duplicate_actual "A1")
  = [(7, 6)]
  /\ Matched.planned Cutting
       (nth 0 (Match.match_plan_with_actual SampleMatch.duplicate_plan
                 SampleMatch.duplicate_actual "A1") Sample.cancelling_row)
     = 7.
Proof.
  split.
  - vm_compute. reflexivity.
  - refine (proj1 (proj1 (C9_last_row_of_a_key_and_date_wins
                            SampleMatch.duplicate_plan
                            SampleMatch.duplicate_actual "A1") _ _)
                  (nth 1 SampleMatch.duplicate_plan
                       (nth 0 SampleMatch.duplicate_plan
                            (Plan.mk "" "" "" "" 0 0 0 0 0 "" 0)))
                  _ Cutting).
    + vm_compute. left. reflexivity.
    + vm_compute. reflexivity.
Defined.

Lemma last_some_iff {A : Type} (l : list A) :
  last (map Some l) None <> None <-> exists x, In x l.
Proof.
  split.
  - intros H. destruct (last (map Some l) None) as [x|] eqn:E; [|congruence].
    exists x. apply last_some_In. exact E.
  - intros [x Hin]. destruct (last_some_exists l) as [y ->].
    + intros ->. exact Hin.
    + discriminate.
Qed.

Lemma plan_lookup_some (plan_data : list Plan.row) (style_number : string)
      k date :
  MatchView.lookup
    (Match.plan_by_combo (Match.plan_for_style plan_data style_number)) k date
  <> None
  <-> exists p, In p (Match.plan_for_style plan_data style_number)
                /\ Match.plan_key p = k /\ Plan.Date p = date.
Proof.
  rewrite plan_lookup. unfold MatchView.last_plan_row. rewrite last_some_iff.
  split.
  - intros (p & Hin). apply filter_In in Hin. destruct Hin as [Hin Hm].
    apply andb_true_iff in Hm. destruct Hm as [Hk Hd].
    apply eqb_iff in Hk, Hd. exists p. auto.
  - intros (p & Hin & Hk & Hd). exists p. apply filter_In.
    split; [exact Hin|]. subst. rewrite !eqb_refl. reflexivity.
Qed.

Lemma actual_lookup_some (daily_prod_data : list Actual.row)
      (style_number : string) k date :
  MatchView.lookup
    (Match.actual_by_combo (Match.actual_for_style daily_prod_data style_number))
    k date
  <> None
  <-> exists a, In a (Match.actual_for_style daily_prod_data style_number)
                /\ Match.actual_key a = k /\ Actual.Date a = date.
Proof.
  rewrite actual_lookup. unfold MatchView.last_actual_row.
  rewrite last_some_iff. split.
  - intros (a & Hin). apply filter_In in Hin. destruct Hin as [Hin Hm].
    apply andb_true_iff in Hm. destruct Hm as [Hk Hd].
    apply eqb_iff in Hk, Hd. exists a. auto.
  - intros (a & Hin & Hk & Hd). exists a. apply filter_In.
    split; [exact Hin|]. subst. rewrite !eqb_refl. reflexivity.
Qed.

(** The keys of the output: the plan keys of the style for which some
    date, of a plan row or of an actual row of the key, parses. *)
Lemma match_keys (plan_data : list Plan.row) (daily_prod_data : list Actual.row)
      (style_number : string) (k : Match.combo_key) :
  In k (map MatchView.key_of
          (Match.match_plan_with_actual plan_data daily_prod_data style_number))
  <-> (exists p, In p (Match.plan_for_style plan_data style_number)
                 /\ Match.plan_key p = k)
      /\ (exists date,
             DT.strptime date <> None
             /\ ((exists p, In p (Match.plan_for_style plan_data style_number)
                            /\ Match.plan_key p = k /\ Plan.Date p = date)
                 \/ (exists a,
                        In a (Match.actual_for_style daily_prod_data style_number)
                        /\ Match.actual_key a = k /\ Actual.Date a = date))).
Proof.
  rewrite in_map_iff. split.
  - intros (m & Hk & Hin). apply match_In in Hin.
    destruct Hin as ([po colour] & date & Hget & Hparse & Hdate & ->).
    cbn [fst snd] in *.
    destruct (matched_row_key style_number po colour date
                (MatchView.lookup
                   (Match.plan_by_combo
                      (Match.plan_for_style plan_data style_number))
                   (po, colour) date)
                (MatchView.lookup
                   (Match.actual_by_combo
                      (Match.actual_for_style daily_prod_data style_number))
                   (po, colour) date)) as [Hk1 _].
    rewrite Hk1 in Hk. subst k. split.
    + apply plan_get_some. exact Hget.
    + exists date. split; [exact Hparse|].
      rewrite plan_lookup_some, actual_lookup_some in Hdate. exact Hdate.
  - intros [Hplan (date & Hparse & Hdate)].
    exists (Match.matched_row style_number (fst k) (snd k) date
              (MatchView.lookup
                 (Match.plan_by_combo
                    (Match.plan_for_style plan_data style_number)) k date)
              (MatchView.lookup
                 (Match.actual_by_combo
                    (Match.actual_for_style daily_prod_data style_number))
                 k date)).
    split.
    + destruct k as [po colour]. apply matched_row_key.
    + apply match_In. exists k, date. repeat split.
      * apply plan_get_some. exact Hplan.
      * exact Hparse.
      * rewrite plan_lookup_some, actual_lookup_some. exact Hdate.
Qed.

(** C1 (amended): the (PO, colour) keys of the matched rows are the
    keys of the plan rows of the style for which at least one date, of a
    plan row or of an actual row of that key, is in the format
    ['%d/%b/%y'] (dates that do not parse are skipped); in particular
    they are exactly the plan keys of the style when every plan date
    parses.  A key that occurs only in the actual rows never appears:
    an actual row whose key no plan row of the style has is left out of
    the output. *)
Theorem C1_matched_keys_are_the_plan_keys
        (plan_data : list Plan.row) (daily_prod_data : list Actual.row)
        (style_number : string) :
  let out :=
    Match.match_plan_with_actual plan_data daily_prod_data style_number in
  let plan_rows := Match.plan_for_style plan_data style_number in
  let actual_rows := Match.actual_for_style daily_prod_data style_number in
  (forall k,
      In k (map MatchView.key_of out)
      <-> In k (map Match.plan_key plan_rows)
          /\ (exists date,
                 DT.strptime date <> None
                 /\ ((exists p, In p plan_rows /\ Match.plan_key p = k
                                /\ Plan.Date p = date)
                     \/ (exists a, In a actual_rows /\ Match.actual_key a = k
                                   /\ Actual.Date a = date))))
  /\ ((forall p, In p plan_rows -> DT.strptime (Plan.Date p) <> None) ->
      forall k,
        In k (map MatchView.key_of out) <-> In k (map Match.plan_key plan_rows))
  /\ (forall a, In a daily_prod_data ->
        ~ In (Match.actual_key a) (map Match.plan_key plan_rows) ->
        forall m, In m out -> MatchView.key_of m <> Match.actual_key a).
Proof.
  intros out plan_rows actual_rows.
  assert (Hkeys : forall k,
             In k (map Match.plan_key plan_rows)
             <-> exists p, In p plan_rows /\ Match.plan_key p = k).
  { intros k. rewrite in_map_iff. split; intros (p & H1 & H2); exists p; auto. }
  subst out plan_rows actual_rows. split; [|split].
  - intros k. rewrite match_keys, Hkeys. reflexivity.
  - intros Hall k. rewrite match_keys, Hkeys. split; [tauto|].
    intros (p & Hp & Hk). split; [exists p; auto|].
    exists (Plan.Date p). split; [apply Hall, Hp|].
    left. exists p. auto.
  - intros a _ Hnot m Hm Hk. apply Hnot. apply Hkeys.
    assert (Hin : In (Match.actual_key a)
                     (map MatchView.key_of
                        (Match.match_plan_with_actual plan_data daily_prod_data
                           style_number))).
    { rewrite <- Hk. apply in_map. exact Hm. }
    apply match_keys in Hin. apply Hin.
Qed.

(** The sample of the specification: the plan has purchase order 100,
    the actual rows also report purchase order 999; only 100 comes
    out. *)
Lemma C1_witness :
  map MatchView.key_of
      (Match.match_plan_with_actual SampleMatch.duplicate_plan
         (SampleMatch.duplicate_actual ++ SampleMatch.unplanned_actual) "A1")
  = [("100", "red")]
  /\ (In ("100", "red")
         (map MatchView.key_of
            (Match.match_plan_with_actual SampleMatch.duplicate_plan
               (SampleMatch.duplicate_actual ++ SampleMatch.unplanned_actual)
               "A1"))
      <-> In ("100", "red")
             (map Match.plan_key
                (Match.plan_for_style SampleMatch.duplicate_plan "A1"))).
Proof.
  split.
  - vm_compute. reflexivity.
  - refine (proj1 (proj2 (C1_matched_keys_are_the_plan_keys
                            SampleMatch.duplicate_plan
                            (SampleMatch.duplicate_actual
                             ++ SampleMatch.unplanned_actual) "A1")) _ _).
    intros p [<- | [<- | []]]; vm_compute; discriminate.
Defined.

(** C1 as stated fails: the only plan row of the style has a date that
    does not parse, so its key ("100", "red") is a plan key and no
    matched row carries it. *)
Lemma C1_counterexample :
  In ("100", "red")
     (map Match.plan_key (Match.plan_for_style SampleMatch.undated_plan "A1"))
  /\ DT.strptime "2025-01-01" = None
  /\ Match.match_plan_with_actual SampleMatch.undated_plan [] "A1" = []
  /\ ~ In ("100", "red")
       (map MatchView.key_of
          (Match.match_plan_with_actual SampleMatch.undated_plan [] "A1")).
Proof.
  repeat split; try (vm_compute; reflexivity).
  - vm_compute. left. reflexivity.
  - vm_compute. tauto.
Qed.

(** ** Ingestion: blank quantity cells *)

Lemma plan_process_quantity_fill (s : stage) (n : Z) (v : Cell.quantity_value) :
  PlanIngest.process_quantity s n (IngestView.fill v)
  = PlanIngest.process_quantity s n v.
Proof. destruct v; reflexivity. Qed.

Lemma plan_quantity_of_fill (s : stage) (n : Z) (row : PlanIngest.raw_row) :
  PlanIngest.quantity_of s n (IngestView.fill_plan_row row)
  = PlanIngest.quantity_of s n row.
Proof.
  unfold PlanIngest.quantity_of.
  destruct s; apply plan_process_quantity_fill.
Qed.

Lemma plan_year_below_fill (df : list PlanIngest.raw_row) (index : nat) :
  PlanIngest.year_below (map IngestView.fill_plan_row df) index
  = PlanIngest.year_below df index.
Proof.
  unfold PlanIngest.year_below. rewrite nth_error_map.
  destruct (nth_error df (S index)); reflexivity.
Qed.

Lemma plan_resolve_date_fill df index parsed_dates v :
  PlanIngest.resolve_date (map IngestView.fill_plan_row df) index parsed_dates v
  = PlanIngest.resolve_date df index parsed_dates v.
Proof.
  unfold PlanIngest.resolve_date. rewrite plan_year_below_fill. reflexivity.
Qed.

Lemma plan_step_fill style_number df last_non_blank st index row :
  PlanIngest.step style_number (map IngestView.fill_plan_row df) last_non_blank
                  st index (IngestView.fill_plan_row row)
  = PlanIngest.step style_number df last_non_blank st index row.
Proof.
  unfold PlanIngest.step. rewrite plan_resolve_date_fill.
  change (PlanIngest.main_columns_blank (IngestView.fill_plan_row row))
    with (PlanIngest.main_columns_blank row).
  change (PlanIngest.date_value (IngestView.fill_plan_row row))
    with (PlanIngest.date_value row).
  change (PlanIngest.blank_text_cells (IngestView.fill_plan_row row))
    with (PlanIngest.blank_text_cells row).
  change (PlanIngest.style_value (IngestView.fill_plan_row row))
    with (PlanIngest.style_value row).
  change (PlanIngest.po_value (IngestView.fill_plan_row row))
    with (PlanIngest.po_value row).
  change (PlanIngest.colour_value (IngestView.fill_plan_row row))
    with (PlanIngest.colour_value row).
  destruct (PlanIngest.main_columns_blank row); [reflexivity|].
  destruct (Cell.date_isna (PlanIngest.date_value row)); [reflexivity|].
  destruct (PlanIngest.resolve_date df index
              (PlanIngest.parsed_dates_with_indices st)
              (PlanIngest.date_value row)) as [[d|] msgs]; [|reflexivity].
  cbn [flat_map stages]. rewrite !plan_quantity_of_fill. reflexivity.
Qed.

Lemma plan_last_non_blank_fill (rows : list PlanIngest.raw_row) (i : Z) :
  PlanIngest.last_non_blank_from (map IngestView.fill_plan_row rows) i
  = PlanIngest.last_non_blank_from rows i.
Proof.
  revert i. induction rows as [|row rows IH]; intros i; simpl.
  - reflexivity.
  - rewrite IH. reflexivity.
Qed.

Lemma plan_loop_fill style_number df last_non_blank st index todo :
  PlanIngest.loop style_number (map IngestView.fill_plan_row df) last_non_blank
                  st index (map IngestView.fill_plan_row todo)
  = PlanIngest.loop style_number df last_non_blank st index todo.
Proof.
  revert st index. induction todo as [|row todo IH]; intros st index; simpl.
  - reflexivity.
  - rewrite plan_step_fill. apply IH.
Qed.

Lemma plan_run_fill (df : list PlanIngest.raw_row) (style_number : string) :
  PlanIngest.run (map IngestView.fill_plan_row df) style_number
  = PlanIngest.run df style_number.
Proof.
  unfold PlanIngest.run, PlanIngest.last_non_blank_index.
  rewrite plan_last_non_blank_fill. apply plan_loop_fill.
Qed.

Lemma actual_process_quantity_fill sheet_name n v col_letter quantity_name :
  ActualIngest.process_quantity sheet_name n (IngestView.fill v)
                                col_letter quantity_name
  = ActualIngest.process_quantity sheet_name n v col_letter quantity_name.
Proof. destruct v; reflexivity. Qed.

Lemma actual_step_fill sheet_name d last_non_blank st index row :
  ActualIngest.step sheet_name d last_non_blank st index
                    (IngestView.fill_actual_row row)
  = ActualIngest.step sheet_name d last_non_blank st index row.
Proof.
  unfold ActualIngest.step.
  change (ActualIngest.main_columns_blank (IngestView.fill_actual_row row))
    with (ActualIngest.main_columns_blank row).
  destruct (ActualIngest.main_columns_blank row); [reflexivity|].
  cbn [IngestView.fill_actual_row ActualIngest.po_value
       ActualIngest.style_value ActualIngest.colour_value
       ActualIngest.order_quantity_value ActualIngest.cutting_value
       ActualIngest.sewing_value ActualIngest.finishing_value
       ActualIngest.washing_value ActualIngest.packing_value].
  rewrite !actual_process_quantity_fill. reflexivity.
Qed.

Lemma actual_last_non_blank_fill (rows : list ActualIngest.raw_row) (i : Z) :
  ActualIngest.last_non_blank_from (map IngestView.fill_actual_row rows) i
  = ActualIngest.last_non_blank_from rows i.
Proof.
  revert i. induction rows as [|row rows IH]; intros i; simpl.
  - reflexivity.
  - rewrite IH. reflexivity.
Qed.

Lemma actual_row_loop_fill sheet_name d last_non_blank st index todo :
  ActualIngest.row_loop sheet_name d last_non_blank st index
                        (map IngestView.fill_actual_row todo)
  = ActualIngest.row_loop sheet_name d last_non_blank st index todo.
Proof.
  revert st index. induction todo as [|row todo IH]; intros st index; simpl.
  - reflexivity.
  - rewrite actual_step_fill. apply IH.
Qed.

Lemma actual_sheet_step_fill st sh :
  ActualIngest.sheet_step st (IngestView.fill_sheet sh)
  = ActualIngest.sheet_step st sh.
Proof.
  unfold ActualIngest.sheet_step. destruct sh as [name [d|] [| |rows]]; simpl;
    try reflexivity.
  rewrite actual_last_non_blank_fill. apply actual_row_loop_fill.
Qed.

Lemma actual_run_fill (sheets : list ActualIngest.sheet) :
  ActualIngest.run (map IngestView.fill_sheet sheets) = ActualIngest.run sheets.
Proof.
  unfold ActualIngest.run. generalize ActualIngest.init.
  induction sheets as [|sh sheets IH]; intros st; simpl.
  - reflexivity.
  - rewrite actual_sheet_step_fill. apply IH.
Qed.

(** C8 (amended): in plan ingestion a blank quantity cell yields 0 and
    emits no diagnostic, exactly as in actual ingestion.  In both loops
    a blank cell is handled like a cell holding the number 0: nothing is
    added to the lists of blank cells, rounded quantities, quantity
    warnings or skipped rows, nothing is printed, and the records are
    the same. *)
Theorem C8_blank_quantity_is_zero_without_diagnostic :
  (forall s n,
      PlanIngest.process_quantity s n Cell.QtyNaN = PlanIngest.mkqr 0 [] [])
  /\ (forall df style_number,
         PlanIngest.run (map IngestView.fill_plan_row df) style_number
         = PlanIngest.run df style_number)
  /\ (forall sheet_name n col_letter quantity_name,
         ActualIngest.process_quantity sheet_name n Cell.QtyNaN
                                       col_letter quantity_name
         = (0, []))
  /\ (forall sheets,
         ActualIngest.run (map IngestView.fill_sheet sheets)
         = ActualIngest.run sheets).
Proof.
  repeat split.
  - apply plan_run_fill.
  - apply actual_run_fill.
Qed.

(** C8 as stated fails on the plan side: a plan row with a blank cutting
    cell is accepted with planned cutting 0 and the run reports nothing
    at all. *)
Lemma C8_counterexample :
  PlanIngest.quantity_value Cutting
    (nth 0 IngestView.blank_cutting_sheet
         (IngestView.dated_row Cell.DateNaN)) = Cell.QtyNaN
  /\ map (Plan.planned Cutting)
       (PlanIngest.get_row_wise_data_from_plan
          IngestView.blank_cutting_sheet "A1") = [0]
  /\ PlanIngest.blank_cells (PlanIngest.run IngestView.blank_cutting_sheet "A1")
     = []
  /\ PlanIngest.decimal_quantities
       (PlanIngest.run IngestView.blank_cutting_sheet "A1") = []
  /\ PlanIngest.skipped_rows (PlanIngest.run IngestView.blank_cutting_sheet "A1")
     = []
  /\ PlanIngest.printed (PlanIngest.run IngestView.blank_cutting_sheet "A1")
     = [].
Proof. repeat split; vm_compute; reflexivity. Qed.

(** ** Plan ingestion: the year repair *)

Lemma year_above_last parsed_dates i d :
  PlanIngest.year_above (parsed_dates ++ [(i, d)]) = Some (DT.year d).
Proof. unfold PlanIngest.year_above. rewrite rev_unit. reflexivity. Qed.

Lemma year_below_some (df : list PlanIngest.raw_row) (index : nat) (y : Z) :
  PlanIngest.year_below df index = Some y
  <-> exists next dn,
        nth_error df (S index) = Some next
        /\ Cell.parse_date (PlanIngest.date_value next) = Some dn
        /\ DT.year dn = y /\ 2000 <= y <= 2100.
Proof.
  unfold PlanIngest.year_below. split.
  - destruct (nth_error df (S index)) as [next|] eqn:Hn; [|discriminate].
    destruct (Cell.parse_date (PlanIngest.date_value next)) as [dn|] eqn:Hp;
      [|discriminate].
    destruct ((2000 <=? DT.year dn) && (DT.year dn <=? 2100)) eqn:E;
      [|discriminate].
    intros [= <-]. apply andb_true_iff in E. destruct E as [E1 E2].
    apply Z.leb_le in E1, E2. exists next, dn.
    split; [reflexivity|]. split; [exact Hp|]. split; [reflexivity|].
    split; assumption.
  - intros (next & dn & -> & -> & <- & H1 & H2).
    apply Z.leb_le in H1, H2. rewrite H1, H2. reflexivity.
Qed.

Lemma replace_year_year d y d' :
  DT.replace_year d y = Some d' ->
  DT.year d' = y /\ DT.month d' = DT.month d /\ DT.day d' = DT.day d.
Proof.
  unfold DT.replace_year. destruct (DT.valid _); [|discriminate].
  intros [= <-]. auto.
Qed.

(** What [step] does with a row whose date is accepted, and with a row
    whose date is given up. *)
Lemma plan_step_accepted style_number df last_non_blank st index row d msgs :
  PlanIngest.main_columns_blank row = false ->
  Cell.date_isna (PlanIngest.date_value row) = false ->
  PlanIngest.resolve_date df index (PlanIngest.parsed_dates_with_indices st)
                          (PlanIngest.date_value row)
  = (PlanIngest.DateAccepted d, msgs) ->
  let st' := PlanIngest.step style_number df last_non_blank st index row in
  (exists r, PlanIngest.result_list st' = PlanIngest.result_list st ++ [r]
             /\ Plan.Date r = DT.strftime d
             /\ Plan.Source_Row r = Z.of_nat index + 2)
  /\ PlanIngest.parsed_dates_with_indices st'
     = PlanIngest.parsed_dates_with_indices st ++ [(Z.of_nat index, d)]
  /\ PlanIngest.skipped_rows st' = PlanIngest.skipped_rows st.
Proof.
  intros Hb Hna Hres. unfold PlanIngest.step. rewrite Hb, Hna, Hres. simpl.
  repeat split. eexists. split; [reflexivity|]. split; reflexivity.
Qed.

Lemma plan_step_skipped style_number df last_non_blank st index row msgs :
  PlanIngest.main_columns_blank row = false ->
  Cell.date_isna (PlanIngest.date_value row) = false ->
  PlanIngest.resolve_date df index (PlanIngest.parsed_dates_with_indices st)
                          (PlanIngest.date_value row)
  = (PlanIngest.RowSkipped, msgs) ->
  let st' := PlanIngest.step style_number df last_non_blank st index row in
  PlanIngest.result_list st' = PlanIngest.result_list st
  /\ PlanIngest.parsed_dates_with_indices st'
     = PlanIngest.parsed_dates_with_indices st
  /\ PlanIngest.skipped_rows st'
     = PlanIngest.skipped_rows st ++ [Z.of_nat index + 2].
Proof.
  intros Hb Hna Hres. unfold PlanIngest.step. rewrite Hb, Hna, Hres. simpl.
  repeat split.
Qed.

Lemma parse_date_not_na v d :
  Cell.parse_date v = Some d -> Cell.date_isna v = false.
Proof. destruct v; simpl; [discriminate | reflexivity | reflexivity]. Qed.

(** C5 (amended): a row of the plan whose parsed year lies outside
    2020..2050 is repaired from the year of the most recently accepted
    row and the year of the next row of the sheet, the latter counting
    as available only when that row exists, its date parses AND its year
    lies in 2000..2100.  If both years are available and agree, or if
    exactly one is available, the row is accepted with that year
    (provided the day exists in that year); if none is available or they
    disagree, the row is dropped.  For rows dated 16/Sep/0202,
    17/Sep/2025, 18/Sep/2025 the first row is accepted with the year
    2025 of the following row. *)
Theorem C5_year_repair_from_neighbouring_rows :
  (forall (style_number : string) (df : list PlanIngest.raw_row)
          (last_non_blank : Z) (st : PlanIngest.state) (index : nat)
          (row : PlanIngest.raw_row) (d : DT.datetime),
      PlanIngest.main_columns_blank row = false ->
      Cell.parse_date (PlanIngest.date_value row) = Some d ->
      DT.year d < 2020 \/ 2050 < DT.year d ->
      let above :=
        PlanIngest.year_above (PlanIngest.parsed_dates_with_indices st) in
      let below := PlanIngest.year_below df index in
      let st' := PlanIngest.step style_number df last_non_blank st index row in
      (forall y d',
          (above = Some y /\ below = Some y)
          \/ (above = Some y /\ below = None)
          \/ (above = None /\ below = Some y) ->
          DT.replace_year d y = Some d' ->
          DT.year d' = y
          /\ (exists r,
                 PlanIngest.result_list st' = PlanIngest.result_list st ++ [r]
                 /\ Plan.Date r = DT.strftime d'
                 /\ Plan.Source_Row r = Z.of_nat index + 2)
          /\ PlanIngest.parsed_dates_with_indices st'
             = PlanIngest.parsed_dates_with_indices st
               ++ [(Z.of_nat index, d')])
      /\ ((above = None /\ below = None)
          \/ (exists a b, above = Some a /\ below = Some b /\ a <> b) ->
          PlanIngest.result_list st' = PlanIngest.result_list st
          /\ PlanIngest.skipped_rows st'
             = PlanIngest.skipped_rows st ++ [Z.of_nat index + 2])
      /\ (forall y,
             below = Some y
             <-> exists next dn,
                   nth_error df (S index) = Some next
                   /\ Cell.parse_date (PlanIngest.date_value next) = Some dn
                   /\ DT.year dn = y /\ 2000 <= y <= 2100))
  /\ (forall parsed_dates i d,
         PlanIngest.year_above (parsed_dates ++ [(i, d)]) = Some (DT.year d))
  /\ map Plan.Date
         (PlanIngest.get_row_wise_data_from_plan
            IngestView.year_0202_sheet "A1")
     = ["16/Sep/25"; "17/Sep/25"; "18/Sep/25"]
  /\ In (PlanIngest.AutoCorrected (DT.mk 2025 9 16) PlanIngest.RowBelow)
        (PlanIngest.printed (PlanIngest.run IngestView.year_0202_sheet "A1")).
Proof.
  split; [|split; [|split]].
  2: { intros. apply year_above_last. }
  2: { vm_compute. reflexivity. }
  2: { vm_compute. right. left. reflexivity. }
  intros style_number df last_non_blank st index row d
         Hb Hparse Hsusp above below st'.
  assert (Hna := parse_date_not_na _ _ Hparse).
  assert (Hs : PlanIngest.suspicious d = true).
  { unfold PlanIngest.suspicious. apply orb_true_iff.
    destruct Hsusp; [left; apply Z.ltb_lt | right; apply Z.ltb_lt]; assumption. }
  split; [|split].
  - intros y d' Hcase Hrep.
    assert (Hch : exists src, PlanIngest.chosen_year above below = Some (y, src)).
    { destruct Hcase as [[-> ->] | [[-> ->] | [-> ->]]]; simpl.
      - rewrite Z.eqb_refl. eauto.
      - eauto.
      - eauto. }
    destruct Hch as [src Hch].
    assert (Hres : exists msgs,
               PlanIngest.resolve_date df index
                 (PlanIngest.parsed_dates_with_indices st)
                 (PlanIngest.date_value row)
               = (PlanIngest.DateAccepted d', msgs)).
    { unfold PlanIngest.resolve_date. rewrite Hparse, Hs.
      fold above. fold below. rewrite Hch, Hrep. eauto. }
    destruct Hres as [msgs Hres].
    destruct (plan_step_accepted style_number df last_non_blank st index row
                d' msgs Hb Hna Hres) as (Hr & Hp & _).
    split; [apply (replace_year_year _ _ _ Hrep)|]. split; assumption.
  - intros Hcase.
    assert (Hch : PlanIngest.chosen_year above below = None).
    { destruct Hcase as [[-> ->] | (a & b & -> & -> & Hne)]; simpl.
      - reflexivity.
      - apply Z.eqb_neq in Hne. rewrite Hne. reflexivity. }
    assert (Hres : exists msgs,
               PlanIngest.resolve_date df index
                 (PlanIngest.parsed_dates_with_indices st)
                 (PlanIngest.date_value row)
               = (PlanIngest.RowSkipped, msgs)).
    { unfold PlanIngest.resolve_date. rewrite Hparse, Hs.
      fold above. fold below. rewrite Hch. eauto. }
    destruct Hres as [msgs Hres].
    destruct (plan_step_skipped style_number df last_non_blank st index row
                msgs Hb Hna Hres) as (Hr & _ & Hsk).
    split; assumption.
  - intros y. apply year_below_some.
Qed.

(** The first row of the example sheet: no row above, the row below has
    year 2025, and the row is accepted as 16 September 2025. *)
Lemma C5_witness :
  DT.year (DT.mk 2025 9 16) = 2025
  /\ (exists r,
         PlanIngest.result_list
           (PlanIngest.step "A1" IngestView.year_0202_sheet 2 PlanIngest.init 0
              (IngestView.dated_row
                 (Cell.DateText "16/Sep/0202" (Some (DT.mk 202 9 16)))))
         = PlanIngest.result_list PlanIngest.init ++ [r]
         /\ Plan.Date r = DT.strftime (DT.mk 2025 9 16)
         /\ Plan.Source_Row r = Z.of_nat 0 + 2)
  /\ PlanIngest.parsed_dates_with_indices
       (PlanIngest.step "A1" IngestView.year_0202_sheet 2 PlanIngest.init 0
          (IngestView.dated_row
             (Cell.DateText "16/Sep/0202" (Some (DT.mk 202 9 16)))))
     = PlanIngest.parsed_dates_with_indices PlanIngest.init
       ++ [(Z.of_nat 0, DT.mk 2025 9 16)].
Proof.
  refine (proj1 (proj1 C5_year_repair_from_neighbouring_rows
                   "A1" IngestView.year_0202_sheet 2 PlanIngest.init 0%nat
                   (IngestView.dated_row
                      (Cell.DateText "16/Sep/0202" (Some (DT.mk 202 9 16))))
                   (DT.mk 202 9 16) _ _ _)
                2025 (DT.mk 2025 9 16) _ _).
  - reflexivity.
  - reflexivity.
  - left. vm_compute. reflexivity.
  - right. right. split; vm_compute; reflexivity.
  - vm_compute. reflexivity.
Defined.

(** C5 as stated fails: in the sheet 15/Sep/2025, 16/Sep/0202,
    17/Sep/0203 the second row has an accepted row above (year 2025) and
    a next row whose date parses (year 203).  The two years disagree,
    yet the row is not dropped: the year 203 is outside 2000..2100 and
    is ignored, and the row is accepted with the year 2025 of the row
    above. *)
Lemma C5_counterexample :
  Cell.parse_date
    (PlanIngest.date_value
       (nth 2 IngestView.two_bad_years_sheet (IngestView.dated_row Cell.DateNaN)))
  = Some (DT.mk 203 9 17)
  /\ PlanIngest.year_above [(0, DT.mk 2025 9 15)] = Some 2025
  /\ 2025 <> 203
  /\ PlanIngest.resolve_date IngestView.two_bad_years_sheet 1
       [(0, DT.mk 2025 9 15)]
       (Cell.DateText "16/Sep/0202" (Some (DT.mk 202 9 16)))
     = (PlanIngest.DateAccepted (DT.mk 2025 9 16),
        [PlanIngest.WarningSuspiciousYear 3 (DT.mk 202 9 16);
         PlanIngest.AutoCorrected (DT.mk 2025 9 16) PlanIngest.RowAbove])
  /\ map Plan.Date
       (PlanIngest.get_row_wise_data_from_plan
          IngestView.two_bad_years_sheet "A1")
     = ["15/Sep/25"; "16/Sep/25"; "17/Sep/25"]
  /\ PlanIngest.skipped_rows
       (PlanIngest.run IngestView.two_bad_years_sheet "A1") = [].
Proof. repeat split; try (vm_compute; reflexivity). discriminate. Qed.

(** ** The aggregator: the cumulative columns *)

(** *** One running value

    [F] reads one of the ten running values, [f] the matching quantity
    of a matched row. *)
Section RunningValue.
Variable F : Agg.totals -> Z.
Variable f : Matched.row -> Z.
Hypothesis F_zero : F Agg.zero = 0.
Hypothesis F_add : forall a b, F (Agg.add a b) = F a + F b.
Hypothesis F_of_row : forall r, F (Agg.of_row r) = f r.

Lemma date_total_from (all : list (Matched.row * DT.datetime)) d t0 :
  F (fold_left
       (fun t rd => if DT.eqb (snd rd) d then Agg.add t (Agg.of_row (fst rd))
                    else t)
       all t0)
  = F t0 + AggView.qsum f (filter (AggView.on d) all).
Proof.
  revert t0. induction all as [|rd all IH]; intros t0; simpl.
  - lia.
  - rewrite IH. unfold AggView.on at 2, DT.eqb.
    destruct (DT.key (snd rd) =? DT.key d); simpl.
    + rewrite F_add, F_of_row. lia.
    + reflexivity.
Qed.

Lemma date_total_sum (all : list (Matched.row * DT.datetime)) d :
  F (Agg.date_total all d) = AggView.qsum f (filter (AggView.on d) all).
Proof. unfold Agg.date_total. rewrite date_total_from, F_zero. lia. Qed.

Lemma qsum_up_to_split (all : list (Matched.row * DT.datetime)) d :
  AggView.qsum f (filter (AggView.up_to d) all)
  = AggView.qsum f (filter (AggView.before d) all)
    + AggView.qsum f (filter (AggView.on d) all).
Proof.
  induction all as [|rd all IH]; simpl; [reflexivity|].
  unfold AggView.up_to at 1, AggView.before at 1, AggView.on at 1.
  destruct (Z.lt_trichotomy (DT.key (snd rd)) (DT.key d)) as [Hlt | [Heq | Hgt]].
  - replace (DT.key (snd rd) <=? DT.key d) with true
      by (symmetry; apply Z.leb_le; lia).
    replace (DT.key (snd rd) <? DT.key d) with true
      by (symmetry; apply Z.ltb_lt; lia).
    replace (DT.key (snd rd) =? DT.key d) with false
      by (symmetry; apply Z.eqb_neq; lia).
    simpl. lia.
  - replace (DT.key (snd rd) <=? DT.key d) with true
      by (symmetry; apply Z.leb_le; lia).
    replace (DT.key (snd rd) <? DT.key d) with false
      by (symmetry; apply Z.ltb_ge; lia).
    replace (DT.key (snd rd) =? DT.key d) with true
      by (symmetry; apply Z.eqb_eq; lia).
    simpl. lia.
  - replace (DT.key (snd rd) <=? DT.key d) with false
      by (symmetry; apply Z.leb_gt; lia).
    replace (DT.key (snd rd) <? DT.key d) with false
      by (symmetry; apply Z.ltb_ge; lia).
    replace (DT.key (snd rd) =? DT.key d) with false
      by (symmetry; apply Z.eqb_neq; lia).
    simpl. lia.
Qed.


Lemma running_advance (pre suf : list (Matched.row * DT.datetime))
      (r : Matched.row) (d : DT.datetime) (st : Agg.state) :
  StronglySorted (fun a b => DT.key (snd a) <= DT.key (snd b))
                 (pre ++ (r, d) :: suf) ->
  AggView.running F f (pre ++ (r, d) :: suf) pre st ->
  AggView.running F f (pre ++ (r, d) :: suf) (pre ++ [(r, d)])
          (Agg.advance (pre ++ (r, d) :: suf) st d)
  /\ F (Agg.current_date_cumulative (Agg.advance (pre ++ (r, d) :: suf) st d))
     = AggView.qsum f (filter (AggView.up_to d) (pre ++ (r, d) :: suf)).
Proof.
  intros Hsorted Hrun. set (all := pre ++ (r, d) :: suf) in *.
  assert (Hpre_le : forall x, In x pre -> DT.key (snd x) <= DT.key d).
  { intros x Hx. unfold all in Hsorted.
    clear Hrun. induction pre as [|y pre IH]; [destruct Hx|].
    simpl in Hsorted. inversion Hsorted as [|? ? Hs Hall]. subst.
    destruct Hx as [-> | Hx].
    - rewrite Forall_forall in Hall. apply (Hall (r, d)).
      apply in_or_app. right. left. reflexivity.
    - apply IH; assumption. }
  assert (Hsuf_ge : forall x, In x ((r, d) :: suf) -> DT.key d <= DT.key (snd x)).
  { intros x Hx. unfold all in Hsorted. clear Hrun Hpre_le.
    induction pre as [|y pre IH].
    - simpl in Hsorted. inversion Hsorted as [|? ? Hs Hall]. subst.
      destruct Hx as [<- | Hx]; [simpl; lia|].
      rewrite Forall_forall in Hall. apply (Hall x Hx).
    - simpl in Hsorted. inversion Hsorted. apply IH. assumption. }
  unfold AggView.running in Hrun |- *. unfold Agg.advance.
  destruct (Agg.current_date st) as [d0|] eqn:Hcur.
  - destruct Hrun as (Hc & Ht & Hcc & Hle & (x0 & Hx0 & Hx0d)).
    assert (Hd0 : DT.key d0 <= DT.key d)
      by (rewrite <- Hx0d; apply Hpre_le, Hx0).
    destruct (DT.eqb d d0) eqn:E; unfold DT.eqb in E; simpl.
    + apply Z.eqb_eq in E. rewrite Hcur.
      assert (Hup : forall x, AggView.up_to d0 x = AggView.up_to d x).
      { intros x. unfold AggView.up_to. rewrite E. reflexivity. }
      assert (Hon : forall x, AggView.on d0 x = AggView.on d x).
      { intros x. unfold AggView.on. rewrite E. reflexivity. }
      assert (Hbe : forall x, AggView.before d0 x = AggView.before d x).
      { intros x. unfold AggView.before. rewrite E. reflexivity. }
      split.
      * rewrite Hc, Ht, Hcc. repeat split.
        -- intros x Hx. apply in_app_or in Hx. destruct Hx as [Hx | [<- | []]].
           ++ apply Hle, Hx.
           ++ simpl. lia.
        -- exists (r, d). split; [apply in_or_app; right; left; reflexivity|].
           simpl. lia.
      * rewrite Hcc. f_equal. apply filter_ext. exact Hup.
    + apply Z.eqb_neq in E. simpl.
      assert (Hc' : F (Agg.add (Agg.cumulative st) (Agg.current_date_total st))
                    = AggView.qsum f (filter (AggView.before d) all)).
      { rewrite F_add, Hc, Ht, <- qsum_up_to_split.
        f_equal. apply filter_ext_in. intros x Hx.
        unfold AggView.up_to, AggView.before. unfold all in Hx.
        apply in_app_or in Hx. destruct Hx as [Hx | Hx].
        - specialize (Hle x Hx).
          replace (DT.key (snd x) <=? DT.key d0) with true
            by (symmetry; apply Z.leb_le; lia).
          symmetry. apply Z.ltb_lt. lia.
        - specialize (Hsuf_ge x Hx).
          replace (DT.key (snd x) <=? DT.key d0) with false
            by (symmetry; apply Z.leb_gt; lia).
          symmetry. apply Z.ltb_ge. lia. }
      split.
      * repeat split.
        -- exact Hc'.
        -- apply date_total_sum.
        -- rewrite F_add, Hc', date_total_sum, <- qsum_up_to_split. reflexivity.
        -- intros x Hx. apply in_app_or in Hx. destruct Hx as [Hx | [<- | []]].
           ++ apply Hpre_le, Hx.
           ++ simpl. lia.
        -- exists (r, d). split; [apply in_or_app; right; left; reflexivity|].
           reflexivity.
      * rewrite F_add, Hc', date_total_sum, <- qsum_up_to_split. reflexivity.
  - destruct Hrun as [-> Hc]. simpl.
    assert (Hc' : F (Agg.cumulative st)
                  = AggView.qsum f (filter (AggView.before d) all)).
    { rewrite Hc. replace (filter (AggView.before d) all) with
        (@nil (Matched.row * DT.datetime)); [reflexivity|].
      symmetry. unfold all. simpl.
      assert (Hnil : forall l, (forall x, In x l -> DT.key d <= DT.key (snd x)) ->
                               filter (AggView.before d) l = []).
      { induction l as [|y l IH]; intros Hl; simpl; [reflexivity|].
        unfold AggView.before at 1.
        replace (DT.key (snd y) <? DT.key d) with false
          by (symmetry; apply Z.ltb_ge; apply Hl; left; reflexivity).
        apply IH. intros x Hx. apply Hl. right. exact Hx. }
      apply (Hnil ((r, d) :: suf)). exact Hsuf_ge. }
    split.
    + repeat split.
      * exact Hc'.
      * apply date_total_sum.
      * rewrite F_add, Hc', date_total_sum, <- qsum_up_to_split. reflexivity.
      * intros x [<- | []]. simpl. lia.
      * exists (r, d). split; [left; reflexivity | reflexivity].
    + rewrite F_add, Hc', date_total_sum, <- qsum_up_to_split. reflexivity.
Qed.

Variable G : Agg.row -> Z.
Hypothesis G_new_row : forall r d c, G (Agg.new_row r d c) = F c.

Lemma loop_cumulative (all suf pre : list (Matched.row * DT.datetime))
      (st : Agg.state) :
  all = pre ++ suf ->
  StronglySorted (fun a b => DT.key (snd a) <= DT.key (snd b)) all ->
  AggView.running F f all pre st ->
  forall o, In o (Agg.loop all st suf) ->
    exists r d,
      In (r, d) suf
      /\ (exists c, o = Agg.new_row r d c)
      /\ G o = AggView.qsum f (filter (AggView.up_to d) all).
Proof.
  revert pre st. induction suf as [|[r d] suf IH]; intros pre st Hall Hs Hrun o;
    simpl.
  - tauto.
  - subst all.
    destruct (running_advance pre suf r d st Hs Hrun) as [Hrun' Hcum].
    intros [<- | Hin].
    + exists r, d. split; [left; reflexivity|]. split; [eauto|].
      rewrite G_new_row. exact Hcum.
    + destruct (IH (pre ++ [(r, d)])
                   (Agg.advance (pre ++ (r, d) :: suf) st d)) with (o := o)
        as (r' & d' & Hin' & Hc & Hg).
      * rewrite <- app_assoc. reflexivity.
      * exact Hs.
      * exact Hrun'.
      * exact Hin.
      * exists r', d'. split; [right; exact Hin'|]. split; assumption.
Qed.

Lemma qsum_perm (P : Matched.row * DT.datetime -> bool)
      (l l' : list (Matched.row * DT.datetime)) :
  Permutation l l' ->
  AggView.qsum f (filter P l) = AggView.qsum f (filter P l').
Proof.
  induction 1 as [|x l l' Hp IH|x y l|l l' l'' H1 IH1 H2 IH2]; simpl.
  - reflexivity.
  - destruct (P x); simpl; rewrite IH; reflexivity.
  - destruct (P x), (P y); simpl; lia.
  - lia.
Qed.

(** Every row of a group carries the sum of the quantity over the rows
    of the group dated up to its own date. *)
Lemma process_group_cumulative (rows : list (Matched.row * DT.datetime))
      (o : Agg.row) :
  In o (Agg.process_group rows) ->
  exists r d,
    In (r, d) rows
    /\ (exists c, o = Agg.new_row r d c)
    /\ G o = AggView.qsum f (filter (AggView.up_to d) rows).
Proof.
  unfold Agg.process_group. intros Hin.
  destruct (loop_cumulative (sort_by_date snd rows) (sort_by_date snd rows) []
              Agg.init eq_refl (sort_by_date_sorted snd rows))
    with (o := o) as (r & d & Hrd & Hc & Hg).
  - unfold AggView.running. simpl. split; [reflexivity | exact F_zero].
  - exact Hin.
  - exists r, d. split; [apply sort_by_date_In in Hrd; exact Hrd|].
    split; [exact Hc|]. rewrite Hg. apply qsum_perm.
    apply stable_sort_perm.
Qed.

Lemma qsum_up_to_mono (rows : list (Matched.row * DT.datetime))
      (d1 d2 : DT.datetime) :
  (forall rd, In rd rows -> 0 <= f (fst rd)) ->
  DT.key d1 <= DT.key d2 ->
  AggView.qsum f (filter (AggView.up_to d1) rows)
  <= AggView.qsum f (filter (AggView.up_to d2) rows).
Proof.
  intros Hnn Hle. induction rows as [|rd rows IH]; simpl; [lia|].
  assert (IH' := IH (fun x Hx => Hnn x (or_intror Hx))).
  pose proof (Hnn rd (or_introl eq_refl)) as H0.
  destruct (AggView.up_to d1 rd) eqn:E1, (AggView.up_to d2 rd) eqn:E2;
    unfold AggView.up_to in E1, E2; simpl; lia.
Qed.
End RunningValue.

(** *** The groups *)

Lemma dict_set_In {K V : Type} `{EqbLaws K} (k k' : K) (v v' : V)
      (d : list (K * V)) :
  In (k', v') (Dict.set k v d) -> (k' = k /\ v' = v) \/ In (k', v') d.
Proof.
  induction d as [|[k0 v0] d IH]; simpl.
  - intros [[= <- <-] | []]. left. auto.
  - destruct (eqb k0 k) eqn:E; simpl.
    + apply eqb_iff in E. subst k0.
      intros [[= <- <-] | Hin]; [left; auto | right; right; exact Hin].
    + intros [Heq | Hin]; [right; left; exact Heq|].
      destruct (IH Hin) as [Hl | Hr]; [left; exact Hl | right; right; exact Hr].
Qed.


Lemma group_step_ok (matched_data : list Matched.row) acc (r : Matched.row) :
  In r matched_data ->
  AggView.grouped_ok matched_data (fst acc) ->
  AggView.grouped_ok matched_data (fst (Agg.group_step acc r)).
Proof.
  destruct acc as [g lg]. intros Hr [Hnd Hall]. unfold Agg.group_step.
  destruct (DT.strptime (Matched.Date r)) as [d|] eqn:P; simpl.
  - split; [apply dict_set_NoDup, Hnd|].
    intros k rows Hin rd Hrd. apply dict_set_In in Hin.
    destruct Hin as [[-> ->] | Hin].
    + apply in_app_or in Hrd. destruct Hrd as [Hrd | [<- | []]].
      * destruct (Dict.get (Agg.key_of r) g) as [rows0|] eqn:Hg;
          [|destruct Hrd].
        apply dict_get_In in Hg. apply (Hall _ _ Hg rd Hrd).
      * simpl. auto.
    + apply (Hall _ _ Hin rd Hrd).
  - split; assumption.
Qed.

Lemma group_fold_ok (matched_data l : list Matched.row) acc :
  (forall r, In r l -> In r matched_data) ->
  AggView.grouped_ok matched_data (fst acc) ->
  AggView.grouped_ok matched_data (fst (fold_left Agg.group_step l acc)).
Proof.
  revert acc. induction l as [|r l IH]; intros acc Hsub Hok; simpl.
  - exact Hok.
  - apply IH.
    + intros x Hx. apply Hsub. right. exact Hx.
    + apply group_step_ok; [apply Hsub; left; reflexivity | exact Hok].
Qed.

Lemma group_ok (matched_data : list Matched.row) :
  AggView.grouped_ok matched_data (fst (Agg.group matched_data)).
Proof.
  unfold Agg.group. apply group_fold_ok.
  - auto.
  - split; [constructor | intros k rows []].
Qed.

(** *** The ten running values *)

Lemma planned_zero (s : stage) : Agg.planned s Agg.zero = 0.
Proof. destruct s; reflexivity. Qed.

Lemma planned_add (s : stage) a b :
  Agg.planned s (Agg.add a b) = Agg.planned s a + Agg.planned s b.
Proof. destruct s; reflexivity. Qed.

Lemma planned_of_row (s : stage) r :
  Agg.planned s (Agg.of_row r) = Matched.planned s r.
Proof. destruct s; reflexivity. Qed.

Lemma planned_new_row (s : stage) r d c :
  Agg.cumulative_planned s (Agg.new_row r d c) = Agg.planned s c.
Proof. destruct s; reflexivity. Qed.

Lemma actual_zero (s : stage) : Agg.actual s Agg.zero = 0.
Proof. destruct s; reflexivity. Qed.

Lemma actual_add (s : stage) a b :
  Agg.actual s (Agg.add a b) = Agg.actual s a + Agg.actual s b.
Proof. destruct s; reflexivity. Qed.

Lemma actual_of_row (s : stage) r :
  Agg.actual s (Agg.of_row r) = Matched.actual s r.
Proof. destruct s; reflexivity. Qed.

Lemma actual_new_row (s : stage) r d c :
  Agg.cumulative_actual s (Agg.new_row r d c) = Agg.actual s c.
Proof. destruct s; reflexivity. Qed.

(** *** The output rows and their cumulative columns *)

(** An output row belongs to a group of the input; it carries the key
    of the group and a date that parses, and its cumulative columns are
    the sums of the day quantities of the group up to that date. *)
Lemma agg_row_cumulative (matched_data : list Matched.row) (o : Agg.row) :
  In o (Agg.add_cumulative_columns_to_matched_dict matched_data) ->
  exists rows d,
    In (AggView.group_of o, rows) (fst (Agg.group matched_data))
    /\ DT.strptime (Agg.Date o) = Some d
    /\ forall s,
         Agg.cumulative_planned s o
         = AggView.qsum (Matched.planned s) (filter (AggView.up_to d) rows)
         /\ Agg.cumulative_actual s o
            = AggView.qsum (Matched.actual s) (filter (AggView.up_to d) rows).
Proof.
  intros Hin. apply agg_output_In, agg_result_rows_In in Hin.
  destruct Hin as ([k rows] & Hg & Hin). simpl in Hin.
  destruct (group_ok matched_data) as [_ Hall].
  assert (Hshape : exists r d c, In (r, d) rows /\ o = Agg.new_row r d c).
  { unfold Agg.process_group in Hin. apply agg_loop_In in Hin.
    destruct Hin as (r & d & c & Hrd & ->).
    apply sort_by_date_In in Hrd. eauto. }
  destruct Hshape as (r & d & c & Hrd & Ho).
  destruct (Hall k rows Hg (r, d) Hrd) as (Hk & Hp & _). simpl in Hk, Hp.
  exists rows, d. split; [|split].
  - subst o. unfold AggView.group_of. simpl.
    unfold Agg.key_of in Hk. rewrite Hk. exact Hg.
  - subst o. simpl. exact Hp.
  - intros s. split.
    + destruct (process_group_cumulative
                  (Agg.planned s) (Matched.planned s)
                  (planned_zero s) (planned_add s) (planned_of_row s)
                  (Agg.cumulative_planned s) (planned_new_row s) rows o Hin)
        as (r' & d' & Hrd' & (c' & Ho') & Hsum).
      destruct (Hall k rows Hg (r', d') Hrd') as (_ & Hp' & _).
      simpl in Hp'. rewrite Ho in Ho'.
      assert (Hd : Matched.Date r = Matched.Date r')
        by (apply (f_equal Agg.Date) in Ho'; exact Ho').
      rewrite <- Hd, Hp in Hp'. injection Hp' as <-. exact Hsum.
    + destruct (process_group_cumulative
                  (Agg.actual s) (Matched.actual s)
                  (actual_zero s) (actual_add s) (actual_of_row s)
                  (Agg.cumulative_actual s) (actual_new_row s) rows o Hin)
        as (r' & d' & Hrd' & (c' & Ho') & Hsum).
      destruct (Hall k rows Hg (r', d') Hrd') as (_ & Hp' & _).
      simpl in Hp'. rewrite Ho in Ho'.
      assert (Hd : Matched.Date r = Matched.Date r')
        by (apply (f_equal Agg.Date) in Ho'; exact Ho').
      rewrite <- Hd, Hp in Hp'. injection Hp' as <-. exact Hsum.
Qed.

(** *** Neighbouring rows of the sorted output *)

Section Neighbours.
Context {A : Type} (le : A -> A -> bool).
Hypothesis le_total : forall a b, le a b = false -> le b a = true.

Let R (a b : A) : Prop := le a b = true.

Lemma insert_locally_sorted (x : A) (l : list A) :
  LocallySorted R l -> LocallySorted R (insert_sorted le x l).
Proof.
  induction 1 as [|y|y z l Hs IH Hyz]; simpl.
  - constructor.
  - destruct (le x y) eqn:E.
    + constructor; [constructor | exact E].
    + constructor; [constructor | apply le_total, E].
  - destruct (le x y) eqn:E.
    + constructor; [constructor; assumption | exact E].
    + simpl in IH. destruct (le x z) eqn:E'.
      * constructor; [exact IH | apply le_total, E].
      * constructor; [exact IH | exact Hyz].
Qed.

Lemma stable_sort_locally_sorted (l : list A) :
  LocallySorted R (stable_sort le l).
Proof.
  induction l as [|x l IH]; simpl.
  - constructor.
  - apply insert_locally_sorted, IH.
Qed.

Lemma locally_sorted_neighbours (l1 l2 : list A) (a b : A) :
  LocallySorted R (l1 ++ a :: b :: l2) -> le a b = true.
Proof.
  induction l1 as [|x l1 IH]; simpl; intros Hs.
  - inversion Hs. assumption.
  - apply IH. inversion Hs as [| |? ? ? Hs' ?].
    + destruct l1; discriminate.
    + assumption.
Qed.
End Neighbours.

Lemma string_compare_refl (s : string) : String.compare s s = Eq.
Proof.
  induction s as [|a s IH]; simpl; [reflexivity|].
  assert (Ha : Ascii.compare a a = Eq)
    by (unfold Ascii.compare; apply N.compare_refl).
  rewrite Ha. exact IH.
Qed.

Lemma final_leb_total (a b : Agg.row) :
  Agg.final_leb a b = false -> Agg.final_leb b a = true.
Proof.
  unfold Agg.final_leb.
  rewrite (String.compare_antisym (Agg.Style_No a) (Agg.Style_No b)).
  rewrite (String.compare_antisym (Agg.PO a) (Agg.PO b)).
  rewrite (String.compare_antisym (Agg.Colour a) (Agg.Colour b)).
  destruct (String.compare (Agg.Style_No b) (Agg.Style_No a)); simpl;
    try congruence.
  destruct (String.compare (Agg.PO b) (Agg.PO a)); simpl; try congruence.
  destruct (String.compare (Agg.Colour b) (Agg.Colour a)); simpl;
    try congruence.
  destruct (DT.strptime (Agg.Date a)), (DT.strptime (Agg.Date b));
    try congruence.
  unfold DT.leb. intros H. apply Z.leb_gt in H. apply Z.leb_le. lia.
Qed.

Lemma final_leb_same_group (a b : Agg.row) da db :
  AggView.group_of a = AggView.group_of b ->
  DT.strptime (Agg.Date a) = Some da ->
  DT.strptime (Agg.Date b) = Some db ->
  Agg.final_leb a b = true -> DT.leb da db = true.
Proof.
  unfold AggView.group_of, Agg.final_leb. intros [= -> -> ->] -> ->.
  rewrite !string_compare_refl. auto.
Qed.

(** Two output rows of one group, the first dated no later than the
    second: same group of input rows behind both. *)
Lemma agg_rows_same_group (matched_data : list Matched.row)
      (o1 o2 : Agg.row) d1 d2 :
  In o1 (Agg.add_cumulative_columns_to_matched_dict matched_data) ->
  In o2 (Agg.add_cumulative_columns_to_matched_dict matched_data) ->
  AggView.group_of o1 = AggView.group_of o2 ->
  DT.strptime (Agg.Date o1) = Some d1 ->
  DT.strptime (Agg.Date o2) = Some d2 ->
  exists rows,
    (forall rd, In rd rows -> In (fst rd) matched_data)
    /\ forall s,
         Agg.cumulative_planned s o1
         = AggView.qsum (Matched.planned s) (filter (AggView.up_to d1) rows)
         /\ Agg.cumulative_planned s o2
            = AggView.qsum (Matched.planned s) (filter (AggView.up_to d2) rows)
         /\ Agg.cumulative_actual s o1
            = AggView.qsum (Matched.actual s) (filter (AggView.up_to d1) rows)
         /\ Agg.cumulative_actual s o2
            = AggView.qsum (Matched.actual s) (filter (AggView.up_to d2) rows).
Proof.
  intros H1 H2 Hg Hd1 Hd2.
  destruct (agg_row_cumulative matched_data o1 H1) as (rows1 & d1' & Hg1 & Hp1 & Hc1).
  destruct (agg_row_cumulative matched_data o2 H2) as (rows2 & d2' & Hg2 & Hp2 & Hc2).
  rewrite Hd1 in Hp1. injection Hp1 as <-.
  rewrite Hd2 in Hp2. injection Hp2 as <-.
  destruct (group_ok matched_data) as [Hnd Hall].
  rewrite <- Hg in Hg2.
  apply (dict_In_get _ _ _ Hnd) in Hg2.
  pose proof (dict_In_get _ _ _ Hnd Hg1) as Hg1'.
  rewrite Hg1' in Hg2. injection Hg2 as <-.
  exists rows1. split.
  - intros rd Hrd. apply (Hall _ _ Hg1 rd Hrd).
  - intros s. destruct (Hc1 s) as [? ?], (Hc2 s) as [? ?]. auto.
Qed.

(** C6 (amended): when no planned day quantity of a stage is negative
    in the input rows, the cumulative planned total of that stage is
    non-decreasing within every (style, PO, colour) group taken in
    ascending date order, and likewise for the actual totals when no
    actual day quantity of the stage is negative; neighbouring output
    rows of one group are in ascending date order, so the totals do not
    decrease from row to row. *)
Theorem C6_cumulative_totals_non_decreasing
        (matched_data : list Matched.row) (s : stage) :
  let out := Agg.add_cumulative_columns_to_matched_dict matched_data in
  ((forall r, In r matched_data -> 0 <= Matched.planned s r) ->
   forall o1 o2, AggView.in_date_order out o1 o2 ->
     Agg.cumulative_planned s o1 <= Agg.cumulative_planned s o2)
  /\ ((forall r, In r matched_data -> 0 <= Matched.actual s r) ->
      forall o1 o2, AggView.in_date_order out o1 o2 ->
        Agg.cumulative_actual s o1 <= Agg.cumulative_actual s o2)
  /\ (forall l1 o1 o2 l2,
         out = l1 ++ o1 :: o2 :: l2 ->
         AggView.group_of o1 = AggView.group_of o2 ->
         AggView.in_date_order out o1 o2).
Proof.
  intros out. unfold AggView.in_date_order.
  split; [|split].
  - intros Hnn o1 o2 (H1 & H2 & Hg & d1 & d2 & Hd1 & Hd2 & Hle).
    destruct (agg_rows_same_group matched_data o1 o2 d1 d2 H1 H2 Hg Hd1 Hd2)
      as (rows & Hsub & Hsum).
    destruct (Hsum s) as (-> & -> & _ & _).
    apply qsum_up_to_mono.
    + intros rd Hrd. apply Hnn, Hsub, Hrd.
    + unfold DT.leb in Hle. apply Z.leb_le. exact Hle.
  - intros Hnn o1 o2 (H1 & H2 & Hg & d1 & d2 & Hd1 & Hd2 & Hle).
    destruct (agg_rows_same_group matched_data o1 o2 d1 d2 H1 H2 Hg Hd1 Hd2)
      as (rows & Hsub & Hsum).
    destruct (Hsum s) as (_ & _ & -> & ->).
    apply qsum_up_to_mono.
    + intros rd Hrd. apply Hnn, Hsub, Hrd.
    + unfold DT.leb in Hle. apply Z.leb_le. exact Hle.
  - intros l1 o1 o2 l2 Hout Hg.
    assert (H1 : In o1 out)
      by (rewrite Hout; apply in_or_app; right; left; reflexivity).
    assert (H2 : In o2 out)
      by (rewrite Hout; apply in_or_app; right; right; left; reflexivity).
    destruct (agg_row_cumulative matched_data o1 H1) as (_ & d1 & _ & Hd1 & _).
    destruct (agg_row_cumulative matched_data o2 H2) as (_ & d2 & _ & Hd2 & _).
    repeat split; try assumption.
    exists d1, d2. repeat split; try assumption.
    apply (final_leb_same_group o1 o2 d1 d2 Hg Hd1 Hd2).
    apply (locally_sorted_neighbours Agg.final_leb l1 l2).
    rewrite <- Hout. unfold out, Agg.add_cumulative_columns_to_matched_dict.
    destruct matched_data; [constructor|].
    apply stable_sort_locally_sorted. exact final_leb_total.
Qed.

(** The two days of the specification's sample: cumulative actual
    cutting 30 on the first day, 55 on the second. *)
Lemma C6_witness :
  Agg.cumulative_actual Cutting
    (nth 0 (Agg.add_cumulative_columns_to_matched_dict SampleAgg.two_days)
         AggView.no_row)
  <= Agg.cumulative_actual Cutting
       (nth 1 (Agg.add_cumulative_columns_to_matched_dict SampleAgg.two_days)
            AggView.no_row).
Proof.
  refine (proj1 (proj2 (C6_cumulative_totals_non_decreasing
                          SampleAgg.two_days Cutting)) _ _ _ _).
  - intros r [<- | [<- | []]]; vm_compute; discriminate.
  - split; [vm_compute; left; reflexivity|].
    split; [vm_compute; right; left; reflexivity|].
    split; [vm_compute; reflexivity|].
    exists (DT.mk 2025 1 1), (DT.mk 2025 1 2).
    repeat split; vm_compute; reflexivity.
Defined.

(** C6 as stated fails: with planned cutting 5 on 1 January and -3 on
    2 January (plan ingestion keeps negative plan quantities) the
    cumulative planned cutting of the lot goes from 5 down to 2. *)
Lemma C6_counterexample :
  map (fun o => (Agg.Date o, Agg.cumulative_planned Cutting o))
      (Agg.add_cumulative_columns_to_matched_dict AggView.negative_plan)
  = [("01/Jan/25", 5); ("02/Jan/25", 2)]
  /\ AggView.in_date_order
       (Agg.add_cumulative_columns_to_matched_dict AggView.negative_plan)
       (nth 0 (Agg.add_cumulative_columns_to_matched_dict AggView.negative_plan)
            AggView.no_row)
       (nth 1 (Agg.add_cumulative_columns_to_matched_dict AggView.negative_plan)
            AggView.no_row)
  /\ ~ (Agg.cumulative_planned Cutting
          (nth 0 (Agg.add_cumulative_columns_to_matched_dict
                    AggView.negative_plan) AggView.no_row)
        <= Agg.cumulative_planned Cutting
             (nth 1 (Agg.add_cumulative_columns_to_matched_dict
                       AggView.negative_plan) AggView.no_row)).
Proof.
  split; [vm_compute; reflexivity|]. split.
  - split; [vm_compute; left; reflexivity|].
    split; [vm_compute; right; left; reflexivity|].
    split; [vm_compute; reflexivity|].
    exists (DT.mk 2025 1 1), (DT.mk 2025 1 2).
    repeat split; vm_compute; reflexivity.
  - vm_compute. intros H. apply H. reflexivity.
Qed.

(** ** Dates: the text the ingestion writes always parses *)

Lemma range_In (n : nat) (z : Z) :
  0 <= z < Z.of_nat n -> In z (DateView.range n).
Proof.
  intros Hz. unfold DateView.range. apply in_map_iff.
  exists (Z.to_nat z). split; [lia|]. apply in_seq. lia.
Qed.

(** The round trip, checked on every two-digit year, month and day of
    month. *)
Lemma round_trip_table_ok :
  forallb
    (fun yy =>
       forallb
         (fun m =>
            forallb (fun d => DateView.round_trip_ok yy (m + 1) (d + 1))
                    (DateView.range 31))
         (DateView.range 12))
    (DateView.range 100)
  = true.
Proof. vm_compute. reflexivity. Qed.

(** Leap years of a 400-year cycle stay leap years after the pivot. *)
Lemma leap_table_ok :
  forallb (fun y => implb (DT.is_leap y)
                          (DT.is_leap (DateView.pivot (y mod 100))))
          (DateView.range 400)
  = true.
Proof. vm_compute. reflexivity. Qed.

Lemma round_trip_cell (yy mm dd : Z) :
  0 <= yy < 100 -> 1 <= mm <= 12 -> 1 <= dd <= 31 ->
  DateView.round_trip_ok yy mm dd = true.
Proof.
  intros Hy Hm Hd.
  pose proof (proj1 (forallb_forall _ _) round_trip_table_ok
                yy (range_In 100 yy Hy)) as T1.
  pose proof (proj1 (forallb_forall _ _) T1
                (mm - 1) (range_In 12 (mm - 1) ltac:(lia))) as T2.
  pose proof (proj1 (forallb_forall _ _) T2
                (dd - 1) (range_In 31 (dd - 1) ltac:(lia))) as T3.
  replace (mm - 1 + 1) with mm in T3 by lia.
  replace (dd - 1 + 1) with dd in T3 by lia. exact T3.
Qed.

Lemma is_leap_mod_400 (y : Z) : DT.is_leap (y mod 400) = DT.is_leap y.
Proof.
  unfold DT.is_leap.
  rewrite (Z.mod_mod_divide y 400 4) by (exists 100; reflexivity).
  rewrite (Z.mod_mod_divide y 400 100) by (exists 4; reflexivity).
  rewrite Z.mod_mod by lia. reflexivity.
Qed.

Lemma is_leap_pivot (y : Z) :
  DT.is_leap y = true -> DT.is_leap (DateView.pivot (y mod 100)) = true.
Proof.
  intros Hl.
  assert (Hr : 0 <= y mod 400 < Z.of_nat 400) by (apply Z.mod_pos_bound; lia).
  pose proof (proj1 (forallb_forall _ _) leap_table_ok
                (y mod 400) (range_In 400 _ Hr)) as T. cbv beta in T.
  rewrite is_leap_mod_400, Hl in T. simpl in T.
  rewrite (Z.mod_mod_divide y 400 100) in T by (exists 4; reflexivity).
  exact T.
Qed.

Lemma strftime_year (y m d : Z) :
  DT.strftime (DT.mk y m d) = DT.strftime (DT.mk (y mod 100) m d).
Proof. unfold DT.strftime. simpl. rewrite Z.mod_mod by lia. reflexivity. Qed.

Lemma days_in_month_bounds (y m : Z) : 28 <= DT.days_in_month y m <= 31.
Proof.
  unfold DT.days_in_month.
  destruct (m =? 2); [destruct (DT.is_leap y); lia|].
  destruct ((m =? 4) || (m =? 6) || (m =? 9) || (m =? 11)); lia.
Qed.

(** A valid date, written with ['%d/%b/%y'], reads back as a date with
    the same day and month and a year with the same two last digits. *)
Lemma strptime_strftime (d : DT.datetime) :
  DT.valid d = true ->
  exists d',
    DT.strptime (DT.strftime d) = Some d'
    /\ DT.day d' = DT.day d /\ DT.month d' = DT.month d
    /\ DT.year d' = DateView.pivot (DT.year d mod 100).
Proof.
  destruct d as [y m dd]. unfold DT.valid. simpl.
  rewrite !andb_true_iff, !Z.leb_le.
  intros (((((Hy1 & Hy2) & Hm1) & Hm2) & Hd1) & Hd2).
  pose proof (days_in_month_bounds y m) as Hb.
  assert (Hyy : 0 <= y mod 100 < 100) by (apply Z.mod_pos_bound; lia).
  pose proof (round_trip_cell (y mod 100) m dd Hyy
                ltac:(lia) ltac:(lia)) as T.
  unfold DateView.round_trip_ok in T. rewrite <- strftime_year in T.
  destruct (DT.strptime (DT.strftime (DT.mk y m dd))) as [d'|].
  - rewrite !andb_true_iff, !Z.eqb_eq in T.
    destruct T as (((T1 & T2) & T3) & _). exists d'. auto.
  - exfalso. apply Z.ltb_lt in T.
    assert (Hdim : DT.days_in_month y m
                   <= DT.days_in_month (DateView.pivot (y mod 100)) m).
    { unfold DT.days_in_month. destruct (m =? 2); [|apply Z.le_refl].
      destruct (DT.is_leap y) eqn:L.
      - rewrite (is_leap_pivot y L). lia.
      - destruct (DT.is_leap (DateView.pivot (y mod 100))); lia. }
    lia.
Qed.

Lemma replace_year_valid d y d' :
  DT.replace_year d y = Some d' -> DT.valid d' = true.
Proof.
  unfold DT.replace_year.
  destruct (DT.valid (DT.mk y (DT.month d) (DT.day d))) eqn:V; [|discriminate].
  intros [= <-]. exact V.
Qed.

Lemma resolve_date_valid df index parsed_dates v d msgs :
  (forall d0, Cell.parse_date v = Some d0 -> DT.valid d0 = true) ->
  PlanIngest.resolve_date df index parsed_dates v
  = (PlanIngest.DateAccepted d, msgs) ->
  DT.valid d = true.
Proof.
  intros Hv. unfold PlanIngest.resolve_date.
  destruct (Cell.parse_date v) as [d0|]; [|discriminate].
  destruct (PlanIngest.suspicious d0).
  - destruct (PlanIngest.chosen_year _ _) as [[y src]|]; [|discriminate].
    destruct (DT.replace_year d0 y) as [c|] eqn:R; [|discriminate].
    intros [= <- _]. apply (replace_year_valid _ _ _ R).
  - intros [= <- _]. apply Hv. reflexivity.
Qed.

Lemma plan_step_dates_parse style_number df last_non_blank st index row :
  (forall d, Cell.parse_date (PlanIngest.date_value row) = Some d ->
             DT.valid d = true) ->
  IngestView.plan_dates_parse st ->
  IngestView.plan_dates_parse
    (PlanIngest.step style_number df last_non_blank st index row).
Proof.
  intros Hv Hst. unfold PlanIngest.step.
  destruct (PlanIngest.main_columns_blank row).
  { destruct (last_non_blank <? Z.of_nat index); exact Hst. }
  destruct (Cell.date_isna (PlanIngest.date_value row)); [exact Hst|].
  destruct (PlanIngest.resolve_date df index
              (PlanIngest.parsed_dates_with_indices st)
              (PlanIngest.date_value row)) as [[d|] msgs] eqn:R;
    [|exact Hst].
  intros r Hr. cbn [PlanIngest.result_list] in Hr.
  apply in_app_or in Hr. destruct Hr as [Hr | [<- | []]]; [apply Hst, Hr|].
  cbn [Plan.Date].
  destruct (strptime_strftime d (resolve_date_valid _ _ _ _ _ _ Hv R))
    as (d' & -> & _). discriminate.
Qed.

Lemma plan_loop_dates_parse style_number df last_non_blank todo st index :
  (forall row, In row todo ->
     forall d, Cell.parse_date (PlanIngest.date_value row) = Some d ->
               DT.valid d = true) ->
  IngestView.plan_dates_parse st ->
  IngestView.plan_dates_parse
    (PlanIngest.loop style_number df last_non_blank st index todo).
Proof.
  revert st index. induction todo as [|row todo IH]; intros st index Hv Hst;
    simpl.
  - exact Hst.
  - apply IH.
    + intros r Hr. apply Hv. right. exact Hr.
    + apply plan_step_dates_parse; [apply Hv; left; reflexivity | exact Hst].
Qed.

(** The plan rows of the ingestion carry dates that parse, provided the
    date cells hold calendar dates (as every [datetime] object does). *)
Lemma plan_ingestion_dates_parse (df : list PlanIngest.raw_row)
      (style_number : string) :
  (forall row, In row df ->
     forall d, Cell.parse_date (PlanIngest.date_value row) = Some d ->
               DT.valid d = true) ->
  forall r, In r (PlanIngest.get_row_wise_data_from_plan df style_number) ->
            DT.strptime (Plan.Date r) <> None.
Proof.
  intros Hv. unfold PlanIngest.get_row_wise_data_from_plan, PlanIngest.run.
  apply plan_loop_dates_parse; [exact Hv | intros r []].
Qed.

(** On the plan rows of the ingestion the matcher returns exactly the
    plan keys of the style. *)
Lemma pipeline_matched_keys (df : list PlanIngest.raw_row)
      (daily_prod_data : list Actual.row) (style_number : string)
      (k : Match.combo_key) :
  (forall row, In row df ->
     forall d, Cell.parse_date (PlanIngest.date_value row) = Some d ->
               DT.valid d = true) ->
  In k (map MatchView.key_of
          (Match.match_plan_with_actual
             (PlanIngest.get_row_wise_data_from_plan df style_number)
             daily_prod_data style_number))
  <-> In k (map Match.plan_key
              (Match.plan_for_style
                 (PlanIngest.get_row_wise_data_from_plan df style_number)
                 style_number)).
Proof.
  intros Hv. rewrite match_keys, in_map_iff. split.
  - intros [(p & Hp & Hk) _]. exists p. auto.
  - intros (p & Hk & Hp). split; [exists p; auto|].
    exists (Plan.Date p). split.
    + apply (plan_ingestion_dates_parse df style_number Hv).
      apply filter_In in Hp. apply Hp.
    + left. exists p. auto.
Qed.

(** *** The model of [datetime] comparison *)

Lemma parse_after_day_valid dd l d :
  DT.parse_after_day dd l = Some d -> DT.valid d = true.
Proof.
  unfold DT.parse_after_day.
  do 8 (destruct l as [|? l]; try discriminate).
  destruct (_ && _ && _ && _); [|discriminate].
  destruct (DT.month_index _ _ _) as [mm|]; [|discriminate].
  match goal with
  | |- (if DT.valid ?x then _ else _) = _ -> _ =>
      destruct (DT.valid x) eqn:V; [|discriminate]
  end.
  intros [= <-]. exact V.
Qed.

Lemma strptime_valid (s : string) (d : DT.datetime) :
  DT.strptime s = Some d -> DT.valid d = true.
Proof.
  unfold DT.strptime. generalize (DT.day_alternatives (list_ascii_of_string s)).
  intros alts. induction alts as [|[dd r] alts IH]; simpl; [discriminate|].
  destruct (DT.parse_after_day dd r) as [d0|] eqn:P.
  - intros [= <-]. apply (parse_after_day_valid _ _ _ P).
  - exact IH.
Qed.

(** On calendar dates the key orders as [datetime] objects compare:
    year first, then month, then day; equal keys are equal dates. *)
Lemma key_order (a b : DT.datetime) :
  DT.valid a = true -> DT.valid b = true ->
  (DT.key a <= DT.key b
   <-> DT.year a < DT.year b
       \/ (DT.year a = DT.year b
           /\ (DT.month a < DT.month b
               \/ (DT.month a = DT.month b /\ DT.day a <= DT.day b))))
  /\ (DT.key a = DT.key b -> a = b).
Proof.
  destruct a as [y m d], b as [y' m' d']. unfold DT.valid, DT.key. simpl.
  rewrite !andb_true_iff, !Z.leb_le.
  intros (((((? & ?) & ?) & ?) & ?) & ?) (((((? & ?) & ?) & ?) & ?) & ?).
  pose proof (days_in_month_bounds y m). pose proof (days_in_month_bounds y' m').
  split; [lia|]. intros Hk.
  assert (y = y') by lia. assert (m = m') by lia. assert (d = d') by lia.
  congruence.
Qed.

(* ================================================================== *)
(** * Part III. Further properties of the stages                        *)
(* ================================================================== *)

(** ** The pruner as a filter *)

(** X1: [delete_empty_rows] returns, in input order, exactly the rows
    whose ten quantities do not sum to zero; running it on its own
    output changes nothing. *)
Theorem X1_delete_empty_rows_is_an_idempotent_filter
        (matched_data : list Matched.row) :
  Prune.delete_empty_rows matched_data
  = filter (fun r => negb (Prune.total_quantity r =? 0)) matched_data
  /\ Prune.delete_empty_rows (Prune.delete_empty_rows matched_data)
     = Prune.delete_empty_rows matched_data
  /\ (List.length (Prune.delete_empty_rows matched_data)
      <= List.length matched_data)%nat.
Proof.
  split; [apply delete_empty_rows_filter|]. split.
  - rewrite !delete_empty_rows_filter.
    induction matched_data as [|r l IH]; simpl; [reflexivity|].
    destruct (negb (Prune.total_quantity r =? 0)) eqn:E; simpl.
    + rewrite E, IH. reflexivity.
    + exact IH.
  - rewrite delete_empty_rows_filter. apply filter_length_le.
Qed.

(** ** Actual ingestion: quantities are never negative *)

Lemma int_of_non_negative (q : Q) :
  Qle_bool 0 q = true -> 0 <= Cell.int_of q.
Proof.
  intros H. apply Qle_bool_iff in H. unfold Qle in H. simpl in H.
  unfold Cell.int_of. apply Z.quot_pos; lia.
Qed.

Lemma round_non_negative (q : Q) :
  Qle_bool 0 q = true -> 0 <= Cell.round q.
Proof.
  intros H. apply Qle_bool_iff in H.
  pose proof (Qfloor_resp_le _ _ H) as Hf.
  change (Qfloor 0) with 0 in Hf.
  unfold Cell.round.
  destruct (Qcompare _ _); [destruct (Z.even _)| |]; lia.
Qed.

Lemma actual_process_quantity_non_negative sheet_name n v col_letter name :
  0 <= fst (ActualIngest.process_quantity sheet_name n v col_letter name).
Proof.
  unfold ActualIngest.process_quantity. destruct v as [|q|]; simpl; try lia.
  destruct (Qle_bool 0 q) eqn:E; [|simpl; lia].
  destruct (Cell.is_whole q); simpl.
  - apply int_of_non_negative, E.
  - apply round_non_negative, E.
Qed.

Lemma actual_step_rows sheet_name d last_non_blank st index row
      (P : Actual.row -> Prop) :
  (forall r,
      Actual.Source_Sheet r = sheet_name ->
      Actual.Date r = DT.strftime d ->
      (forall s, 0 <= Actual.actual s r) ->
      (exists n, Actual.Order_Quantity r = Some n /\ 0 <= n) ->
      P r) ->
  (forall r, In r (ActualIngest.result_list st) -> P r) ->
  forall r,
    In r (ActualIngest.result_list
            (ActualIngest.step sheet_name d last_non_blank st index row)) ->
    P r.
Proof.
  intros Hnew Hold r. unfold ActualIngest.step.
  destruct (ActualIngest.main_columns_blank row).
  { destruct (last_non_blank <? Z.of_nat index); apply Hold. }
  cbn [ActualIngest.result_list]. intros Hin. apply in_app_or in Hin.
  destruct Hin as [Hin | [<- | []]]; [apply Hold, Hin|].
  apply Hnew; try reflexivity.
  - intros s. destruct s; cbn; apply actual_process_quantity_non_negative.
  - eexists. split; [reflexivity|]. apply actual_process_quantity_non_negative.
Qed.

Lemma actual_row_loop_rows sheet_name d last_non_blank todo st index
      (P : Actual.row -> Prop) :
  (forall r,
      Actual.Source_Sheet r = sheet_name ->
      Actual.Date r = DT.strftime d ->
      (forall s, 0 <= Actual.actual s r) ->
      (exists n, Actual.Order_Quantity r = Some n /\ 0 <= n) ->
      P r) ->
  (forall r, In r (ActualIngest.result_list st) -> P r) ->
  forall r,
    In r (ActualIngest.result_list
            (ActualIngest.row_loop sheet_name d last_non_blank st index todo)) ->
    P r.
Proof.
  intros Hnew. revert st index.
  induction todo as [|row todo IH]; intros st index Hold; simpl.
  - exact Hold.
  - apply IH. apply actual_step_rows; assumption.
Qed.

(** What holds of a row of the daily-production ingestion. *)
Lemma actual_rows_ok (sheets : list ActualIngest.sheet) (r : Actual.row) :
  In r (ActualIngest.get_row_wise_data_from_daily_prod sheets) ->
  (forall s, 0 <= Actual.actual s r)
  /\ (exists n, Actual.Order_Quantity r = Some n /\ 0 <= n)
  /\ exists sh d,
       In sh sheets
       /\ ActualIngest.sheet_date_parsed sh = Some d
       /\ Actual.Source_Sheet r = ActualIngest.sheet_name sh
       /\ Actual.Date r = DT.strftime d.
Proof.
  unfold ActualIngest.get_row_wise_data_from_daily_prod, ActualIngest.run.
  set (P := fun (l : list ActualIngest.sheet) (r : Actual.row) =>
              (forall s, 0 <= Actual.actual s r)
              /\ (exists n, Actual.Order_Quantity r = Some n /\ 0 <= n)
              /\ exists sh d,
                   In sh l
                   /\ ActualIngest.sheet_date_parsed sh = Some d
                   /\ Actual.Source_Sheet r = ActualIngest.sheet_name sh
                   /\ Actual.Date r = DT.strftime d).
  change (In r (ActualIngest.result_list
                  (fold_left ActualIngest.sheet_step sheets ActualIngest.init))
          -> P sheets r).
  assert (Hgen : forall todo st,
             (forall x, In x todo -> In x sheets) ->
             (forall r, In r (ActualIngest.result_list st) -> P sheets r) ->
             forall r,
               In r (ActualIngest.result_list
                       (fold_left ActualIngest.sheet_step todo st)) ->
               P sheets r).
  { induction todo as [|sh todo IH]; intros st Hsub Hold; simpl.
    - exact Hold.
    - apply IH; [intros x Hx; apply Hsub; right; exact Hx|].
      unfold ActualIngest.sheet_step.
      destruct (ActualIngest.sheet_date_parsed sh) as [d|] eqn:Hd;
        [|exact Hold].
      destruct (ActualIngest.table sh) as [| |rows]; try exact Hold.
      apply actual_row_loop_rows; [|exact Hold].
      intros r0 Hs Hdate Hq Ho. unfold P. split; [exact Hq|].
      split; [exact Ho|]. exists sh, d.
      split; [apply Hsub; left; reflexivity|]. auto. }
  apply Hgen; [auto | intros r0 []].
Qed.

(** X2: every row returned by [get_row_wise_data_from_daily_prod] has
    non-negative stage quantities and a non-negative order quantity
    (negative cells are replaced by 0, others are truncated or rounded),
    and it comes from a sheet whose name parsed as a date, whose text
    ['%d/%b/%y'] is the row's date. *)
Theorem X2_actual_rows_are_non_negative_and_dated
        (sheets : list ActualIngest.sheet) (r : Actual.row) :
  In r (ActualIngest.get_row_wise_data_from_daily_prod sheets) ->
  (forall s, 0 <= Actual.actual s r)
  /\ (exists n, Actual.Order_Quantity r = Some n /\ 0 <= n)
  /\ exists sh d,
       In sh sheets
       /\ ActualIngest.sheet_date_parsed sh = Some d
       /\ Actual.Source_Sheet r = ActualIngest.sheet_name sh
       /\ Actual.Date r = DT.strftime d.
Proof. apply actual_rows_ok. Qed.

(** The default row of the examples. *)
Lemma X2_witness :
  0 <= Actual.actual Cutting
         (nth 0 (ActualIngest.get_row_wise_data_from_daily_prod
                   ActualView.two_sheets)
              (DaywiseView.cutting_row 1 0))
  /\ map (fun r => (Actual.actual Cutting r, Actual.actual Sewing r,
                    Actual.actual Washing r, Actual.actual Packing r))
         (ActualIngest.get_row_wise_data_from_daily_prod ActualView.two_sheets)
     = [(0, 2, 0, 7)].
Proof.
  split.
  - refine (proj1 (X2_actual_rows_are_non_negative_and_dated
                     ActualView.two_sheets _ _) Cutting).
    vm_compute. left. reflexivity.
  - vm_compute. reflexivity.
Defined.

(** ** Actual ingestion: sheets are processed independently *)

Lemma actual_append_init_l st : ActualView.append ActualIngest.init st = st.
Proof. destruct st. reflexivity. Qed.

Lemma actual_append_init_r st : ActualView.append st ActualIngest.init = st.
Proof.
  destruct st. unfold ActualView.append. simpl. rewrite !app_nil_r.
  reflexivity.
Qed.

Lemma actual_append_assoc a b c :
  ActualView.append (ActualView.append a b) c
  = ActualView.append a (ActualView.append b c).
Proof. unfold ActualView.append. simpl. rewrite <- !app_assoc. reflexivity. Qed.

Lemma actual_step_append sheet_name d last_non_blank st index row :
  ActualIngest.step sheet_name d last_non_blank st index row
  = ActualView.append st
      (ActualIngest.step sheet_name d last_non_blank ActualIngest.init index row).
Proof.
  unfold ActualIngest.step.
  destruct (ActualIngest.main_columns_blank row).
  - destruct (last_non_blank <? Z.of_nat index).
    + rewrite actual_append_init_r. reflexivity.
    + unfold ActualView.append. simpl. rewrite !app_nil_r. reflexivity.
  - unfold ActualView.append. simpl. rewrite !app_nil_r. reflexivity.
Qed.

Lemma actual_row_loop_append sheet_name d last_non_blank todo st index :
  ActualIngest.row_loop sheet_name d last_non_blank st index todo
  = ActualView.append st
      (ActualIngest.row_loop sheet_name d last_non_blank ActualIngest.init
                             index todo).
Proof.
  revert st index. induction todo as [|row todo IH]; intros st index; simpl.
  - rewrite actual_append_init_r. reflexivity.
  - rewrite IH, (IH (ActualIngest.step _ _ _ ActualIngest.init _ _)).
    rewrite (actual_step_append _ _ _ st), actual_append_assoc. reflexivity.
Qed.

Lemma actual_sheet_step_append st sh :
  ActualIngest.sheet_step st sh
  = ActualView.append st (ActualIngest.sheet_step ActualIngest.init sh).
Proof.
  unfold ActualIngest.sheet_step, ActualIngest.skip_sheet.
  destruct (ActualIngest.sheet_date_parsed sh) as [d|].
  - destruct (ActualIngest.table sh) as [| |rows].
    + unfold ActualView.append. simpl. rewrite !app_nil_r. reflexivity.
    + unfold ActualView.append. simpl. rewrite !app_nil_r. reflexivity.
    + apply actual_row_loop_append.
  - unfold ActualView.append. simpl. rewrite !app_nil_r. reflexivity.
Qed.

Lemma actual_fold_append todo st :
  fold_left ActualIngest.sheet_step todo st
  = ActualView.append st (fold_left ActualIngest.sheet_step todo ActualIngest.init).
Proof.
  revert st. induction todo as [|sh todo IH]; intros st; simpl.
  - rewrite actual_append_init_r. reflexivity.
  - rewrite IH, (IH (ActualIngest.sheet_step ActualIngest.init sh)).
    rewrite (actual_sheet_step_append st), actual_append_assoc. reflexivity.
Qed.

Lemma actual_run_app (l1 l2 : list ActualIngest.sheet) :
  ActualIngest.run (l1 ++ l2)
  = ActualView.append (ActualIngest.run l1) (ActualIngest.run l2).
Proof.
  unfold ActualIngest.run. rewrite fold_left_app. apply actual_fold_append.
Qed.

Lemma actual_skipped_sheets (sheets : list ActualIngest.sheet) :
  ActualIngest.skipped_sheets (ActualIngest.run sheets)
  = map ActualIngest.sheet_name
        (filter (fun sh => negb (ActualView.is_read sh)) sheets).
Proof.
  induction sheets as [|sh sheets IH].
  - reflexivity.
  - change (sh :: sheets) with ([sh] ++ sheets) at 1.
    rewrite actual_run_app. cbn [ActualView.append ActualIngest.skipped_sheets].
    rewrite IH. cbn [filter]. unfold ActualView.is_read at 2.
    unfold ActualIngest.run. cbn [fold_left].
    unfold ActualIngest.sheet_step, ActualIngest.skip_sheet.
    destruct (ActualIngest.sheet_date_parsed sh) as [d|]; [|reflexivity].
    destruct (ActualIngest.table sh) as [| |rows]; try reflexivity.
    cbn [negb].
    rewrite actual_row_loop_append. cbn [ActualView.append
      ActualIngest.skipped_sheets ActualIngest.init app].
    assert (Hnone : forall todo st index,
               ActualIngest.skipped_sheets st = [] ->
               ActualIngest.skipped_sheets
                 (ActualIngest.row_loop (ActualIngest.sheet_name sh) d
                    (ActualIngest.last_non_blank_from rows 0) st index todo)
               = []).
    { induction todo as [|row todo IHt]; intros st index Hst; simpl.
      - exact Hst.
      - apply IHt. unfold ActualIngest.step.
        destruct (ActualIngest.main_columns_blank row);
          [destruct (_ <? _)|]; exact Hst. }
    rewrite Hnone by reflexivity. reflexivity.
Qed.

(** X3: the daily-production ingestion treats the sheets independently:
    the rows, blank cells, skipped sheets, quantity warnings and
    messages of a workbook are those of its first sheets followed by
    those of the remaining sheets; and the sheets listed as skipped are
    exactly those whose name does not parse as a date or whose table
    cannot be read with its nine columns, in workbook order. *)
Theorem X3_daily_sheets_are_ingested_independently
        (l1 l2 : list ActualIngest.sheet) :
  ActualIngest.run (l1 ++ l2)
  = ActualView.append (ActualIngest.run l1) (ActualIngest.run l2)
  /\ ActualIngest.get_row_wise_data_from_daily_prod (l1 ++ l2)
     = ActualIngest.get_row_wise_data_from_daily_prod l1
       ++ ActualIngest.get_row_wise_data_from_daily_prod l2
  /\ ActualIngest.skipped_sheets (ActualIngest.run (l1 ++ l2))
     = map ActualIngest.sheet_name
           (filter (fun sh => negb (ActualView.is_read sh)) (l1 ++ l2)).
Proof.
  split; [apply actual_run_app|]. split.
  - unfold ActualIngest.get_row_wise_data_from_daily_prod.
    rewrite actual_run_app. reflexivity.
  - apply actual_skipped_sheets.
Qed.

(** ** Dates between the stages *)

Lemma pivot_range (yy : Z) :
  0 <= yy < 100 -> 1969 <= DateView.pivot yy <= 2068.
Proof. intros H. unfold DateView.pivot. destruct (yy <=? 68) eqn:E; lia. Qed.

Lemma pivot_fixed (y : Z) :
  1969 <= y <= 2068 -> DateView.pivot (y mod 100) = y.
Proof.
  intros H. unfold DateView.pivot.
  destruct (Z.le_gt_cases 2000 y).
  - replace (y mod 100) with (y - 2000)
      by (apply (Z.mod_unique y 100 20); lia).
    replace (y - 2000 <=? 68) with true by (symmetry; apply Z.leb_le; lia).
    lia.
  - replace (y mod 100) with (y - 1900)
      by (apply (Z.mod_unique y 100 19); lia).
    replace (y - 1900 <=? 68) with false by (symmetry; apply Z.leb_gt; lia).
    lia.
Qed.

(** X4: the stages hand dates over as text ['%d/%b/%y'].  A calendar
    date written by [strftime] is read back by [strptime] with the same
    day and month and with the year of 1969..2068 that has the same two
    last digits: it comes back unchanged exactly when its year lies in
    1969..2068. *)
Theorem X4_date_text_round_trip (d : DT.datetime) :
  DT.valid d = true ->
  exists d',
    DT.strptime (DT.strftime d) = Some d'
    /\ DT.day d' = DT.day d /\ DT.month d' = DT.month d
    /\ 1969 <= DT.year d' <= 2068
    /\ DT.year d' mod 100 = DT.year d mod 100
    /\ (d' = d <-> 1969 <= DT.year d <= 2068).
Proof.
  intros Hv. destruct (strptime_strftime d Hv) as (d' & Hp & Hd & Hm & Hy).
  assert (Hyy : 0 <= DT.year d mod 100 < 100) by (apply Z.mod_pos_bound; lia).
  pose proof (pivot_range _ Hyy) as Hr.
  assert (Hmod : DT.year d' mod 100 = DT.year d mod 100).
  { rewrite Hy. unfold DateView.pivot.
    destruct (DT.year d mod 100 <=? 68).
    - rewrite <- Z.add_mod_idemp_r by lia. change (2000 mod 100) with 0.
      rewrite Z.add_0_r. apply Z.mod_mod. lia.
    - rewrite <- Z.add_mod_idemp_r by lia. change (1900 mod 100) with 0.
      rewrite Z.add_0_r. apply Z.mod_mod. lia. }
  exists d'. split; [exact Hp|]. split; [exact Hd|]. split; [exact Hm|].
  split; [lia|]. split; [exact Hmod|]. split.
  - intros <-. lia.
  - intros Hin. rewrite (pivot_fixed _ Hin) in Hy.
    destruct d, d'. simpl in *. congruence.
Qed.

(** The 16 September 2025 keeps its year, the 16 September 2069 comes
    back as 1969. *)
Lemma X4_witness :
  DT.strptime (DT.strftime (DT.mk 2025 9 16)) = Some (DT.mk 2025 9 16)
  /\ DT.strptime (DT.strftime (DT.mk 2069 9 16)) = Some (DT.mk 1969 9 16)
  /\ exists d',
       DT.strptime (DT.strftime (DT.mk 2069 9 16)) = Some d'
       /\ DT.day d' = 16 /\ DT.month d' = 9
       /\ 1969 <= DT.year d' <= 2068
       /\ DT.year d' mod 100 = 2069 mod 100
       /\ (d' = DT.mk 2069 9 16 <-> 1969 <= 2069 <= 2068).
Proof.
  split; [vm_compute; reflexivity|]. split; [vm_compute; reflexivity|].
  apply (X4_date_text_round_trip (DT.mk 2069 9 16)). reflexivity.
Defined.

(** ** Plan ingestion: rows with a plausible year *)



(** ** The day-wise converter: which rows come out, and in what order *)

Lemma outputs_identity prev (l : list (DT.datetime * Actual.row)) :
  map DaywiseView2.identity (DaywiseView.outputs prev l)
  = map (fun dr => DaywiseView2.identity (snd dr)) l.
Proof.
  revert prev. induction l as [|dr l IH]; intros prev; simpl.
  - reflexivity.
  - rewrite IH. reflexivity.
Qed.

Lemma outputs_order_quantity prev (l : list (DT.datetime * Actual.row)) o :
  In o (DaywiseView.outputs prev l) -> Actual.Order_Quantity o = None.
Proof.
  revert prev. induction l as [|dr l IH]; intros prev; simpl; [tauto|].
  intros [<- | Hin]; [reflexivity | apply (IH _ Hin)].
Qed.

Lemma outputs_dated prev (l : list (DT.datetime * Actual.row)) o :
  DaywiseView.well_dated l ->
  In o (DaywiseView.outputs prev l) ->
  exists dr, In dr l /\ DT.strptime (Actual.Date o) = Some (fst dr).
Proof.
  revert prev. induction l as [|dr l IH]; intros prev Hw; simpl; [tauto|].
  intros [<- | Hin].
  - exists dr. split; [left; reflexivity|]. simpl.
    apply Hw. left. reflexivity.
  - destruct (IH (DaywiseView.record prev dr)) as (dr' & Hdr & Hp).
    + intros x Hx. apply Hw. right. exact Hx.
    + exact Hin.
    + exists dr'. split; [right; exact Hdr | exact Hp].
Qed.

Lemma outputs_sorted prev (l : list (DT.datetime * Actual.row)) :
  DaywiseView.well_dated l ->
  StronglySorted (fun a b => DT.key (fst a) <= DT.key (fst b)) l ->
  StronglySorted DaywiseView2.not_after (DaywiseView.outputs prev l).
Proof.
  revert prev. induction l as [|dr l IH]; intros prev Hw Hs; simpl.
  - constructor.
  - inversion Hs as [|? ? Hs' Hall]. subst. constructor.
    + apply IH; [intros x Hx; apply Hw; right; exact Hx | exact Hs'].
    + apply Forall_forall. intros o Ho.
      destruct (outputs_dated (DaywiseView.record prev dr) l o)
        as (dr' & Hdr & Hp).
      * intros x Hx. apply Hw. right. exact Hx.
      * exact Ho.
      * exists (fst dr), (fst dr'). split; [|split; [exact Hp|]].
        -- simpl. apply Hw. left. reflexivity.
        -- rewrite Forall_forall in Hall. apply Hall, Hdr.
Qed.

Lemma dated_rows_snd (data : list Actual.row) :
  map snd (fst (Daywise.dated_rows data)) = filter DaywiseView2.parses data.
Proof.
  induction data as [|r data IH]; simpl; [reflexivity|].
  destruct (Daywise.dated_rows data) as [ds lg]. simpl in IH.
  unfold DaywiseView2.parses at 1.
  destruct (DT.strptime (Actual.Date r)); simpl; rewrite IH; reflexivity.
Qed.

(** X6: the day-wise converter returns one row for every input row
    whose date parses, and no other: the same style, PO, colour, date
    and provenance, only the quantities differ.  The rows come out in
    ascending date order, the rows of one key and one date in their
    input order, and without the ['Order Quantity'] of the input. *)
Theorem X6_daywise_rows_are_the_dated_input_rows_in_date_order
        (data : list Actual.row) :
  let out :=
    Daywise.convert_cumulative_to_daywise_quantities_for_daily_prod data in
  Permutation (map DaywiseView2.identity out)
              (map DaywiseView2.identity (filter DaywiseView2.parses data))
  /\ StronglySorted DaywiseView2.not_after out
  /\ (forall k D,
         map DaywiseView2.identity
             (filter (fun o => DaywiseView.is_key k o
                               && DaywiseView.date_is D (Actual.Date o)) out)
         = map DaywiseView2.identity
               (filter (fun r => DaywiseView.is_key k r
                                 && DaywiseView.date_is D (Actual.Date r)) data))
  /\ (forall o, In o out -> Actual.Order_Quantity o = None).
Proof.
  intros out. subst out. rewrite convert_outputs.
  split; [|split; [|split]].
  - rewrite outputs_identity, <- dated_rows_snd, map_map.
    apply Permutation_map. apply stable_sort_perm.
  - apply outputs_sorted.
    + apply sorted_dated_rows_well_dated.
    + apply sort_by_date_sorted.
  - intros k D.
    set (P := fun i : string * string * string * string * string * Z =>
                eqb (Str.upper (Str.strip (fst (fst (fst (fst (fst i)))))),
                     Str.strip (snd (fst (fst (fst (fst i))))),
                     Str.lower (Str.strip (snd (fst (fst (fst i))))))
                    k
                && DaywiseView.date_is D (snd (fst (fst i)))).
    assert (Hmap : forall l : list Actual.row,
               map DaywiseView2.identity
                   (filter (fun o => DaywiseView.is_key k o
                                     && DaywiseView.date_is D (Actual.Date o)) l)
               = filter P (map DaywiseView2.identity l)).
    { induction l as [|x l IH]; simpl; [reflexivity|].
      change (P (DaywiseView2.identity x))
        with (DaywiseView.is_key k x && DaywiseView.date_is D (Actual.Date x)).
      destruct (DaywiseView.is_key k x && DaywiseView.date_is D (Actual.Date x));
        simpl; rewrite IH; reflexivity. }
    rewrite !Hmap, outputs_identity.
    rewrite <- (map_map snd DaywiseView2.identity).
    rewrite <- !Hmap. f_equal.
    assert (Hsnd : forall l : list (DT.datetime * Actual.row),
               DaywiseView.well_dated l ->
               filter (fun o => DaywiseView.is_key k o
                                && DaywiseView.date_is D (Actual.Date o))
                      (map snd l)
               = map snd
                   (filter (fun dr => DaywiseView.is_key k (snd dr)
                                      && (DT.key (fst dr) =? DT.key D)) l)).
    { induction l as [|x l IH]; intros Hw; simpl; [reflexivity|].
      unfold DaywiseView.date_is at 1.
      rewrite (Hw x (or_introl eq_refl)). unfold DT.eqb.
      destruct (DaywiseView.is_key k (snd x) && (DT.key (fst x) =? DT.key D));
        simpl; rewrite IH; try reflexivity;
        intros y Hy; apply Hw; right; exact Hy. }
    rewrite Hsnd by apply sorted_dated_rows_well_dated.
    rewrite (dated_rows_filter k D data). f_equal.
    unfold sort_by_date. apply filter_stable_sort.
    intros a b Ha Hb. apply andb_true_iff in Ha, Hb.
    destruct Ha as [_ Ha], Hb as [_ Hb]. apply Z.eqb_eq in Ha, Hb.
    unfold DT.leb. apply Z.leb_le. lia.
  - intros o. apply outputs_order_quantity.
Qed.

(** ** The matcher: what a matched row holds *)

Lemma last_none_iff {A : Type} (l : list A) :
  last (map Some l) None = None <-> l = [].
Proof.
  split.
  - intros H. destruct l as [|x l]; [reflexivity|].
    destruct (last_some_exists (x :: l)) as [y Hy]; [discriminate|].
    congruence.
  - intros ->. reflexivity.
Qed.

Lemma last_plan_row_none plan_data style_number k date :
  MatchView.last_plan_row plan_data style_number k date = None
  <-> MatchView2.no_plan_row plan_data style_number k date.
Proof.
  unfold MatchView.last_plan_row, MatchView2.no_plan_row.
  rewrite last_none_iff. split.
  - intros Hnil p Hin Hk Hd.
    assert (Hf : In p (filter (fun r => eqb (Match.plan_key r) k
                                        && eqb (Plan.Date r) date)
                         (Match.plan_for_style plan_data style_number))).
    { apply filter_In. split; [exact Hin|]. subst. rewrite !eqb_refl.
      reflexivity. }
    rewrite Hnil in Hf. exact Hf.
  - intros Hall.
    destruct (filter _ _) as [|x l] eqn:F; [reflexivity|]. exfalso.
    assert (Hx : In x (x :: l)) by (left; reflexivity).
    rewrite <- F in Hx. apply filter_In in Hx. destruct Hx as [Hin Hm].
    apply andb_true_iff in Hm. destruct Hm as [Hk Hd].
    apply eqb_iff in Hk, Hd. exact (Hall x Hin Hk Hd).
Qed.

Lemma last_actual_row_none daily_prod_data style_number k date :
  MatchView.last_actual_row daily_prod_data style_number k date = None
  <-> MatchView2.no_actual_row daily_prod_data style_number k date.
Proof.
  unfold MatchView.last_actual_row, MatchView2.no_actual_row.
  rewrite last_none_iff. split.
  - intros Hnil a Hin Hk Hd.
    assert (Hf : In a (filter (fun r => eqb (Match.actual_key r) k
                                        && eqb (Actual.Date r) date)
                         (Match.actual_for_style daily_prod_data style_number))).
    { apply filter_In. split; [exact Hin|]. subst. rewrite !eqb_refl.
      reflexivity. }
    rewrite Hnil in Hf. exact Hf.
  - intros Hall.
    destruct (filter _ _) as [|x l] eqn:F; [reflexivity|]. exfalso.
    assert (Hx : In x (x :: l)) by (left; reflexivity).
    rewrite <- F in Hx. apply filter_In in Hx. destruct Hx as [Hin Hm].
    apply andb_true_iff in Hm. destruct Hm as [Hk Hd].
    apply eqb_iff in Hk, Hd. exact (Hall x Hin Hk Hd).
Qed.

Lemma matched_row_no_plan style_number po colour date a (s : stage) :
  Matched.planned s (Match.matched_row style_number po colour date None a) = 0.
Proof. destruct a, s; reflexivity. Qed.

Lemma matched_row_no_actual style_number po colour date p (s : stage) :
  Matched.actual s (Match.matched_row style_number po colour date p None) = 0.
Proof. destruct p, s; reflexivity. Qed.

Lemma matched_row_style style_number po colour date p a :
  Matched.Style_No (Match.matched_row style_number po colour date p a)
  = style_number.
Proof. destruct p, a; reflexivity. Qed.

(** X7: a matched row carries the style number as it was passed, a date
    that parses, and a (PO, colour) key and date that the plan or the
    actual rows of the style have; its five planned quantities are 0
    when no plan row of the style has its key and date, and its five
    actual quantities are 0 when no actual row has them. *)
Theorem X7_matched_row_is_zero_filled
        (plan_data : list Plan.row) (daily_prod_data : list Actual.row)
        (style_number : string) (m : Matched.row) :
  In m (Match.match_plan_with_actual plan_data daily_prod_data style_number) ->
  Matched.Style_No m = style_number
  /\ DT.strptime (Matched.Date m) <> None
  /\ (MatchView2.no_plan_row plan_data style_number
        (MatchView.key_of m) (Matched.Date m) ->
      forall s, Matched.planned s m = 0)
  /\ (MatchView2.no_actual_row daily_prod_data style_number
        (MatchView.key_of m) (Matched.Date m) ->
      forall s, Matched.actual s m = 0)
  /\ ~ (MatchView2.no_plan_row plan_data style_number
          (MatchView.key_of m) (Matched.Date m)
        /\ MatchView2.no_actual_row daily_prod_data style_number
             (MatchView.key_of m) (Matched.Date m)).
Proof.
  intros Hm. apply match_In in Hm.
  destruct Hm as ([po colour] & date & _ & Hparse & Hdate & ->).
  cbn [fst snd] in *.
  destruct (matched_row_key style_number po colour date
              (MatchView.lookup
                 (Match.plan_by_combo
                    (Match.plan_for_style plan_data style_number))
                 (po, colour) date)
              (MatchView.lookup
                 (Match.actual_by_combo
                    (Match.actual_for_style daily_prod_data style_number))
                 (po, colour) date)) as [Hk Hd].
  rewrite Hk, Hd. rewrite plan_lookup, actual_lookup in *.
  split; [apply matched_row_style|]. split; [exact Hparse|].
  split; [|split].
  - intros Hno s. apply last_plan_row_none in Hno. rewrite Hno.
    apply matched_row_no_plan.
  - intros Hno s. apply last_actual_row_none in Hno. rewrite Hno.
    apply matched_row_no_actual.
  - intros [Hp Ha]. apply last_plan_row_none in Hp.
    apply last_actual_row_none in Ha. destruct Hdate; contradiction.
Qed.

(** The second day of the example has no plan row: planned cutting 0,
    actual cutting 25. *)
Lemma X7_witness :
  map (fun m => (Matched.Date m, Matched.planned Cutting m,
                 Matched.actual Cutting m))
      (Match.match_plan_with_actual MatchView2.plan MatchView2.actual "A1")
  = [("01/Jan/25", 50, 30); ("02/Jan/25", 0, 25)]
  /\ Matched.planned Cutting
       (nth 1 (Match.match_plan_with_actual MatchView2.plan MatchView2.actual
                 "A1") MatchView2.no_matched_row)
     = 0.
Proof.
  split; [vm_compute; reflexivity|].
  refine (proj1 (proj2 (proj2 (X7_matched_row_is_zero_filled
                                 MatchView2.plan MatchView2.actual "A1" _ _)))
                _ Cutting).
  - vm_compute. right. left. reflexivity.
  - intros p [<- | []] _. vm_compute. discriminate.
Defined.

(** ** The matcher: the report of unplanned production *)

Section ByComboEntries.
Context {R : Type} (kf : R -> Match.combo_key) (df : R -> string).


End ByComboEntries.










(** ** The aggregator: cumulative columns over the input rows *)

Lemma group_step_get acc (r : Matched.row) (k : Agg.group_key) :
  AggView2.get k (fst (Agg.group_step acc r))
  = AggView2.get k (fst acc) ++ AggView2.rows_of k [r].
Proof.
  destruct acc as [g lg]. unfold Agg.group_step, AggView2.rows_of,
    AggView2.dated. cbn [flat_map fst].
  destruct (DT.strptime (Matched.Date r)) as [d|]; cbn [fst app filter].
  - destruct (eqb (Agg.key_of r) k) eqn:E.
    + apply eqb_iff in E. subst k. unfold AggView2.get.
      rewrite dict_get_set_same. reflexivity.
    + apply eqb_false_iff in E. unfold AggView2.get.
      rewrite dict_get_set_other by exact E. rewrite app_nil_r. reflexivity.
  - rewrite app_nil_r. reflexivity.
Qed.

Lemma rows_of_app k (l1 l2 : list Matched.row) :
  AggView2.rows_of k (l1 ++ l2)
  = AggView2.rows_of k l1 ++ AggView2.rows_of k l2.
Proof.
  unfold AggView2.rows_of, AggView2.dated.
  rewrite flat_map_app, filter_app. reflexivity.
Qed.

Lemma group_fold_get (l : list Matched.row) acc (k : Agg.group_key) :
  AggView2.get k (fst (fold_left Agg.group_step l acc))
  = AggView2.get k (fst acc) ++ AggView2.rows_of k l.
Proof.
  revert acc. induction l as [|r l IH]; intros acc.
  - cbn [fold_left]. unfold AggView2.rows_of. simpl. rewrite app_nil_r.
    reflexivity.
  - cbn [fold_left]. rewrite IH, group_step_get, <- app_assoc.
    rewrite <- rows_of_app. reflexivity.
Qed.

(** A group holds the input rows of its key whose date parses, in input
    order. *)
Lemma group_rows (matched_data : list Matched.row) k rows :
  In (k, rows) (fst (Agg.group matched_data)) ->
  rows = AggView2.rows_of k matched_data.
Proof.
  intros Hin. destruct (group_ok matched_data) as [Hnd _].
  apply (dict_In_get _ _ _ Hnd) in Hin.
  pose proof (group_fold_get matched_data ([], []) k) as Hg.
  fold (Agg.group matched_data) in Hg. unfold AggView2.get in Hg at 1.
  rewrite Hin in Hg. exact Hg.
Qed.

Lemma qsum_filter_app (f : Matched.row -> Z) P
      (l1 l2 : list (Matched.row * DT.datetime)) :
  AggView.qsum f (filter P (l1 ++ l2))
  = AggView.qsum f (filter P l1) + AggView.qsum f (filter P l2).
Proof.
  induction l1 as [|x l1 IH]; [reflexivity|].
  cbn [app filter]. destruct (P x); cbn [AggView.qsum fold_right].
  - fold (AggView.qsum f (filter P (l1 ++ l2))).
    fold (AggView.qsum f (filter P l1)). rewrite IH. lia.
  - exact IH.
Qed.

Lemma qsum_rows_of (f : Matched.row -> Z) k d (l : list Matched.row) :
  AggView.qsum f (filter (AggView.up_to d) (AggView2.rows_of k l))
  = AggView2.total_up_to f l k d.
Proof.
  induction l as [|r l IH]; [reflexivity|].
  change (r :: l) with ([r] ++ l) at 1.
  rewrite rows_of_app, qsum_filter_app, IH.
  unfold AggView2.total_up_to. cbn [filter].
  unfold AggView2.rows_of, AggView2.dated, AggView2.up_to at 2.
  cbn [flat_map].
  destruct (DT.strptime (Matched.Date r)) as [d'|]; cbn [app filter fst].
  - destruct (eqb (Agg.key_of r) k); cbn [andb filter].
    + unfold AggView.up_to at 1. cbn [snd].
      destruct (DT.key d' <=? DT.key d);
        cbn [filter map fold_right AggView.qsum fst]; lia.
    + reflexivity.
  - rewrite andb_false_r. reflexivity.
Qed.

(** X9: every output row of the aggregator has a date that parses, and
    each of its ten cumulative columns is the sum of that day quantity
    over all input rows of the same style, PO and colour whose date
    parses to a day no later than its own; no assumption is made on the
    sign of the quantities or on the order of the input. *)
Theorem X9_cumulative_columns_sum_the_input_rows_up_to_the_date
        (matched_data : list Matched.row) (o : Agg.row) :
  In o (Agg.add_cumulative_columns_to_matched_dict matched_data) ->
  exists d,
    DT.strptime (Agg.Date o) = Some d
    /\ forall s,
         Agg.cumulative_planned s o
         = AggView2.total_up_to (Matched.planned s) matched_data
                                (AggView.group_of o) d
         /\ Agg.cumulative_actual s o
            = AggView2.total_up_to (Matched.actual s) matched_data
                                   (AggView.group_of o) d.
Proof.
  intros Hin. destruct (agg_row_cumulative matched_data o Hin)
    as (rows & d & Hg & Hd & Hsum).
  exists d. split; [exact Hd|]. intros s.
  apply group_rows in Hg. subst rows.
  destruct (Hsum s) as [Hp Ha]. rewrite Hp, Ha, !qsum_rows_of.
  split; reflexivity.
Qed.

(** In the example the row of lot 100 on 2 January carries the plan of
    1 January, 50, and the production of both days, 30 + 25. *)
Lemma X9_witness :
  map (fun o => (Agg.PO o, Agg.Date o, Agg.cumulative_planned Cutting o,
                 Agg.cumulative_actual Cutting o))
      (Agg.add_cumulative_columns_to_matched_dict AggView2.two_lots)
  = [("100", "01/Jan/25", 50, 30); ("100", "02/Jan/25", 50, 55);
     ("100", "03/Jan/25", 60, 62); ("200", "01/Jan/25", 20, 5)]
  /\ exists d,
       DT.strptime "02/Jan/25" = Some d
       /\ forall s,
            Agg.cumulative_planned s
              (nth 1 (Agg.add_cumulative_columns_to_matched_dict
                        AggView2.two_lots) AggView.no_row)
            = AggView2.total_up_to (Matched.planned s) AggView2.two_lots
                                   ("A1", "100", "red") d
            /\ Agg.cumulative_actual s
                 (nth 1 (Agg.add_cumulative_columns_to_matched_dict
                           AggView2.two_lots) AggView.no_row)
               = AggView2.total_up_to (Matched.actual s) AggView2.two_lots
                                      ("A1", "100", "red") d.
Proof.
  split; [vm_compute; reflexivity|].
  apply (X9_cumulative_columns_sum_the_input_rows_up_to_the_date
           AggView2.two_lots
           (nth 1 (Agg.add_cumulative_columns_to_matched_dict
                     AggView2.two_lots) AggView.no_row)).
  vm_compute. right. left. reflexivity.
Defined.

(** ** The aggregator: which rows it returns *)

Lemma base_new_row (r : Matched.row) d c :
  AggView2.base (Agg.new_row r d c) = r.
Proof. destruct r. reflexivity. Qed.

Lemma loop_base all st todo :
  map AggView2.base (Agg.loop all st todo) = map fst todo.
Proof.
  revert st. induction todo as [|[r d] todo IH]; intros st; simpl.
  - reflexivity.
  - rewrite IH. f_equal. apply base_new_row.
Qed.

Lemma process_group_base (rows : list (Matched.row * DT.datetime)) :
  Permutation (map AggView2.base (Agg.process_group rows)) (map fst rows).
Proof.
  unfold Agg.process_group. rewrite loop_base.
  apply Permutation_map, stable_sort_perm.
Qed.

Lemma groups_set_perm (g : @Dict.t Agg.group_key
                              (list (Matched.row * DT.datetime)))
      (k : Agg.group_key) (x : Matched.row * DT.datetime) :
  Permutation
    (flat_map (fun e => map fst (snd e))
              (Dict.set k (AggView2.get k g ++ [x]) g))
    (flat_map (fun e => map fst (snd e)) g ++ [fst x]).
Proof.
  unfold AggView2.get.
  induction g as [|[k0 v0] g IH]; cbn [Dict.set Dict.get flat_map].
  - simpl. apply Permutation_refl.
  - destruct (eqb k0 k) eqn:E; cbn [flat_map snd].
    + rewrite map_app, <- !app_assoc. apply Permutation_app_head.
      apply Permutation_app_comm.
    + rewrite <- app_assoc. apply Permutation_app_head. exact IH.
Qed.

Lemma group_fold_perm (l : list Matched.row) acc :
  Permutation
    (flat_map (fun e => map fst (snd e)) (fst (fold_left Agg.group_step l acc)))
    (flat_map (fun e => map fst (snd e)) (fst acc)
     ++ filter AggView2.parses l).
Proof.
  revert acc. induction l as [|r l IH]; intros acc; cbn [fold_left filter].
  - rewrite app_nil_r. apply Permutation_refl.
  - eapply Permutation_trans; [apply IH|].
    destruct acc as [g lg]. unfold Agg.group_step, AggView2.parses at 2.
    destruct (DT.strptime (Matched.Date r)) as [d|]; cbn [fst].
    + change (match Dict.get (Agg.key_of r) g with
              | Some rows => rows
              | None => []
              end) with (AggView2.get (Agg.key_of r) g).
      eapply Permutation_trans;
        [apply Permutation_app_tail, groups_set_perm|].
      rewrite <- app_assoc. apply Permutation_refl.
    + apply Permutation_refl.
Qed.

Lemma result_rows_base (matched_data : list Matched.row) :
  Permutation (map AggView2.base (Agg.result_rows matched_data))
              (filter AggView2.parses matched_data).
Proof.
  unfold Agg.result_rows.
  eapply Permutation_trans; [|apply (group_fold_perm matched_data ([], []))].
  fold (Agg.group matched_data).
  induction (fst (Agg.group matched_data)) as [|[k rows] g IH];
    cbn [flat_map snd].
  - apply Permutation_refl.
  - rewrite map_app. apply Permutation_app; [apply process_group_base | exact IH].
Qed.

Lemma agg_output_perm (matched_data : list Matched.row) :
  Permutation (Agg.add_cumulative_columns_to_matched_dict matched_data)
              (Agg.result_rows matched_data).
Proof.
  unfold Agg.add_cumulative_columns_to_matched_dict.
  destruct matched_data as [|r l]; [apply Permutation_refl|].
  apply stable_sort_perm.
Qed.

(** X10: the aggregator returns one row for every input row whose date
    parses and none for the others: the first four columns and the ten
    day quantities of the output rows are, up to order, the input rows
    that parse, with their multiplicity.  In every output row the day
    name is that of the parsed date and each day difference is the
    actual minus the planned quantity of the row; and of two
    neighbouring output rows the first is not after the second in the
    order (style, PO, colour, date). *)
Theorem X10_aggregator_keeps_the_rows_that_parse
        (matched_data : list Matched.row) :
  let out := Agg.add_cumulative_columns_to_matched_dict matched_data in
  Permutation (map AggView2.base out) (filter AggView2.parses matched_data)
  /\ (forall o, In o out ->
        (exists d, DT.strptime (Agg.Date o) = Some d
                   /\ Agg.Day o = DT.day_name d)
        /\ forall s,
             Agg.day_diff s o
             = Matched.actual s (AggView2.base o)
               - Matched.planned s (AggView2.base o))
  /\ LocallySorted (fun a b => Agg.final_leb a b = true) out.
Proof.
  intros out. split; [|split].
  - eapply Permutation_trans; [|apply result_rows_base].
    apply Permutation_map, agg_output_perm.
  - intros o Hin. apply agg_output_In, agg_result_rows_In in Hin.
    destruct Hin as ([k rows] & Hg & Hin). cbn [snd] in Hin.
    unfold Agg.process_group in Hin. apply agg_loop_In in Hin.
    destruct Hin as (r & d & c & Hrd & ->).
    apply sort_by_date_In in Hrd.
    destruct (group_ok matched_data) as [_ Hall].
    destruct (Hall k rows Hg (r, d) Hrd) as (_ & Hp & _). cbn [fst snd] in Hp.
    split.
    + exists d. split; [destruct r; exact Hp | destruct r; reflexivity].
    + intros s. rewrite base_new_row. destruct r, s; reflexivity.
  - subst out. unfold Agg.add_cumulative_columns_to_matched_dict.
    destruct matched_data as [|r l]; [constructor|].
    apply stable_sort_locally_sorted. exact final_leb_total.
Qed.

(** ** The style numbers of the plan *)

Lemma style_scan_blank (name : string) (values : list Cell.value) (idx n : Z) :
  In n (fst (StyleNumbers.scan name values idx))
  <-> exists i c, nth_error values i = Some c /\ Cell.isna c = true
                  /\ n = idx + Z.of_nat i + 2.
Proof.
  revert idx. induction values as [|v rest IH]; intros idx.
  - simpl. split; [tauto|]. intros ([|i] & c & H & _); discriminate.
  - cbn [StyleNumbers.scan]. specialize (IH (idx + 1)).
    destruct (StyleNumbers.scan name rest (idx + 1)) as [bl pr].
    cbn [fst] in IH.
    assert (Hrest : In n bl <->
                    exists i c, nth_error (v :: rest) (S i) = Some c
                                /\ Cell.isna c = true
                                /\ n = idx + Z.of_nat (S i) + 2).
    { rewrite IH. split; intros (i & c & H1 & H2 & H3); exists i, c;
        (split; [exact H1 | split; [exact H2 | lia]]). }
    destruct (Cell.isna v) eqn:E.
    + cbn [fst In]. rewrite Hrest. split.
      * intros [<- | (i & c & H)].
        -- exists 0%nat, v. split; [reflexivity | split; [exact E | lia]].
        -- exists (S i), c. exact H.
      * intros ([|i] & c & H1 & H2 & H3).
        -- left. lia.
        -- right. exists i, c. auto.
    + assert (Hfst : forall m, fst (if (Cell.str v =? name)%string
                                    then (bl, pr) else (bl, m :: pr)) = bl)
        by (intros m; destruct (Cell.str v =? name)%string; reflexivity).
      rewrite Hfst, Hrest. split.
      * intros (i & c & H). exists (S i), c. exact H.
      * intros ([|i] & c & H1 & H2 & H3).
        -- injection H1 as <-. congruence.
        -- exists i, c. auto.
Qed.

Lemma style_scan_sorted (name : string) (values : list Cell.value) (idx : Z) :
  StronglySorted Z.lt (fst (StyleNumbers.scan name values idx)).
Proof.
  revert idx. induction values as [|v rest IH]; intros idx.
  - constructor.
  - cbn [StyleNumbers.scan]. pose proof (IH (idx + 1)) as Hs.
    pose proof (fun n => proj1 (style_scan_blank name rest (idx + 1) n)) as Hb.
    destruct (StyleNumbers.scan name rest (idx + 1)) as [bl pr].
    cbn [fst] in *.
    destruct (Cell.isna v).
    + cbn [fst]. constructor; [exact Hs|]. apply Forall_forall.
      intros n Hn. destruct (Hb n Hn) as (i & c & _ & _ & ->). lia.
    + destruct (Cell.str v =? name)%string; exact Hs.
Qed.

Lemma style_scan_printed (name : string) (values : list Cell.value) (idx : Z)
      (m : StyleNumbers.message) :
  In m (snd (StyleNumbers.scan name values idx))
  <-> exists i v, nth_error values i = Some v /\ Cell.isna v = false
                  /\ Cell.str v <> name
                  /\ m = StyleNumbers.WrongStyle name (idx + Z.of_nat i + 2)
                                                 (Cell.str v).
Proof.
  revert idx. induction values as [|v rest IH]; intros idx.
  - simpl. split; [tauto|]. intros ([|i] & c & H & _); discriminate.
  - cbn [StyleNumbers.scan]. specialize (IH (idx + 1)).
    destruct (StyleNumbers.scan name rest (idx + 1)) as [bl pr].
    cbn [snd] in IH.
    assert (Hrest : In m pr <->
                    exists i c, nth_error (v :: rest) (S i) = Some c
                                /\ Cell.isna c = false
                                /\ Cell.str c <> name
                                /\ m = StyleNumbers.WrongStyle name
                                         (idx + Z.of_nat (S i) + 2)
                                         (Cell.str c)).
    { rewrite IH. split; intros (i & c & H1 & H2 & H3 & H4); exists i, c;
        (split; [exact H1 | split; [exact H2 | split; [exact H3|]]]);
        rewrite H4; f_equal; lia. }
    destruct (Cell.isna v) eqn:E.
    + cbn [snd]. rewrite Hrest. split.
      * intros (i & c & H). exists (S i), c. exact H.
      * intros ([|i] & c & H1 & H2 & H3).
        -- injection H1 as <-. congruence.
        -- exists i, c. auto.
    + destruct (Cell.str v =? name)%string eqn:Hs; cbn [snd].
      * apply String.eqb_eq in Hs. rewrite Hrest. split.
        -- intros (i & c & H). exists (S i), c. exact H.
        -- intros ([|i] & c & H1 & H2 & H3 & H4).
           ++ injection H1 as <-. contradiction.
           ++ exists i, c. auto.
      * apply String.eqb_neq in Hs. cbn [In]. rewrite Hrest. split.
        -- intros [<- | (i & c & H)].
           ++ exists 0%nat, v. split; [reflexivity|]. split; [exact E|].
              split; [exact Hs|]. f_equal. lia.
           ++ exists (S i), c. exact H.
        -- intros ([|i] & c & H1 & H2 & H3 & H4).
           ++ left. injection H1 as <-. rewrite H4. f_equal. lia.
           ++ right. exists i, c. auto.
Qed.

Lemma style_last_non_blank (values : list Cell.value) (idx : Z) :
  0 <= idx ->
  (StyleNumbers.last_non_blank_from values idx = -1
   /\ forall i c, nth_error values i = Some c -> Cell.isna c = true)
  \/ exists j v,
       StyleNumbers.last_non_blank_from values idx = idx + Z.of_nat j
       /\ nth_error values j = Some v /\ Cell.isna v = false
       /\ forall j' c, (j < j')%nat -> nth_error values j' = Some c ->
                       Cell.isna c = true.
Proof.
  revert idx. induction values as [|v rest IH]; intros idx Hidx.
  - left. split; [reflexivity|]. intros [|i] c H; discriminate.
  - cbn [StyleNumbers.last_non_blank_from].
    destruct (IH (idx + 1)) as [[HL Hall] | (j & w & HL & Hj & Hw & Hlater)];
      [lia | |].
    + rewrite HL. cbn [Z.leb Z.compare]. destruct (Cell.isna v) eqn:E.
      * left. split; [reflexivity|]. intros [|i] c H.
        -- injection H as <-. exact E.
        -- exact (Hall i c H).
      * right. exists 0%nat, v. split; [simpl; lia|].
        split; [reflexivity|]. split; [exact E|].
        intros [|j'] c Hlt H; [lia|]. exact (Hall j' c H).
    + rewrite HL.
      replace (0 <=? idx + 1 + Z.of_nat j) with true
        by (symmetry; apply Z.leb_le; lia).
      right. exists (S j), w. split; [lia|]. split; [exact Hj|].
      split; [exact Hw|].
      intros [|j'] c Hlt H; [lia|]. apply (Hlater j' c); [lia | exact H].
Qed.

(** The blank cells that are kept are those with a filled cell below. *)
Lemma style_kept_blank (name : string) (values : list Cell.value) (n : Z) :
  In n (filter (fun row => row <=? StyleNumbers.last_non_blank_from values 0 + 2)
               (fst (StyleNumbers.scan name values 0)))
  <-> StyleView.middle_blank values n.
Proof.
  rewrite filter_In, style_scan_blank, Z.leb_le. unfold StyleView.middle_blank.
  destruct (style_last_non_blank values 0) as [[HL Hall] | (j & v & HL & Hj & Hv & Hlater)];
    [lia | |]; rewrite HL.
  - split.
    + intros [(i & c & _ & _ & ->) Hle]. lia.
    + intros (i & j & c & v & _ & _ & _ & _ & Hj & Hv).
      rewrite (Hall j v Hj) in Hv. discriminate.
  - split.
    + intros [(i & c & Hi & Hc & ->) Hle]. exists i, j, c, v.
      split; [lia|]. split; [exact Hi|]. split; [exact Hc|].
      split; [|split; assumption].
      destruct (Nat.eq_dec i j) as [-> | Hne]; [congruence | lia].
    + intros (i & j' & c & w & -> & Hi & Hc & Hlt & Hj' & Hw). split.
      * exists i, c. split; [exact Hi|]. split; [exact Hc | lia].
      * destruct (Nat.lt_ge_cases j j') as [Hjj | Hjj]; [|lia].
        rewrite (Hlater j' w Hjj Hj') in Hw. discriminate.
Qed.

Lemma StronglySorted_filter {A : Type} (R : A -> A -> Prop) (P : A -> bool)
      (l : list A) :
  StronglySorted R l -> StronglySorted R (filter P l).
Proof.
  induction 1 as [|x l Hs IH Hall]; simpl; [constructor|].
  destruct (P x); [|exact IH]. constructor; [exact IH|].
  rewrite Forall_forall in *. intros y Hy. apply filter_In in Hy.
  apply Hall, Hy.
Qed.

(** Two increasing lists with the same elements are equal. *)
Lemma sorted_lt_ext (l1 l2 : list Z) :
  StronglySorted Z.lt l1 -> StronglySorted Z.lt l2 ->
  (forall n, In n l1 <-> In n l2) -> l1 = l2.
Proof.
  intros H1. revert l2. induction H1 as [|x l1 Hs1 IH Hall1]; intros l2 H2 Hiff.
  - destruct l2 as [|y l2]; [reflexivity|].
    exfalso. apply (proj2 (Hiff y)). left. reflexivity.
  - destruct H2 as [|y l2 Hs2 Hall2].
    + exfalso. apply (proj1 (Hiff x)). left. reflexivity.
    + rewrite Forall_forall in Hall1, Hall2.
      assert (Hxy : x = y).
      { destruct (proj1 (Hiff x) (or_introl eq_refl)) as [E | Hx]; [auto|].
        destruct (proj2 (Hiff y) (or_introl eq_refl)) as [E | Hy]; [auto|].
        pose proof (Hall1 y Hy). pose proof (Hall2 x Hx). lia. }
      subst y. f_equal. apply IH; [exact Hs2|].
      intros n. split; intros Hn.
      * destruct (proj1 (Hiff n) (or_intror Hn)) as [E | H]; [|exact H].
        pose proof (Hall1 n Hn). lia.
      * destruct (proj2 (Hiff n) (or_intror Hn)) as [E | H]; [|exact H].
        pose proof (Hall2 n Hn). lia.
Qed.

Lemma check_column_empty_cells (name : string) (values : list Cell.value)
      (name' : string) (rows : list Z) :
  In (StyleNumbers.EmptyCells name' rows) (StyleNumbers.check_column name values)
  <-> name' = name /\ rows <> []
      /\ rows = filter (fun row => row <=? StyleNumbers.last_non_blank_from
                                             values 0 + 2)
                       (fst (StyleNumbers.scan name values 0)).
Proof.
  unfold StyleNumbers.check_column.
  pose proof (fun m => proj1 (style_scan_printed name values 0 m)) as Hpr.
  destruct (StyleNumbers.scan name values 0) as [bl pr]. cbn [fst snd] in *.
  assert (Hnot : ~ In (StyleNumbers.EmptyCells name' rows) pr).
  { intros Hin. destruct (Hpr _ Hin) as (i & v & _ & _ & _ & E). discriminate. }
  destruct bl as [|b bl].
  - split; [intros Hin; contradiction|]. intros (_ & Hne & ->). contradiction.
  - destruct (filter _ (b :: bl)) as [|k kept] eqn:F.
    + split; [intros Hin; contradiction|]. intros (_ & Hne & ->). contradiction.
    + rewrite in_app_iff. split.
      * intros [Hin | [E | []]]; [contradiction|]. injection E as <- <-.
        split; [reflexivity|]. split; [discriminate | reflexivity].
      * intros (-> & _ & ->). right. left. reflexivity.
Qed.

Lemma check_column_wrong_style (name : string) (values : list Cell.value)
      (name' : string) (n : Z) (c : string) :
  In (StyleNumbers.WrongStyle name' n c) (StyleNumbers.check_column name values)
  <-> name' = name /\ StyleView.wrong_style name values n c.
Proof.
  unfold StyleNumbers.check_column, StyleView.wrong_style.
  pose proof (style_scan_printed name values 0
                (StyleNumbers.WrongStyle name' n c)) as Hpr.
  destruct (StyleNumbers.scan name values 0) as [bl pr]. cbn [fst snd] in *.
  assert (Hin : In (StyleNumbers.WrongStyle name' n c) pr
                <-> name' = name
                    /\ exists i v, n = Z.of_nat i + 2
                                   /\ nth_error values i = Some v
                                   /\ Cell.isna v = false
                                   /\ c = Cell.str v /\ c <> name).
  { rewrite Hpr. split.
    - intros (i & v & H1 & H2 & H3 & E). injection E as -> -> ->.
      split; [reflexivity|]. exists i, v.
      repeat (split; [assumption || reflexivity || lia|]). exact H3.
    - intros (-> & i & v & -> & H1 & H2 & -> & H3). exists i, v.
      split; [exact H1|]. split; [exact H2|]. split; [exact H3|].
      f_equal; lia. }
  destruct bl as [|b bl]; [exact Hin|].
  destruct (filter _ (b :: bl)) as [|k kept]; [exact Hin|].
  rewrite in_app_iff, Hin. split; [|tauto].
  intros [H | [E | []]]; [exact H | discriminate].
Qed.

Lemma style_fold_valid (sheets : list (string * StyleNumbers.column)) acc :
  fst (fold_left StyleNumbers.sheet_step sheets acc)
  = fst acc ++ map fst (filter StyleView.readable sheets).
Proof.
  revert acc. induction sheets as [|[name col] sheets IH]; intros [vs pr].
  - simpl. rewrite app_nil_r. reflexivity.
  - cbn [fold_left filter]. rewrite IH.
    unfold StyleNumbers.sheet_step, StyleView.readable. cbn [fst snd].
    destruct col; cbn [fst map].
    + reflexivity.
    + rewrite <- app_assoc. reflexivity.
Qed.

(** X11: the style numbers returned for a plan file are the names of
    the sheets whose column A could be read, in workbook order, and
    nothing else: a cell that differs from the sheet name, or a blank
    cell, is reported but never rejects the sheet; a missing or
    unreadable file gives no style.  For one column, a cell is reported
    as wrong exactly when it is not blank and its text is not the sheet
    name; and one list of empty cells is reported exactly when some
    blank cell has a filled cell below it, the list being those rows in
    increasing order, so that blank cells at the end of the column are
    never reported. *)
Theorem X11_style_numbers_are_the_readable_sheets :
  StyleNumbers.get_style_numbers_from_plan StyleNumbers.FileNotFound = []
  /\ StyleNumbers.get_style_numbers_from_plan StyleNumbers.OpenError = []
  /\ (forall sheets,
         StyleNumbers.get_style_numbers_from_plan (StyleNumbers.Sheets sheets)
         = map fst (filter StyleView.readable sheets))
  /\ (forall name values n c,
         In (StyleNumbers.WrongStyle name n c)
            (StyleNumbers.check_column name values)
         <-> StyleView.wrong_style name values n c)
  /\ (forall name values rows,
         In (StyleNumbers.EmptyCells name rows)
            (StyleNumbers.check_column name values)
         <-> rows <> [] /\ StronglySorted Z.lt rows
             /\ forall n, In n rows <-> StyleView.middle_blank values n).
Proof.
  split; [reflexivity|]. split; [reflexivity|]. split; [|split].
  - intros sheets. unfold StyleNumbers.get_style_numbers_from_plan.
    cbn [StyleNumbers.run]. rewrite style_fold_valid. reflexivity.
  - intros name values n c. rewrite check_column_wrong_style. tauto.
  - intros name values rows. rewrite check_column_empty_cells. split.
    + intros (_ & Hne & ->). split; [exact Hne|]. split.
      * apply StronglySorted_filter, style_scan_sorted.
      * intros n. apply style_kept_blank.
    + intros (Hne & Hs & Hall). split; [reflexivity|]. split; [exact Hne|].
      apply (sorted_lt_ext rows); [exact Hs | | ].
      * apply StronglySorted_filter, style_scan_sorted.
      * intros n. rewrite Hall. symmetry. apply style_kept_blank.
Qed.

(** In the example the cell of row 4 is reported as wrong and the blank
    cell of row 3 as empty; the two blank cells at the end are not. *)
Lemma X11_witness :
  StyleNumbers.check_column "A1" StyleView.column_a
  = [StyleNumbers.WrongStyle "A1" 4 "B7"; StyleNumbers.EmptyCells "A1" [3]]
  /\ StyleView.middle_blank StyleView.column_a 3.
Proof.
  split; [vm_compute; reflexivity|].
  apply (proj2 (proj2 (proj1 (proj2 (proj2 (proj2 (proj2
           X11_style_numbers_are_the_readable_sheets)))
           "A1" StyleView.column_a [3])
           ltac:(vm_compute; right; left; reflexivity)))).
  left. reflexivity.
Defined.

(** ** The writer *)

Lemma digit_val_range (c : ascii) :
  Str.is_digit c = true -> 0 <= DT.digit_val c <= 9.
Proof.
  unfold Str.is_digit, DT.digit_val. cbv zeta. intros H.
  apply andb_true_iff in H. destruct H as [H1 H2].
  apply N.leb_le in H1, H2. lia.
Qed.

Lemma parse_after_day_year dd l d :
  DT.parse_after_day dd l = Some d -> 1969 <= DT.year d <= 2068.
Proof.
  unfold DT.parse_after_day.
  do 8 (destruct l as [|? l]; try discriminate).
  match goal with
  | |- (if ?c then _ else _) = _ -> _ => destruct c eqn:C; [|discriminate]
  end.
  apply andb_true_iff in C. destruct C as [C Hy2].
  apply andb_true_iff in C. destruct C as [_ Hy1].
  apply digit_val_range in Hy1, Hy2.
  destruct (DT.month_index _ _ _) as [mm|]; [|discriminate].
  cbv zeta.
  match goal with
  | |- context [10 * DT.digit_val ?a + DT.digit_val ?b] =>
      remember (10 * DT.digit_val a + DT.digit_val b) as yy eqn:Hyy
  end.
  match goal with
  | |- (if DT.valid ?x then _ else _) = _ -> _ =>
      destruct (DT.valid x); [|discriminate]
  end.
  intros [= <-]. cbn [DT.year].
  destruct (yy <=? 68) eqn:E;
    [apply Z.leb_le in E | apply Z.leb_gt in E]; lia.
Qed.

(** The years [strptime] returns. *)
Lemma strptime_year_range (s : string) (d : DT.datetime) :
  DT.strptime s = Some d -> 1969 <= DT.year d <= 2068.
Proof.
  unfold DT.strptime. generalize (DT.day_alternatives (list_ascii_of_string s)).
  intros alts. induction alts as [|[dd r] alts IH]; simpl; [discriminate|].
  destruct (DT.parse_after_day dd r) as [d0|] eqn:P.
  - intros [= <-]. apply (parse_after_day_year _ _ _ P).
  - exact IH.
Qed.

Lemma strptime_before_max (s : string) (d : DT.datetime) :
  DT.strptime s = Some d -> DT.key d < DT.key Writer.datetime_max.
Proof.
  intros H. pose proof (strptime_year_range s d H) as Hy.
  apply strptime_valid in H. unfold DT.valid in H.
  repeat (apply andb_true_iff in H; destruct H as [H ?]).
  pose proof (days_in_month_bounds (DT.year d) (DT.month d)).
  unfold DT.key, Writer.datetime_max. cbn [DT.year DT.month DT.day]. lia.
Qed.

Lemma writer_rows_with_dates (style_number : string) (rows : list Report.row) :
  fst (Writer.rows_with_dates style_number rows)
  = map (fun r => (r, WriterView.sort_date r)) rows.
Proof.
  induction rows as [|r rows IH]; [reflexivity|].
  cbn [Writer.rows_with_dates map].
  destruct (Writer.rows_with_dates style_number rows) as [l lg].
  cbn [fst] in IH. unfold WriterView.sort_date, WriterView.date_of.
  destruct (DT.strptime (Agg.Date (Report.columns r))); cbn [fst];
    rewrite IH; reflexivity.
Qed.

Lemma writer_not_after (a b : Report.row) :
  DT.key (WriterView.sort_date a) <= DT.key (WriterView.sort_date b)
  <-> WriterView.not_after a b.
Proof.
  unfold WriterView.not_after, WriterView.sort_date, WriterView.date_of.
  destruct (DT.strptime (Agg.Date (Report.columns a))) as [da|] eqn:A,
           (DT.strptime (Agg.Date (Report.columns b))) as [db|] eqn:B.
  - reflexivity.
  - pose proof (strptime_before_max _ _ A). split; [trivial | lia].
  - pose proof (strptime_before_max _ _ B). split; [lia | tauto].
  - split; [trivial | lia].
Qed.

Lemma writer_on (d : option DT.datetime) (r : Report.row) :
  WriterView.on d r
  = (DT.key (WriterView.sort_date r)
     =? DT.key (match d with Some x => x | None => Writer.datetime_max end))
    && match d, WriterView.date_of r with
       | Some _, Some _ | None, None => true
       | _, _ => false
       end.
Proof.
  unfold WriterView.on, WriterView.sort_date.
  destruct d as [d1|], (WriterView.date_of r) as [d2|].
  - rewrite andb_true_r. apply Z.eqb_sym.
  - rewrite andb_false_r. reflexivity.
  - rewrite andb_false_r. reflexivity.
  - rewrite Z.eqb_refl. reflexivity.
Qed.

Lemma writer_sorted_stable (style_number : string) (rows : list Report.row)
      (k : Z) (Q : Report.row -> bool) :
  filter (fun r => (DT.key (WriterView.sort_date r) =? k) && Q r)
         (Writer.sorted_rows style_number rows)
  = filter (fun r => (DT.key (WriterView.sort_date r) =? k) && Q r) rows.
Proof.
  unfold Writer.sorted_rows. rewrite writer_rows_with_dates.
  set (P := fun rd : Report.row * DT.datetime =>
              (DT.key (snd rd) =? k) && Q (fst rd)).
  assert (Hmap : forall l : list (Report.row * DT.datetime),
             (forall rd, In rd l -> snd rd = WriterView.sort_date (fst rd)) ->
             filter (fun r => (DT.key (WriterView.sort_date r) =? k) && Q r)
                    (map fst l)
             = map fst (filter P l)).
  { induction l as [|[r d] l IH]; intros Hl; [reflexivity|].
    cbn [map filter fst]. unfold P at 1. cbn [fst snd].
    pose proof (Hl (r, d) (or_introl eq_refl)) as Hd. cbn [fst snd] in Hd.
    rewrite <- Hd.
    rewrite IH by (intros rd Hrd; apply Hl; right; exact Hrd).
    destruct ((DT.key d =? k) && Q r); reflexivity. }
  rewrite Hmap.
  - unfold sort_by_date. rewrite (filter_stable_sort _ P).
    + rewrite <- Hmap.
      * rewrite map_map. cbn [fst]. rewrite map_id. reflexivity.
      * intros rd Hrd. apply in_map_iff in Hrd. destruct Hrd as (r & <- & _).
        reflexivity.
    + intros a b Ha Hb. unfold P in Ha, Hb.
      apply andb_true_iff in Ha, Hb. destruct Ha as [Ha _], Hb as [Hb _].
      apply Z.eqb_eq in Ha, Hb. unfold DT.leb. apply Z.leb_le. lia.
  - intros rd Hrd. apply sort_by_date_In, in_map_iff in Hrd.
    destruct Hrd as (r & <- & _). reflexivity.
Qed.

Lemma writer_sorted_rows_sorted (style_number : string)
      (rows : list Report.row) :
  StronglySorted WriterView.not_after (Writer.sorted_rows style_number rows).
Proof.
  unfold Writer.sorted_rows. rewrite writer_rows_with_dates.
  pose proof (sort_by_date_sorted snd
                (map (fun r => (r, WriterView.sort_date r)) rows)) as Hs.
  assert (Hall : forall rd,
             In rd (sort_by_date snd
                      (map (fun r => (r, WriterView.sort_date r)) rows)) ->
             snd rd = WriterView.sort_date (fst rd)).
  { intros rd Hrd. apply sort_by_date_In, in_map_iff in Hrd.
    destruct Hrd as (r & <- & _). reflexivity. }
  induction Hs as [|x l Hs IH Hx]; [constructor|].
  cbn [map]. constructor.
  - apply IH. intros rd Hrd. apply Hall. right. exact Hrd.
  - rewrite Forall_forall in *. intros b Hb. apply in_map_iff in Hb.
    destruct Hb as (y & <- & Hy). apply writer_not_after.
    rewrite <- (Hall x (or_introl eq_refl)), <- (Hall y (or_intror Hy)).
    exact (Hx y Hy).
Qed.

Lemma writer_sorted_rows_perm (style_number : string) (rows : list Report.row) :
  Permutation (Writer.sorted_rows style_number rows) rows.
Proof.
  unfold Writer.sorted_rows. rewrite writer_rows_with_dates.
  eapply Permutation_trans;
    [apply Permutation_map, stable_sort_perm|].
  rewrite map_map. cbn [fst]. rewrite map_id. apply Permutation_refl.
Qed.

Lemma writer_fold_frames (data : @Dict.t string (list Report.row)) acc :
  fst (fold_left Writer.style_step data acc)
  = fst acc
    ++ map (fun e => (Writer.sheet_name (fst e),
                      Writer.sorted_rows (fst e) (snd e)))
           (filter WriterView.has_rows data).
Proof.
  revert acc. induction data as [|[style rows] data IH]; intros [fr pr].
  - simpl. rewrite app_nil_r. reflexivity.
  - cbn [fold_left filter]. rewrite IH. unfold WriterView.has_rows.
    cbn [Writer.style_step fst snd]. destruct rows as [|r rows]; cbn [fst map].
    + reflexivity.
    + rewrite <- app_assoc. reflexivity.
Qed.

Lemma substring_prefix (n : nat) (s : string) :
  String.prefix (String.substring 0 n s) s = true
  /\ String.length (String.substring 0 n s) = Nat.min n (String.length s).
Proof.
  revert s. induction n as [|n IH]; intros s.
  - destruct s; split; reflexivity.
  - destruct s as [|c s]; [split; reflexivity|].
    cbn [String.substring String.prefix String.length Nat.min].
    destruct (IH s) as [Hp Hl]. rewrite Hl. split; [|reflexivity].
    destruct (ascii_dec c c) as [_ | Hne]; [exact Hp | contradiction].
Qed.

(** X12: the writer hands one frame to the workbook for every style
    that has rows, in the order of the dict, and none for a style
    without rows; the sheet name is the style number cut to its first
    31 characters.  The rows of a frame are the rows of the style
    reordered by date: a rearrangement of them, each row dated no later
    than the rows after it, the rows whose date does not parse at the
    end, and the rows of one date (as the rows without a date) in the
    order they had. *)
Theorem X12_report_frames_are_the_rows_in_date_order :
  (forall data,
      Writer.frames data
      = map (fun e => (Writer.sheet_name (fst e),
                       Writer.sorted_rows (fst e) (snd e)))
            (filter WriterView.has_rows data))
  /\ (forall style_number rows,
         Permutation (Writer.sorted_rows style_number rows) rows
         /\ StronglySorted WriterView.not_after
                           (Writer.sorted_rows style_number rows)
         /\ forall d, filter (WriterView.on d)
                             (Writer.sorted_rows style_number rows)
                      = filter (WriterView.on d) rows)
  /\ (forall style_number,
         String.prefix (Writer.sheet_name style_number) style_number = true
         /\ String.length (Writer.sheet_name style_number)
            = Nat.min 31 (String.length style_number)).
Proof.
  split; [|split].
  - intros data. unfold Writer.frames, Writer.run.
    rewrite writer_fold_frames. reflexivity.
  - intros style_number rows. split; [apply writer_sorted_rows_perm|].
    split; [apply writer_sorted_rows_sorted|]. intros d.
    rewrite (filter_ext _ _ (writer_on d)).
    rewrite (filter_ext _ _ (writer_on d) rows).
    apply (writer_sorted_stable style_number rows _
             (fun r => match d, WriterView.date_of r with
                       | Some _, Some _ | None, None => true
                       | _, _ => false
                       end)).
  - intros style_number. apply substring_prefix.
Qed.

(** In the example the long style number is cut to 31 characters, the
    row without a date goes last, the two rows of 2 January keep their
    order, and the style without rows gets no frame. *)
Lemma X12_witness :
  map (fun f => (fst f, map (fun r => (Agg.PO (Report.columns r),
                                       Agg.Date (Report.columns r)))
                            (snd f)))
      (Writer.frames WriterView.two_styles)
  = [("STYLE-WITH-A-VERY-LONG-NUMBER-0",
      [("200", "01/Jan/25"); ("100", "02/Jan/25"); ("200", "02/Jan/25");
       ("100", "someday")])]
  /\ List.length (Writer.frames WriterView.two_styles) = 1%nat.
Proof.
  split; [vm_compute; reflexivity|].
  rewrite (proj1 X12_report_frames_are_the_rows_in_date_order
             WriterView.two_styles).
  reflexivity.
Defined.

(** ** The whole run *)

(** *** The order quantity *)

Lemma order_quantity_fold_get (data : list Actual.row)
      (d0 : @Dict.t (string * string * string) Z) (k : string * string * string) :
  Dict.get k
    (fold_left
       (fun lookup row =>
          let combo_key :=
            Pipeline.lookup_key (Actual.Style_No row) (Actual.PO row)
                                (Actual.Colour row) in
          if Dict.mem combo_key lookup then lookup
          else Dict.set combo_key
                        (match Actual.Order_Quantity row with
                         | Some q => q
                         | None => 0
                         end)
                        lookup)
       data d0)
  = match Dict.get k d0 with
    | Some q => Some q
    | None =>
        option_map PipelineView.order_quantity
          (find (fun r => eqb (Pipeline.lookup_key (Actual.Style_No r)
                                 (Actual.PO r) (Actual.Colour r)) k)
                data)
    end.
Proof.
  revert d0. induction data as [|r data IH]; intros d0.
  - simpl. destruct (Dict.get k d0); reflexivity.
  - cbn [fold_left find]. rewrite IH. clear IH. cbv zeta.
    set (ck := Pipeline.lookup_key (Actual.Style_No r) (Actual.PO r)
                                   (Actual.Colour r)).
    unfold Dict.mem. destruct (eqb ck k) eqn:E.
    + apply eqb_iff in E. subst k.
      destruct (Dict.get ck d0) as [q|] eqn:G.
      * rewrite G. reflexivity.
      * rewrite dict_get_set_same. reflexivity.
    + apply eqb_false_iff in E.
      destruct (Dict.get ck d0) as [q|] eqn:G.
      * reflexivity.
      * rewrite dict_get_set_other by exact E. reflexivity.
Qed.

Lemma order_quantity_get (data : list Actual.row) (k : string * string * string) :
  Dict.get k (Pipeline.order_quantity_lookup data)
  = option_map PipelineView.order_quantity
      (find (fun r => eqb (Pipeline.lookup_key (Actual.Style_No r)
                             (Actual.PO r) (Actual.Colour r)) k)
            data).
Proof.
  unfold Pipeline.order_quantity_lookup.
  rewrite order_quantity_fold_get. reflexivity.
Qed.

(** X13: the order quantity stamped on a report row is that of the
    FIRST daily row, in the order of ingestion, of the same lot, the lot
    being the style in upper case, the PO and the colour in lower case,
    all three stripped; the order quantities of later rows of the lot
    are never used, and a lot without a daily row gets 0.  The stamp
    leaves the 35 columns of the row as they are. *)
Theorem X13_order_quantity_is_that_of_the_first_daily_row
        (daily_prod_data : list Actual.row) (row : Agg.row) :
  Report.Order_Quantity
    (Pipeline.stamp (Pipeline.order_quantity_lookup daily_prod_data) row)
  = match find (PipelineView.same_lot row) daily_prod_data with
    | Some r => PipelineView.order_quantity r
    | None => 0
    end
  /\ Report.columns
       (Pipeline.stamp (Pipeline.order_quantity_lookup daily_prod_data) row)
     = row.
Proof.
  split; [|reflexivity].
  unfold Pipeline.stamp. cbn [Report.Order_Quantity].
  rewrite order_quantity_get.
  change (fun r => eqb (Pipeline.lookup_key (Actual.Style_No r) (Actual.PO r)
                          (Actual.Colour r))
                       (Pipeline.lookup_key (Agg.Style_No row) (Agg.PO row)
                          (Agg.Colour row)))
    with (PipelineView.same_lot row).
  destruct (find (PipelineView.same_lot row) daily_prod_data); reflexivity.
Qed.

(** *** What reaches the report *)

Lemma pipeline_fold_In plan daywise lookup (styles : list string)
      (d0 : @Dict.t string (list Report.row)) style rows :
  In (style, rows)
     (fold_left (Pipeline.style_step plan daywise lookup) styles d0) ->
  In (style, rows) d0
  \/ (In style styles
      /\ Pipeline.style_rows plan daywise lookup style = Some rows).
Proof.
  revert d0. induction styles as [|s styles IH]; intros d0; cbn [fold_left].
  - auto.
  - intros Hin. destruct (IH _ Hin) as [H0 | [Hs Hr]].
    + unfold Pipeline.style_step in H0.
      destruct (Pipeline.style_rows plan daywise lookup s) as [rs|] eqn:R.
      * apply dict_set_In in H0. destruct H0 as [[-> ->] | H0].
        -- right. split; [left; reflexivity | exact R].
        -- left. exact H0.
      * left. exact H0.
    + right. split; [right; exact Hs | exact Hr].
Qed.

Lemma style_rows_some plan daywise lookup style rows :
  Pipeline.style_rows plan daywise lookup style = Some rows ->
  rows = map (Pipeline.stamp lookup)
             (Agg.add_cumulative_columns_to_matched_dict
                (Prune.delete_empty_rows
                   (Match.match_plan_with_actual
                      (Pipeline.plan_rows plan style) daywise style)))
  /\ rows <> [].
Proof.
  unfold Pipeline.style_rows.
  destruct (Pipeline.plan_rows plan style) as [|p ps]; [discriminate|].
  destruct (Match.match_plan_with_actual (p :: ps) daywise style)
    as [|m ms]; [discriminate|].
  destruct (Prune.delete_empty_rows (m :: ms)) as [|m' ms']; [discriminate|].
  destruct (Agg.add_cumulative_columns_to_matched_dict (m' :: ms'))
    as [|o os]; [discriminate|].
  intros [= <-]. split; [reflexivity | discriminate].
Qed.

Lemma agg_row_base (matched_data : list Matched.row) (o : Agg.row) :
  In o (Agg.add_cumulative_columns_to_matched_dict matched_data) ->
  In (AggView2.base o) matched_data
  /\ DT.strptime (Agg.Date o) <> None.
Proof.
  intros Hin. apply agg_output_In, agg_result_rows_In in Hin.
  destruct Hin as ([k rows] & Hg & Hin). cbn [snd] in Hin.
  unfold Agg.process_group in Hin. apply agg_loop_In in Hin.
  destruct Hin as (r & d & c & Hrd & ->).
  apply sort_by_date_In in Hrd.
  destruct (group_ok matched_data) as [_ Hall].
  destruct (Hall k rows Hg (r, d) Hrd) as (_ & Hp & Hr). cbn [fst snd] in *.
  rewrite base_new_row. split; [exact Hr|].
  destruct r. cbn in *. congruence.
Qed.

Lemma qsum_non_negative (f : Matched.row -> Z)
      (l : list (Matched.row * DT.datetime)) :
  (forall rd, In rd l -> 0 <= f (fst rd)) -> 0 <= AggView.qsum f l.
Proof.
  induction l as [|x l IH]; intros H; cbn [AggView.qsum fold_right]; [lia|].
  fold (AggView.qsum f l).
  pose proof (H x (or_introl eq_refl)).
  pose proof (IH (fun y Hy => H y (or_intror Hy))). lia.
Qed.

Lemma cumulative_actual_non_negative (matched_data : list Matched.row)
      (o : Agg.row) (s : stage) :
  (forall m, In m matched_data -> 0 <= Matched.actual s m) ->
  In o (Agg.add_cumulative_columns_to_matched_dict matched_data) ->
  0 <= Agg.cumulative_actual s o.
Proof.
  intros Hnn Hin.
  destruct (agg_row_cumulative matched_data o Hin)
    as (rows & d & Hg & _ & Hsum).
  destruct (Hsum s) as [_ ->]. apply qsum_non_negative.
  intros rd Hrd. apply filter_In in Hrd. destruct Hrd as [Hrd _].
  destruct (group_ok matched_data) as [_ Hall].
  destruct (Hall _ rows Hg rd Hrd) as (_ & _ & Hm). apply Hnn, Hm.
Qed.

Lemma matched_actual_non_negative (plan_data : list Plan.row)
      (daily_prod_data : list Actual.row) (style_number : string)
      (m : Matched.row) :
  (forall a, In a daily_prod_data -> Sample.non_negative_actual a) ->
  In m (Match.match_plan_with_actual plan_data daily_prod_data style_number) ->
  forall s, 0 <= Matched.actual s m.
Proof.
  intros Hnn Hm s. apply match_In in Hm.
  destruct Hm as ([po colour] & date & _ & _ & _ & ->). cbn [fst snd].
  rewrite actual_lookup.
  destruct (MatchView.last_actual_row daily_prod_data style_number
              (po, colour) date) as [a|] eqn:L.
  - rewrite matched_row_actual. unfold MatchView.last_actual_row in L.
    apply last_some_In, filter_In in L. destruct L as [L _].
    apply filter_In in L. destruct L as [L _]. apply (Hnn a L).
  - rewrite matched_row_no_actual. lia.
Qed.

Lemma daywise_rows_non_negative (daily : Pipeline.daily_file) (o : Actual.row) :
  In o (Daywise.convert_cumulative_to_daywise_quantities_for_daily_prod
          (Pipeline.daily_rows daily)) ->
  Sample.non_negative_actual o.
Proof.
  rewrite convert_outputs. intros Hin.
  refine (outputs_non_negative [] _ _ o Hin).
  intros [d row] Hdr. apply sort_by_date_In, dated_rows_In in Hdr.
  destruct Hdr as [Hr _]. cbn [snd]. intros s.
  destruct daily as [sheets|]; [|destruct Hr].
  apply (actual_rows_ok sheets row Hr).
Qed.

Lemma stamp_non_negative (daily : Pipeline.daily_file) (row : Agg.row) :
  0 <= Report.Order_Quantity
         (Pipeline.stamp
            (Pipeline.order_quantity_lookup (Pipeline.daily_rows daily)) row).
Proof.
  unfold Pipeline.stamp. cbn [Report.Order_Quantity].
  rewrite order_quantity_get.
  destruct (find _ (Pipeline.daily_rows daily)) as [r|] eqn:F;
    cbn [option_map]; [|lia].
  apply find_some in F. destruct F as [Hr _].
  destruct daily as [sheets|]; [|destruct Hr].
  destruct (actual_rows_ok sheets r Hr) as (_ & (n & Hn & Hpos) & _).
  unfold PipelineView.order_quantity. rewrite Hn. exact Hpos.
Qed.

Lemma pipeline_report plan daily d :
  Pipeline.do_everything plan daily = Pipeline.Report d ->
  d <> []
  /\ forall style rows,
       In (style, rows) d ->
       In style (StyleNumbers.get_style_numbers_from_plan
                   (Pipeline.style_workbook plan))
       /\ Pipeline.style_rows plan
            (Daywise.convert_cumulative_to_daywise_quantities_for_daily_prod
               (Pipeline.daily_rows daily))
            (Pipeline.order_quantity_lookup (Pipeline.daily_rows daily))
            style
          = Some rows.
Proof.
  unfold Pipeline.do_everything.
  destruct (StyleNumbers.get_style_numbers_from_plan
              (Pipeline.style_workbook plan)) as [|s0 styles] eqn:S;
    [discriminate|].
  destruct (Pipeline.daily_rows daily) as [|r0 data] eqn:D; [discriminate|].
  cbv zeta.
  destruct (Daywise.convert_cumulative_to_daywise_quantities_for_daily_prod
              (r0 :: data)) as [|w0 dw] eqn:W; [discriminate|].
  match goal with
  | |- context [fold_left ?f ?l ?a] =>
      destruct (fold_left f l a) as [|e0 es] eqn:F; [discriminate|]
  end.
  intros [= <-]. split; [discriminate|].
  intros style rows Hin. rewrite <- F in Hin.
  apply pipeline_fold_In in Hin. destruct Hin as [[] | H]. exact H.
Qed.

(** X14: every row of the dict handed to the writer belongs to a style
    whose sheet of the plan could be read, and carries that style
    number; its PO and colour are those of a plan row of the style; its
    date parses; its ten day quantities do not add up to 0; its actual
    day quantities and its cumulative actual quantities are not
    negative, whatever the daily sheets hold; and its order quantity is
    not negative.  No style of the dict is without rows. *)
Theorem X14_rows_of_the_report
        (plan : Pipeline.plan_file) (daily : Pipeline.daily_file)
        (matched_data_by_style : @Dict.t string (list Report.row))
        (style_number : string) (rows : list Report.row) (r : Report.row) :
  Pipeline.do_everything plan daily = Pipeline.Report matched_data_by_style ->
  In (style_number, rows) matched_data_by_style ->
  In r rows ->
  In style_number (StyleNumbers.get_style_numbers_from_plan
                     (Pipeline.style_workbook plan))
  /\ Agg.Style_No (Report.columns r) = style_number
  /\ (exists p, In p (Pipeline.plan_rows plan style_number)
                /\ Match.same_style (Plan.Style_No p) style_number = true
                /\ Match.plan_key p
                   = (Agg.PO (Report.columns r), Agg.Colour (Report.columns r)))
  /\ DT.strptime (Agg.Date (Report.columns r)) <> None
  /\ Prune.total_quantity (AggView2.base (Report.columns r)) <> 0
  /\ (forall s,
         0 <= Matched.actual s (AggView2.base (Report.columns r))
         /\ 0 <= Agg.cumulative_actual s (Report.columns r))
  /\ 0 <= Report.Order_Quantity r.
Proof.
  intros Hrun Hentry Hr.
  destruct (pipeline_report plan daily _ Hrun) as [_ Hall].
  destruct (Hall style_number rows Hentry) as [Hstyle Hrows].
  apply style_rows_some in Hrows. destruct Hrows as [-> _].
  apply in_map_iff in Hr. destruct Hr as (o & <- & Ho).
  split; [exact Hstyle|]. cbn [Report.columns Pipeline.stamp].
  destruct (agg_row_base _ o Ho) as [Hbase Hdate].
  pose proof Hbase as Hpruned. apply delete_empty_rows_In in Hpruned.
  destruct Hpruned as [Hm Htotal].
  assert (Hact : forall m,
             In m (Match.match_plan_with_actual
                     (Pipeline.plan_rows plan style_number)
                     (Daywise.convert_cumulative_to_daywise_quantities_for_daily_prod
                        (Pipeline.daily_rows daily)) style_number) ->
             forall s, 0 <= Matched.actual s m).
  { intros m Hin. eapply matched_actual_non_negative; [|exact Hin].
    intros a Ha. apply (daywise_rows_non_negative daily a Ha). }
  split; [|split; [|split; [|split; [|split]]]].
  - pose proof Hm as Hm'. apply match_In in Hm'.
    destruct Hm' as (k & date & _ & _ & _ & E).
    rewrite <- (matched_row_style style_number (fst k) (snd k) date
                  (MatchView.lookup
                     (Match.plan_by_combo
                        (Match.plan_for_style
                           (Pipeline.plan_rows plan style_number) style_number))
                     k date)
                  (MatchView.lookup
                     (Match.actual_by_combo
                        (Match.actual_for_style
                           (Daywise.convert_cumulative_to_daywise_quantities_for_daily_prod
                              (Pipeline.daily_rows daily)) style_number))
                     k date)).
    rewrite <- E. reflexivity.
  - assert (Hk : In (MatchView.key_of (AggView2.base o))
                    (map MatchView.key_of
                       (Match.match_plan_with_actual
                          (Pipeline.plan_rows plan style_number)
                          (Daywise.convert_cumulative_to_daywise_quantities_for_daily_prod
                             (Pipeline.daily_rows daily)) style_number)))
      by (apply in_map; exact Hm).
    apply match_keys in Hk. destruct Hk as [(p & Hp & Hkp) _].
    exists p. apply filter_In in Hp. destruct Hp as [Hp Hs].
    split; [exact Hp|]. split; [exact Hs | exact Hkp].
  - exact Hdate.
  - exact Htotal.
  - intros s. split; [apply (Hact _ Hm)|].
    eapply cumulative_actual_non_negative; [|exact Ho].
    intros m Hin. apply delete_empty_rows_In in Hin. apply (Hact m), Hin.
  - apply stamp_non_negative.
Qed.

(** The example run: the second row of style A1, of 2 January, has no
    plan and 25 pieces cut; it carries the order quantity of the first
    day. *)
Lemma X14_witness :
  map (fun f => (fst f,
                 map (fun r => (Agg.Date (Report.columns r),
                                Agg.Planned_Cutting (Report.columns r),
                                Agg.Actual_Cutting (Report.columns r),
                                Agg.Cumulative_Actual_Cutting (Report.columns r),
                                Report.Order_Quantity r))
                     (snd f)))
      (Pipeline.frames PipelineView.plan PipelineView.daily)
  = [("A1", [("01/Jan/25", 50, 30, 30, 500); ("02/Jan/25", 0, 25, 55, 500)])]
  /\ exists d rows,
       Pipeline.do_everything PipelineView.plan PipelineView.daily
       = Pipeline.Report d
       /\ In ("A1", rows) d
       /\ 0 <= Agg.cumulative_actual Cutting
                 (Report.columns (nth 1 rows PipelineView.no_report_row)).
Proof.
  split; [vm_compute; reflexivity|].
  destruct (Pipeline.do_everything PipelineView.plan PipelineView.daily)
    as [| | | |d] eqn:Hrun; try (vm_compute in Hrun; discriminate).
  assert (Hd : exists rows, d = [("A1", rows)] /\ (List.length rows = 2)%nat).
  { vm_compute in Hrun. injection Hrun as <-. eexists. split; reflexivity. }
  destruct Hd as (rows & -> & Hlen).
  exists [("A1", rows)], rows. split; [reflexivity|].
  split; [left; reflexivity|].
  refine (proj2 (proj1 (proj2 (proj2 (proj2 (proj2 (proj2
            (X14_rows_of_the_report PipelineView.plan PipelineView.daily
               [("A1", rows)] "A1" rows
               (nth 1 rows PipelineView.no_report_row)
               Hrun (or_introl eq_refl) _)))))) Cutting)).
  apply nth_In. rewrite Hlen. lia.
Defined.

(** *** Every daily row is converted *)

Lemma daily_rows_parse (daily : Pipeline.daily_file) (r : Actual.row) :
  PipelineView.dated daily ->
  In r (Pipeline.daily_rows daily) ->
  DaywiseView2.parses r = true.
Proof.
  intros Hd Hr. destruct daily as [sheets|]; [|destruct Hr].
  destruct (actual_rows_ok sheets r Hr) as (_ & _ & sh & d & Hsh & Hp & _ & E).
  pose proof (Hd sheets sh d eq_refl Hsh Hp) as Hv.
  destruct (strptime_strftime d Hv) as (d' & Hd' & _).
  unfold DaywiseView2.parses. rewrite E, Hd'. reflexivity.
Qed.

Lemma filter_all {A : Type} (P : A -> bool) (l : list A) :
  (forall x, In x l -> P x = true) -> filter P l = l.
Proof.
  induction l as [|x l IH]; intros H; [reflexivity|]. cbn [filter].
  rewrite (H x (or_introl eq_refl)).
  rewrite IH by (intros y Hy; apply H; right; exact Hy). reflexivity.
Qed.

Lemma dated_rows_log (data : list Actual.row) :
  (forall r, In r data -> DaywiseView2.parses r = true) ->
  snd (Daywise.dated_rows data) = [].
Proof.
  induction data as [|r data IH]; intros H; [reflexivity|].
  cbn [Daywise.dated_rows].
  destruct (Daywise.dated_rows data) as [ds lg]. cbn [snd] in IH.
  pose proof (H r (or_introl eq_refl)) as Hr. unfold DaywiseView2.parses in Hr.
  destruct (DT.strptime (Actual.Date r)); [|discriminate]. cbn [snd].
  apply IH. intros y Hy. apply H. right. exact Hy.
Qed.

Lemma convert_identities (data : list Actual.row) :
  Permutation
    (map DaywiseView2.identity
         (Daywise.convert_cumulative_to_daywise_quantities_for_daily_prod data))
    (map DaywiseView2.identity (filter DaywiseView2.parses data)).
Proof.
  rewrite convert_outputs, outputs_identity, <- dated_rows_snd, map_map.
  apply Permutation_map. apply stable_sort_perm.
Qed.

(** X15: when the date read from the name of every daily sheet is a
    date, the date text of every ingested row parses again, so that the
    converter skips no row: its output is, up to order and apart from
    the quantities, the list of ingested rows, it reports no date as
    unparseable, and the run never ends with the error that the
    conversion failed. *)
Theorem X15_every_daily_row_is_converted
        (plan : Pipeline.plan_file) (daily : Pipeline.daily_file) :
  PipelineView.dated daily ->
  (forall r, In r (Pipeline.daily_rows daily) ->
             DT.strptime (Actual.Date r) <> None)
  /\ Permutation
       (map DaywiseView2.identity
            (Daywise.convert_cumulative_to_daywise_quantities_for_daily_prod
               (Pipeline.daily_rows daily)))
       (map DaywiseView2.identity (Pipeline.daily_rows daily))
  /\ (forall date_str style po colour,
         ~ In (Daywise.CouldNotParseDate date_str style po colour)
              (Daywise.log (Daywise.run (Pipeline.daily_rows daily))))
  /\ Pipeline.do_everything plan daily <> Pipeline.ErrorConversionFailed.
Proof.
  intros Hd.
  pose proof (fun r => daily_rows_parse daily r Hd) as Hparse.
  assert (Hperm : Permutation
            (map DaywiseView2.identity
               (Daywise.convert_cumulative_to_daywise_quantities_for_daily_prod
                  (Pipeline.daily_rows daily)))
            (map DaywiseView2.identity (Pipeline.daily_rows daily))).
  { pose proof (convert_identities (Pipeline.daily_rows daily)) as Hp.
    rewrite (filter_all _ _ Hparse) in Hp. exact Hp. }
  split; [|split; [exact Hperm|split]].
  - intros r Hr. specialize (Hparse r Hr). unfold DaywiseView2.parses in Hparse.
    destruct (DT.strptime (Actual.Date r)); [discriminate | discriminate].
  - intros date_str style po colour Hin.
    rewrite run_log, (dated_rows_log _ Hparse) in Hin. cbn [app] in Hin.
    revert Hin. generalize (@nil (Daywise.combo_key * Daywise.previous_data)).
    induction (sort_by_date fst (fst (Daywise.dated_rows
                                         (Pipeline.daily_rows daily))))
      as [|dr l IH]; intros prev Hin; [exact Hin|].
    cbn [DaywiseView.warnings] in Hin. apply in_app_or in Hin.
    destruct Hin as [Hin | Hin]; [|exact (IH _ Hin)].
    unfold Daywise.daywise in Hin.
    destruct (Dict.get (Daywise.key_of (snd dr)) prev) as [p|];
      [|destruct Hin].
    cbv zeta in Hin.
    destruct (Daywise.any_negative _) in Hin;
      [destruct Hin as [E | []]; discriminate | destruct Hin].
  - unfold Pipeline.do_everything.
    destruct (StyleNumbers.get_style_numbers_from_plan
                (Pipeline.style_workbook plan)); [discriminate|].
    destruct (Pipeline.daily_rows daily) as [|r0 data] eqn:D; [discriminate|].
    cbv zeta.
    destruct (Daywise.convert_cumulative_to_daywise_quantities_for_daily_prod
                (r0 :: data)) as [|w0 dw] eqn:W.
    + apply Permutation_nil in Hperm. discriminate.
    + match goal with
      | |- context [fold_left ?f ?l ?a] => destruct (fold_left f l a)
      end; discriminate.
Qed.

(** The two sheets of the example are dated; both rows are converted. *)
Lemma X15_witness :
  PipelineView.dated PipelineView.daily
  /\ Permutation
       (map DaywiseView2.identity
            (Daywise.convert_cumulative_to_daywise_quantities_for_daily_prod
               (Pipeline.daily_rows PipelineView.daily)))
       (map DaywiseView2.identity (Pipeline.daily_rows PipelineView.daily)).
Proof.
  assert (H : PipelineView.dated PipelineView.daily).
  { intros sheets sh d [= <-] [<- | [<- | []]] [= <-]; reflexivity. }
  split; [exact H|].
  exact (proj1 (proj2 (X15_every_daily_row_is_converted
                         PipelineView.plan PipelineView.daily H))).
Defined.

(** ** The ingestion loops account for every filled row *)













(** ** Text normalisation and the keys of the stages *)
































(** ** Quantities with decimals *)

From Stdlib Require Import Lqa.

Lemma is_whole_int_of (q : Q) :
  Cell.is_whole q = true -> (q == inject_Z (Cell.int_of q))%Q.
Proof. unfold Cell.is_whole. apply Qeq_bool_iff. Qed.

(** [round] returns a nearest integer. *)
Lemma round_nearest (q : Q) :
  (inject_Z (Cell.round q) - (1 # 2) <= q
   /\ q <= inject_Z (Cell.round q) + (1 # 2))%Q.
Proof.
  unfold Cell.round. cbv zeta.
  pose proof (Qfloor_le q) as H1. pose proof (Qlt_floor q) as H2.
  rewrite inject_Z_plus in H2. change (inject_Z 1) with 1%Q in H2.
  destruct (Qcompare (q - inject_Z (Qfloor q)) (1 # 2)) eqn:C.
  - apply Qeq_alt in C.
    destruct (Z.even (Qfloor q)); rewrite ?inject_Z_plus;
      change (inject_Z 1) with 1%Q; split; lra.
  - apply Qlt_alt in C. split; lra.
  - apply Qgt_alt in C. rewrite inject_Z_plus.
    change (inject_Z 1) with 1%Q. split; lra.
Qed.

(** X19: a quantity cell that holds a number is stored as a nearest
    integer, at most half a piece away from the cell, by both ingestion
    loops; a whole number is stored as it is and nothing is reported,
    and a number with decimals is reported exactly once, as rounded.
    The plan loop keeps a negative number; the daily loop stores 0 for
    it and reports it as negative. *)
Theorem X19_numeric_quantities_are_stored_as_nearest_integers (q : Q) :
  (forall s n,
      let r := PlanIngest.process_quantity s n (Cell.QtyNumber q) in
      (inject_Z (PlanIngest.quantity r) - (1 # 2) <= q
       /\ q <= inject_Z (PlanIngest.quantity r) + (1 # 2))%Q
      /\ PlanIngest.quantity_printed r = []
      /\ (Cell.is_whole q = true ->
          (q == inject_Z (PlanIngest.quantity r))%Q
          /\ PlanIngest.quantity_decimals r = [])
      /\ (Cell.is_whole q = false ->
          PlanIngest.quantity_decimals r
          = [PlanIngest.mkdec (PlanIngest.column_letter s) n s q
                              (PlanIngest.quantity r)]))
  /\ (forall sheet_name n col_letter quantity_name,
         let r := ActualIngest.process_quantity sheet_name n (Cell.QtyNumber q)
                                                col_letter quantity_name in
         ((0 <= q)%Q ->
          (inject_Z (fst r) - (1 # 2) <= q /\ q <= inject_Z (fst r) + (1 # 2))%Q
          /\ (Cell.is_whole q = true ->
              (q == inject_Z (fst r))%Q /\ snd r = [])
          /\ (Cell.is_whole q = false ->
              snd r = [ActualIngest.Rounded sheet_name col_letter n
                                            quantity_name q (fst r)]))
         /\ ((q < 0)%Q ->
             r = (0, [ActualIngest.Negative sheet_name col_letter n
                                            quantity_name q]))).
Proof.
  split.
  - intros s n r. subst r. unfold PlanIngest.process_quantity.
    destruct (Cell.is_whole q) eqn:W; cbn [PlanIngest.quantity
      PlanIngest.quantity_printed PlanIngest.quantity_decimals].
    + pose proof (is_whole_int_of q W) as E.
      split; [split; lra|]. split; [reflexivity|].
      split; [intros _; split; [exact E | reflexivity] | discriminate].
    + split; [apply round_nearest|]. split; [reflexivity|].
      split; [discriminate | reflexivity].
  - intros sheet_name n col_letter quantity_name r. subst r.
    unfold ActualIngest.process_quantity. split.
    + intros Hq. apply Qle_bool_iff in Hq. rewrite Hq.
      destruct (Cell.is_whole q) eqn:W; cbn [fst snd].
      * pose proof (is_whole_int_of q W) as E.
        split; [split; lra|].
        split; [intros _; split; [exact E | reflexivity] | discriminate].
      * split; [apply round_nearest|].
        split; [discriminate | reflexivity].
    + intros Hq. destruct (Qle_bool 0 q) eqn:L; [|reflexivity].
      apply Qle_bool_iff in L. lra.
Qed.
